(** * DXR "Raytracing Starter": a shallow embedding of the ray tracing core

    The development embeds [Graphics.cpp] (descriptor-heap cursors and the
    constant-buffer upload ring) and [RayTracing.cpp] (initialisation, shader
    table, acceleration structures, output image, per-frame dispatch) as
    functions over an explicit world state, and proves the properties that
    the specification states about them.

    Conventions.
    - [UINT64], [SIZE_T] and GPU addresses are 64-bit (x64 build); [UINT] and
      [unsigned int] are 32-bit.  They are integers in [Z]; every machine
      operation writes its wrap-around out ([add64], [mul64], [u32], ...).
    - A [ComPtr<T>] is an [option]; [->] on a null pointer stops the program
      ([Crash]), keeping the state reached so far.
    - The D3D12 device is an environment ([Platform]): what it answers to
      queries is a parameter.  Object and resource creation by the device is
      taken to succeed; the header constants of [d3d12.h] are parameters too.
    - Every call into the device, the command list or the command queue is
      appended to a trace ([calls]).
    - Floating point (the camera matrices) is not modelled: [Raytrace] takes
      the bytes of its [RaytracingSceneData] as an argument. *)

From Stdlib Require Import ZArith List Lia Bool String.
From coqutil Require Import Word.LittleEndianList.
Import ListNotations.
Local Open Scope Z_scope.

(* ================================================================= *)
(** ** Machine integers *)

Definition u64 (z : Z) : Z := z mod 2 ^ 64.
Definition u32 (z : Z) : Z := z mod 2 ^ 32.

Definition add64 (a b : Z) : Z := u64 (a + b).
Definition sub64 (a b : Z) : Z := u64 (a - b).
Definition mul64 (a b : Z) : Z := u64 (a * b).
Definition add32 (a b : Z) : Z := u32 (a + b).

Definition is_u64 (z : Z) : Prop := 0 <= z < 2 ^ 64.
Definition is_u32 (z : Z) : Prop := 0 <= z < 2 ^ 32.

(** [#define ALIGN(value, alignment)
       (((value + alignment - 1) / alignment) * alignment)]
    at type [UINT64]. *)
Definition ALIGN (value alignment : Z) : Z :=
  mul64 (sub64 (add64 value alignment) 1 / alignment) alignment.

(** The specification's [align(v, a)]: [v] rounded up to the next multiple
    of [a], over the unbounded integers. *)
Definition align_up (v a : Z) : Z := (v + a - 1) / a * a.

(** [(reservationSize + 255) / 256 * 256] at type [SIZE_T]. *)
Definition round256 (n : Z) : Z := mul64 (add64 n 255 / 256) 256.

Arguments u64 : simpl never.
Arguments u32 : simpl never.
Arguments add64 : simpl never.
Arguments sub64 : simpl never.
Arguments mul64 : simpl never.
Arguments add32 : simpl never.
Arguments ALIGN : simpl never.
Arguments round256 : simpl never.

(* ================================================================= *)
(** ** Data of the D3D12 interface, as far as the code uses it *)

(** An [HRESULT] is a signed 32-bit integer; [FAILED] tests its sign. *)
Definition HRESULT := Z.
Definition S_OK : HRESULT := 0.
Definition E_FAIL : HRESULT := -2147467259. (* 0x80004005 *)
Definition FAILED (hr : HRESULT) : bool := hr <? 0.

Inductive D3D12_RAYTRACING_TIER :=
| D3D12_RAYTRACING_TIER_NOT_SUPPORTED
| D3D12_RAYTRACING_TIER_1_0
| D3D12_RAYTRACING_TIER_1_1.

Definition tier_not_supported (t : D3D12_RAYTRACING_TIER) : bool :=
  match t with D3D12_RAYTRACING_TIER_NOT_SUPPORTED => true | _ => false end.

Definition ComPtr (T : Type) : Type := option T.

Definition is_null {T} (p : ComPtr T) : bool :=
  match p with Some _ => false | None => true end.

Inductive D3D12_HEAP_TYPE := D3D12_HEAP_TYPE_DEFAULT | D3D12_HEAP_TYPE_UPLOAD.

Inductive D3D12_RESOURCE_STATES :=
| D3D12_RESOURCE_STATE_COMMON
| D3D12_RESOURCE_STATE_GENERIC_READ
| D3D12_RESOURCE_STATE_UNORDERED_ACCESS
| D3D12_RESOURCE_STATE_RAYTRACING_ACCELERATION_STRUCTURE
| D3D12_RESOURCE_STATE_DEPTH_WRITE
| D3D12_RESOURCE_STATE_COPY_SOURCE
| D3D12_RESOURCE_STATE_COPY_DEST
| D3D12_RESOURCE_STATE_PRESENT.

Inductive D3D12_RESOURCE_FLAGS :=
| D3D12_RESOURCE_FLAG_NONE
| D3D12_RESOURCE_FLAG_ALLOW_DEPTH_STENCIL
| D3D12_RESOURCE_FLAG_ALLOW_UNORDERED_ACCESS.

Inductive D3D12_RESOURCE_DIMENSION :=
| D3D12_RESOURCE_DIMENSION_BUFFER
| D3D12_RESOURCE_DIMENSION_TEXTURE2D.

Record D3D12_RESOURCE_DESC := {
  Dimension : D3D12_RESOURCE_DIMENSION;
  Alignment : Z;
  Width : Z;
  Height : Z;
  Flags : D3D12_RESOURCE_FLAGS
}.

(** A created resource: the device's number for it, its GPU virtual address
    and the description it was created from. *)
Record ID3D12Resource := {
  res_id : nat;
  GetGPUVirtualAddress : Z;
  GetDesc : D3D12_RESOURCE_DESC
}.

Definition Get (p : ComPtr ID3D12Resource) : option nat := option_map res_id p.

Inductive D3D12_RESOURCE_BARRIER :=
| BARRIER_TRANSITION (pResource : option nat)
                     (StateBefore StateAfter : D3D12_RESOURCE_STATES)
| BARRIER_UAV (pResource : option nat).

Inductive D3D12_DESCRIPTOR_RANGE_TYPE :=
| D3D12_DESCRIPTOR_RANGE_TYPE_SRV
| D3D12_DESCRIPTOR_RANGE_TYPE_UAV
| D3D12_DESCRIPTOR_RANGE_TYPE_CBV.

Record D3D12_DESCRIPTOR_RANGE := {
  RangeType : D3D12_DESCRIPTOR_RANGE_TYPE;
  NumDescriptors : Z;
  BaseShaderRegister : Z
}.

Inductive D3D12_ROOT_PARAMETER :=
| ROOT_PARAMETER_DESCRIPTOR_TABLE (ranges : list D3D12_DESCRIPTOR_RANGE)
| ROOT_PARAMETER_SRV (ShaderRegister : Z).

Inductive D3D12_ROOT_SIGNATURE_FLAGS :=
| D3D12_ROOT_SIGNATURE_FLAG_NONE
| D3D12_ROOT_SIGNATURE_FLAG_LOCAL_ROOT_SIGNATURE.

Record D3D12_ROOT_SIGNATURE_DESC := {
  pParameters : list D3D12_ROOT_PARAMETER;
  RootFlags : D3D12_ROOT_SIGNATURE_FLAGS
}.

Inductive D3D12_STATE_SUBOBJECT :=
| SUBOBJECT_DXIL_LIBRARY (exportName : string)
| SUBOBJECT_HIT_GROUP (ClosestHitShaderImport HitGroupExport : string)
| SUBOBJECT_RAYTRACING_SHADER_CONFIG (MaxPayloadSizeInBytes MaxAttributeSizeInBytes : Z)
| SUBOBJECT_TO_EXPORTS_ASSOCIATION (pExports : list string) (subobjectIndex : nat)
| SUBOBJECT_LOCAL_ROOT_SIGNATURE
| SUBOBJECT_GLOBAL_ROOT_SIGNATURE
| SUBOBJECT_RAYTRACING_PIPELINE_CONFIG (MaxTraceRecursionDepth : Z).

Record D3D12_RAYTRACING_GEOMETRY_DESC := {
  VertexBuffer_StartAddress : Z;
  VertexBuffer_StrideInBytes : Z;
  VertexCount : Z;
  IndexBuffer : Z;
  IndexCount : Z
}.

Inductive D3D12_BUILD_RAYTRACING_ACCELERATION_STRUCTURE_INPUTS :=
| INPUTS_BOTTOM_LEVEL (pGeometryDescs : list D3D12_RAYTRACING_GEOMETRY_DESC)
| INPUTS_TOP_LEVEL (InstanceDescs : Z) (NumDescs : Z).

Record D3D12_RAYTRACING_ACCELERATION_STRUCTURE_PREBUILD_INFO := {
  ResultDataMaxSizeInBytes : Z;
  ScratchDataSizeInBytes : Z
}.

Record D3D12_GPU_VIRTUAL_ADDRESS_RANGE := {
  StartAddress : Z;
  SizeInBytes : Z
}.

Record D3D12_GPU_VIRTUAL_ADDRESS_RANGE_AND_STRIDE := {
  TableStartAddress : Z;
  TableSizeInBytes : Z;
  StrideInBytes : Z
}.

Record D3D12_DISPATCH_RAYS_DESC := {
  RayGenerationShaderRecord : D3D12_GPU_VIRTUAL_ADDRESS_RANGE;
  MissShaderTable : D3D12_GPU_VIRTUAL_ADDRESS_RANGE_AND_STRIDE;
  HitGroupTable : D3D12_GPU_VIRTUAL_ADDRESS_RANGE_AND_STRIDE;
  DispatchWidth : Z;
  DispatchHeight : Z;
  DispatchDepth : Z
}.

(** A mesh, as [CreateBLAS] reads it. *)
Record Mesh := {
  numIndices : Z;
  numVertices : Z;
  vbView_StrideInBytes : Z;
  vertexBuffer : ComPtr ID3D12Resource;
  indexBuffer : ComPtr ID3D12Resource
}.

(** Calls into the device, a command list or the command queue (and the two
    D3D helper functions of [d3dcompiler]/[d3d12]), in the order made. *)
Inductive Call :=
| D3D12CreateDevice
| CheckFeatureSupport_FEATURE_LEVELS
| CheckFeatureSupport_OPTIONS5
| QueryInterface_ID3D12Device5
| QueryInterface_ID3D12GraphicsCommandList4
| QueryInterface_ID3D12StateObjectProperties
| CreateCommandAllocator
| CreateCommandQueue
| CreateCommandList
| CreateSwapChain (width height : Z)
| CreateFence
| CreateRenderTargetView (backBuffer : Z)
| CreateDepthStencilView
| GetDescriptorHandleIncrementSize
| CreateDescriptorHeap (numDescriptors : Z)
| CreateCommittedResource (heap : D3D12_HEAP_TYPE) (desc : D3D12_RESOURCE_DESC)
                          (state : D3D12_RESOURCE_STATES)
| ResourceMap (resource : nat)
| ResourceUnmap (resource : nat)
| D3D12SerializeRootSignature (desc : D3D12_ROOT_SIGNATURE_DESC)
| CreateRootSignature
| D3DReadFileToBlob (file : string)
| CreateStateObject (subobjects : list D3D12_STATE_SUBOBJECT)
| GetShaderIdentifier (exportName : string)
| CreateUnorderedAccessView (resource : option nat) (dest : Z)
| CreateShaderResourceView (resource : option nat) (numElements : Z) (dest : Z)
| CreateConstantBufferView (BufferLocation : Z) (CbvSizeInBytes : Z) (dest : Z)
| GetRaytracingAccelerationStructurePrebuildInfo
    (inputs : D3D12_BUILD_RAYTRACING_ACCELERATION_STRUCTURE_INPUTS)
| BuildRaytracingAccelerationStructure
    (inputs : D3D12_BUILD_RAYTRACING_ACCELERATION_STRUCTURE_INPUTS)
    (ScratchAccelerationStructureData DestAccelerationStructureData : Z)
| ResourceBarrier (barriers : list D3D12_RESOURCE_BARRIER)
| SetDescriptorHeaps
| SetPipelineState1
| SetComputeRootSignature
| SetComputeRootDescriptorTable (RootParameterIndex : Z) (BaseDescriptor : Z)
| SetComputeRootShaderResourceView (RootParameterIndex : Z) (BufferLocation : Z)
| DispatchRays (desc : D3D12_DISPATCH_RAYS_DESC)
| CopyResource (dst src : option nat)
| CommandListClose
| ExecuteCommandLists
| CommandAllocatorReset (swapChainIndex : Z)
| CommandListReset (swapChainIndex : Z)
| QueueSignal (fenceValue : Z)
| WaitForFence (fenceValue : Z).

(** The environment: header constants of [d3d12.h] and what the device
    answers.  None of it is under the repository's sources. *)
Record Platform := {
  D3D12_SHADER_IDENTIFIER_SIZE_IN_BYTES : Z;
  sizeof_D3D12_GPU_DESCRIPTOR_HANDLE : Z;
  D3D12_RAYTRACING_SHADER_RECORD_BYTE_ALIGNMENT : Z;
  D3D12_RAYTRACING_SHADER_TABLE_BYTE_ALIGNMENT : Z;
  D3D12_RAYTRACING_ACCELERATION_STRUCTURE_BYTE_ALIGNMENT : Z;
  D3D12_DEFAULT_RESOURCE_PLACEMENT_ALIGNMENT : Z;
  D3D12_RAYTRACING_MAX_DECLARABLE_TRACE_RECURSION_DEPTH : Z;
  (* device creation and swap chain creation, checked by Graphics::Initialize *)
  createDeviceResult : HRESULT;
  createSwapChainResult : HRESULT;
  (* the three results checked by RayTracing::Initialize *)
  supportResult : HRESULT;
  RaytracingTier : D3D12_RAYTRACING_TIER;
  dxrDeviceResult : HRESULT;
  dxrCommandListResult : HRESULT;
  (* the shader-visible descriptor heap *)
  descriptorHandleIncrementSize : Z;
  GetCPUDescriptorHandleForHeapStart : Z;
  GetGPUDescriptorHandleForHeapStart : Z;
  (* sizes the device asks for an acceleration structure *)
  prebuildInfo : D3D12_BUILD_RAYTRACING_ACCELERATION_STRUCTURE_INPUTS ->
                 D3D12_RAYTRACING_ACCELERATION_STRUCTURE_PREBUILD_INFO;
  (* the compiled shader library and the identifiers of its exports;
     a null pointer for a name the pipeline does not export *)
  readFileToBlob : string -> ComPtr unit;
  shaderIdentifier : string -> option (list Byte.byte);
  (* GPU virtual address the device gives its n-th resource *)
  virtualAddressOf : nat -> Z
}.

(* ================================================================= *)
(** ** The world: the globals of both namespaces and the device side *)

(** The variables of [namespace Graphics] that the ray tracer's helpers read or
    write.  The mapped address [cbUploadHeapStartAddress] is the start of
    [CBUploadHeap]'s contents; the two fences live and die with the queue. *)
Record GraphicsState := Build_GraphicsState {
  apiInitialized : bool;
  Device : ComPtr unit;
  CommandQueue : ComPtr unit;
  CommandList : ComPtr unit;
  CBVSRVDescriptorHeap : ComPtr unit;
  CBUploadHeap : ComPtr ID3D12Resource;
  WaitFenceCounter : Z;
  cbvSrvDescriptorHeapIncrementSize : Z;
  cbvDescriptorOffset : Z;
  srvDescriptorOffset : Z;
  cbUploadHeapSizeInBytes : Z;
  cbUploadHeapOffsetInBytes : Z
}.

(** The variables of [namespace RayTracing] ([RayTracing.h] and the anonymous
    namespace of [RayTracing.cpp]). *)
Record RayTracingState := Build_RayTracingState {
  dxrAvailable : bool;
  dxrInitialized : bool;
  DXRDevice : ComPtr unit;
  DXRCommandList : ComPtr unit;
  GlobalRaytracingRootSig : ComPtr unit;
  LocalRaytracingRootSig : ComPtr unit;
  RaytracingPipelineStateObject : ComPtr unit;
  RaytracingPipelineProperties : ComPtr unit;
  ShaderTable : ComPtr ID3D12Resource;
  ShaderTableRecordSize : Z;
  TLASScratchBuffer : ComPtr ID3D12Resource;
  BLASScratchBuffer : ComPtr ID3D12Resource;
  TLASInstanceDescBuffer : ComPtr ID3D12Resource;
  TLAS : ComPtr ID3D12Resource;
  BLAS : ComPtr ID3D12Resource;
  RaytracingOutput : ComPtr ID3D12Resource;
  RaytracingOutputUAV_CPU : Z;
  RaytracingOutputUAV_GPU : Z;
  indexBufferSRV : Z;
  vertexBufferSRV : Z
}.

(** The device side: how many resources exist, the CPU-visible contents of
    each (by resource number and byte offset), and the trace of calls. *)
Record DeviceState := Build_DeviceState {
  created : nat;
  memory : nat -> Z -> Byte.byte;
  calls : list Call
}.

(** Everything together, with the window's client size ([Window::Width()],
    [Window::Height()]). *)
Record World := Build_World {
  graphics : GraphicsState;
  raytracing : RayTracingState;
  device : DeviceState;
  Window_Width : Z;
  Window_Height : Z
}.

Definition set_apiInitialized (v : bool) (g : GraphicsState) : GraphicsState :=
  Build_GraphicsState v (Device g) (CommandQueue g) (CommandList g)
    (CBVSRVDescriptorHeap g) (CBUploadHeap g) (WaitFenceCounter g)
    (cbvSrvDescriptorHeapIncrementSize g) (cbvDescriptorOffset g)
    (srvDescriptorOffset g) (cbUploadHeapSizeInBytes g)
    (cbUploadHeapOffsetInBytes g).

Definition set_Device (v : ComPtr unit) (g : GraphicsState) : GraphicsState :=
  Build_GraphicsState (apiInitialized g) v (CommandQueue g) (CommandList g)
    (CBVSRVDescriptorHeap g) (CBUploadHeap g) (WaitFenceCounter g)
    (cbvSrvDescriptorHeapIncrementSize g) (cbvDescriptorOffset g)
    (srvDescriptorOffset g) (cbUploadHeapSizeInBytes g)
    (cbUploadHeapOffsetInBytes g).

Definition set_CommandQueue (v : ComPtr unit) (g : GraphicsState) : GraphicsState :=
  Build_GraphicsState (apiInitialized g) (Device g) v (CommandList g)
    (CBVSRVDescriptorHeap g) (CBUploadHeap g) (WaitFenceCounter g)
    (cbvSrvDescriptorHeapIncrementSize g) (cbvDescriptorOffset g)
    (srvDescriptorOffset g) (cbUploadHeapSizeInBytes g)
    (cbUploadHeapOffsetInBytes g).

Definition set_CommandList (v : ComPtr unit) (g : GraphicsState) : GraphicsState :=
  Build_GraphicsState (apiInitialized g) (Device g) (CommandQueue g) v
    (CBVSRVDescriptorHeap g) (CBUploadHeap g) (WaitFenceCounter g)
    (cbvSrvDescriptorHeapIncrementSize g) (cbvDescriptorOffset g)
    (srvDescriptorOffset g) (cbUploadHeapSizeInBytes g)
    (cbUploadHeapOffsetInBytes g).

Definition set_CBVSRVDescriptorHeap (v : ComPtr unit) (g : GraphicsState) : GraphicsState :=
  Build_GraphicsState (apiInitialized g) (Device g) (CommandQueue g)
    (CommandList g) v (CBUploadHeap g) (WaitFenceCounter g)
    (cbvSrvDescriptorHeapIncrementSize g) (cbvDescriptorOffset g)
    (srvDescriptorOffset g) (cbUploadHeapSizeInBytes g)
    (cbUploadHeapOffsetInBytes g).

Definition set_CBUploadHeap (v : ComPtr ID3D12Resource) (g : GraphicsState) : GraphicsState :=
  Build_GraphicsState (apiInitialized g) (Device g) (CommandQueue g)
    (CommandList g) (CBVSRVDescriptorHeap g) v (WaitFenceCounter g)
    (cbvSrvDescriptorHeapIncrementSize g) (cbvDescriptorOffset g)
    (srvDescriptorOffset g) (cbUploadHeapSizeInBytes g)
    (cbUploadHeapOffsetInBytes g).

Definition set_WaitFenceCounter (v : Z) (g : GraphicsState) : GraphicsState :=
  Build_GraphicsState (apiInitialized g) (Device g) (CommandQueue g)
    (CommandList g) (CBVSRVDescriptorHeap g) (CBUploadHeap g) v
    (cbvSrvDescriptorHeapIncrementSize g) (cbvDescriptorOffset g)
    (srvDescriptorOffset g) (cbUploadHeapSizeInBytes g)
    (cbUploadHeapOffsetInBytes g).

Definition set_cbvSrvDescriptorHeapIncrementSize (v : Z) (g : GraphicsState) : GraphicsState :=
  Build_GraphicsState (apiInitialized g) (Device g) (CommandQueue g)
    (CommandList g) (CBVSRVDescriptorHeap g) (CBUploadHeap g)
    (WaitFenceCounter g) v (cbvDescriptorOffset g) (srvDescriptorOffset g)
    (cbUploadHeapSizeInBytes g) (cbUploadHeapOffsetInBytes g).

Definition set_cbvDescriptorOffset (v : Z) (g : GraphicsState) : GraphicsState :=
  Build_GraphicsState (apiInitialized g) (Device g) (CommandQueue g)
    (CommandList g) (CBVSRVDescriptorHeap g) (CBUploadHeap g)
    (WaitFenceCounter g) (cbvSrvDescriptorHeapIncrementSize g) v
    (srvDescriptorOffset g) (cbUploadHeapSizeInBytes g)
    (cbUploadHeapOffsetInBytes g).

Definition set_srvDescriptorOffset (v : Z) (g : GraphicsState) : GraphicsState :=
  Build_GraphicsState (apiInitialized g) (Device g) (CommandQueue g)
    (CommandList g) (CBVSRVDescriptorHeap g) (CBUploadHeap g)
    (WaitFenceCounter g) (cbvSrvDescriptorHeapIncrementSize g)
    (cbvDescriptorOffset g) v (cbUploadHeapSizeInBytes g)
    (cbUploadHeapOffsetInBytes g).

Definition set_cbUploadHeapSizeInBytes (v : Z) (g : GraphicsState) : GraphicsState :=
  Build_GraphicsState (apiInitialized g) (Device g) (CommandQueue g)
    (CommandList g) (CBVSRVDescriptorHeap g) (CBUploadHeap g)
    (WaitFenceCounter g) (cbvSrvDescriptorHeapIncrementSize g)
    (cbvDescriptorOffset g) (srvDescriptorOffset g) v
    (cbUploadHeapOffsetInBytes g).

Definition set_cbUploadHeapOffsetInBytes (v : Z) (g : GraphicsState) : GraphicsState :=
  Build_GraphicsState (apiInitialized g) (Device g) (CommandQueue g)
    (CommandList g) (CBVSRVDescriptorHeap g) (CBUploadHeap g)
    (WaitFenceCounter g) (cbvSrvDescriptorHeapIncrementSize g)
    (cbvDescriptorOffset g) (srvDescriptorOffset g)
    (cbUploadHeapSizeInBytes g) v.

Definition set_dxrAvailable (v : bool) (r : RayTracingState) : RayTracingState :=
  Build_RayTracingState v (dxrInitialized r) (DXRDevice r)
    (DXRCommandList r) (GlobalRaytracingRootSig r)
    (LocalRaytracingRootSig r) (RaytracingPipelineStateObject r)
    (RaytracingPipelineProperties r) (ShaderTable r)
    (ShaderTableRecordSize r) (TLASScratchBuffer r) (BLASScratchBuffer r)
    (TLASInstanceDescBuffer r) (TLAS r) (BLAS r) (RaytracingOutput r)
    (RaytracingOutputUAV_CPU r) (RaytracingOutputUAV_GPU r)
    (indexBufferSRV r) (vertexBufferSRV r).

Definition set_dxrInitialized (v : bool) (r : RayTracingState) : RayTracingState :=
  Build_RayTracingState (dxrAvailable r) v (DXRDevice r) (DXRCommandList r)
    (GlobalRaytracingRootSig r) (LocalRaytracingRootSig r)
    (RaytracingPipelineStateObject r) (RaytracingPipelineProperties r)
    (ShaderTable r) (ShaderTableRecordSize r) (TLASScratchBuffer r)
    (BLASScratchBuffer r) (TLASInstanceDescBuffer r) (TLAS r) (BLAS r)
    (RaytracingOutput r) (RaytracingOutputUAV_CPU r)
    (RaytracingOutputUAV_GPU r) (indexBufferSRV r) (vertexBufferSRV r).

Definition set_DXRDevice (v : ComPtr unit) (r : RayTracingState) : RayTracingState :=
  Build_RayTracingState (dxrAvailable r) (dxrInitialized r) v
    (DXRCommandList r) (GlobalRaytracingRootSig r)
    (LocalRaytracingRootSig r) (RaytracingPipelineStateObject r)
    (RaytracingPipelineProperties r) (ShaderTable r)
    (ShaderTableRecordSize r) (TLASScratchBuffer r) (BLASScratchBuffer r)
    (TLASInstanceDescBuffer r) (TLAS r) (BLAS r) (RaytracingOutput r)
    (RaytracingOutputUAV_CPU r) (RaytracingOutputUAV_GPU r)
    (indexBufferSRV r) (vertexBufferSRV r).

Definition set_DXRCommandList (v : ComPtr unit) (r : RayTracingState) : RayTracingState :=
  Build_RayTracingState (dxrAvailable r) (dxrInitialized r) (DXRDevice r) v
    (GlobalRaytracingRootSig r) (LocalRaytracingRootSig r)
    (RaytracingPipelineStateObject r) (RaytracingPipelineProperties r)
    (ShaderTable r) (ShaderTableRecordSize r) (TLASScratchBuffer r)
    (BLASScratchBuffer r) (TLASInstanceDescBuffer r) (TLAS r) (BLAS r)
    (RaytracingOutput r) (RaytracingOutputUAV_CPU r)
    (RaytracingOutputUAV_GPU r) (indexBufferSRV r) (vertexBufferSRV r).

Definition set_GlobalRaytracingRootSig (v : ComPtr unit) (r : RayTracingState) : RayTracingState :=
  Build_RayTracingState (dxrAvailable r) (dxrInitialized r) (DXRDevice r)
    (DXRCommandList r) v (LocalRaytracingRootSig r)
    (RaytracingPipelineStateObject r) (RaytracingPipelineProperties r)
    (ShaderTable r) (ShaderTableRecordSize r) (TLASScratchBuffer r)
    (BLASScratchBuffer r) (TLASInstanceDescBuffer r) (TLAS r) (BLAS r)
    (RaytracingOutput r) (RaytracingOutputUAV_CPU r)
    (RaytracingOutputUAV_GPU r) (indexBufferSRV r) (vertexBufferSRV r).

Definition set_LocalRaytracingRootSig (v : ComPtr unit) (r : RayTracingState) : RayTracingState :=
  Build_RayTracingState (dxrAvailable r) (dxrInitialized r) (DXRDevice r)
    (DXRCommandList r) (GlobalRaytracingRootSig r) v
    (RaytracingPipelineStateObject r) (RaytracingPipelineProperties r)
    (ShaderTable r) (ShaderTableRecordSize r) (TLASScratchBuffer r)
    (BLASScratchBuffer r) (TLASInstanceDescBuffer r) (TLAS r) (BLAS r)
    (RaytracingOutput r) (RaytracingOutputUAV_CPU r)
    (RaytracingOutputUAV_GPU r) (indexBufferSRV r) (vertexBufferSRV r).

Definition set_RaytracingPipelineStateObject (v : ComPtr unit) (r : RayTracingState) : RayTracingState :=
  Build_RayTracingState (dxrAvailable r) (dxrInitialized r) (DXRDevice r)
    (DXRCommandList r) (GlobalRaytracingRootSig r)
    (LocalRaytracingRootSig r) v (RaytracingPipelineProperties r)
    (ShaderTable r) (ShaderTableRecordSize r) (TLASScratchBuffer r)
    (BLASScratchBuffer r) (TLASInstanceDescBuffer r) (TLAS r) (BLAS r)
    (RaytracingOutput r) (RaytracingOutputUAV_CPU r)
    (RaytracingOutputUAV_GPU r) (indexBufferSRV r) (vertexBufferSRV r).

Definition set_RaytracingPipelineProperties (v : ComPtr unit) (r : RayTracingState) : RayTracingState :=
  Build_RayTracingState (dxrAvailable r) (dxrInitialized r) (DXRDevice r)
    (DXRCommandList r) (GlobalRaytracingRootSig r)
    (LocalRaytracingRootSig r) (RaytracingPipelineStateObject r) v
    (ShaderTable r) (ShaderTableRecordSize r) (TLASScratchBuffer r)
    (BLASScratchBuffer r) (TLASInstanceDescBuffer r) (TLAS r) (BLAS r)
    (RaytracingOutput r) (RaytracingOutputUAV_CPU r)
    (RaytracingOutputUAV_GPU r) (indexBufferSRV r) (vertexBufferSRV r).

Definition set_ShaderTable (v : ComPtr ID3D12Resource) (r : RayTracingState) : RayTracingState :=
  Build_RayTracingState (dxrAvailable r) (dxrInitialized r) (DXRDevice r)
    (DXRCommandList r) (GlobalRaytracingRootSig r)
    (LocalRaytracingRootSig r) (RaytracingPipelineStateObject r)
    (RaytracingPipelineProperties r) v (ShaderTableRecordSize r)
    (TLASScratchBuffer r) (BLASScratchBuffer r) (TLASInstanceDescBuffer r)
    (TLAS r) (BLAS r) (RaytracingOutput r) (RaytracingOutputUAV_CPU r)
    (RaytracingOutputUAV_GPU r) (indexBufferSRV r) (vertexBufferSRV r).

Definition set_ShaderTableRecordSize (v : Z) (r : RayTracingState) : RayTracingState :=
  Build_RayTracingState (dxrAvailable r) (dxrInitialized r) (DXRDevice r)
    (DXRCommandList r) (GlobalRaytracingRootSig r)
    (LocalRaytracingRootSig r) (RaytracingPipelineStateObject r)
    (RaytracingPipelineProperties r) (ShaderTable r) v (TLASScratchBuffer r)
    (BLASScratchBuffer r) (TLASInstanceDescBuffer r) (TLAS r) (BLAS r)
    (RaytracingOutput r) (RaytracingOutputUAV_CPU r)
    (RaytracingOutputUAV_GPU r) (indexBufferSRV r) (vertexBufferSRV r).

Definition set_TLASScratchBuffer (v : ComPtr ID3D12Resource) (r : RayTracingState) : RayTracingState :=
  Build_RayTracingState (dxrAvailable r) (dxrInitialized r) (DXRDevice r)
    (DXRCommandList r) (GlobalRaytracingRootSig r)
    (LocalRaytracingRootSig r) (RaytracingPipelineStateObject r)
    (RaytracingPipelineProperties r) (ShaderTable r)
    (ShaderTableRecordSize r) v (BLASScratchBuffer r)
    (TLASInstanceDescBuffer r) (TLAS r) (BLAS r) (RaytracingOutput r)
    (RaytracingOutputUAV_CPU r) (RaytracingOutputUAV_GPU r)
    (indexBufferSRV r) (vertexBufferSRV r).

Definition set_BLASScratchBuffer (v : ComPtr ID3D12Resource) (r : RayTracingState) : RayTracingState :=
  Build_RayTracingState (dxrAvailable r) (dxrInitialized r) (DXRDevice r)
    (DXRCommandList r) (GlobalRaytracingRootSig r)
    (LocalRaytracingRootSig r) (RaytracingPipelineStateObject r)
    (RaytracingPipelineProperties r) (ShaderTable r)
    (ShaderTableRecordSize r) (TLASScratchBuffer r) v
    (TLASInstanceDescBuffer r) (TLAS r) (BLAS r) (RaytracingOutput r)
    (RaytracingOutputUAV_CPU r) (RaytracingOutputUAV_GPU r)
    (indexBufferSRV r) (vertexBufferSRV r).

Definition set_TLASInstanceDescBuffer (v : ComPtr ID3D12Resource) (r : RayTracingState) : RayTracingState :=
  Build_RayTracingState (dxrAvailable r) (dxrInitialized r) (DXRDevice r)
    (DXRCommandList r) (GlobalRaytracingRootSig r)
    (LocalRaytracingRootSig r) (RaytracingPipelineStateObject r)
    (RaytracingPipelineProperties r) (ShaderTable r)
    (ShaderTableRecordSize r) (TLASScratchBuffer r) (BLASScratchBuffer r) v
    (TLAS r) (BLAS r) (RaytracingOutput r) (RaytracingOutputUAV_CPU r)
    (RaytracingOutputUAV_GPU r) (indexBufferSRV r) (vertexBufferSRV r).

Definition set_TLAS (v : ComPtr ID3D12Resource) (r : RayTracingState) : RayTracingState :=
  Build_RayTracingState (dxrAvailable r) (dxrInitialized r) (DXRDevice r)
    (DXRCommandList r) (GlobalRaytracingRootSig r)
    (LocalRaytracingRootSig r) (RaytracingPipelineStateObject r)
    (RaytracingPipelineProperties r) (ShaderTable r)
    (ShaderTableRecordSize r) (TLASScratchBuffer r) (BLASScratchBuffer r)
    (TLASInstanceDescBuffer r) v (BLAS r) (RaytracingOutput r)
    (RaytracingOutputUAV_CPU r) (RaytracingOutputUAV_GPU r)
    (indexBufferSRV r) (vertexBufferSRV r).

Definition set_BLAS (v : ComPtr ID3D12Resource) (r : RayTracingState) : RayTracingState :=
  Build_RayTracingState (dxrAvailable r) (dxrInitialized r) (DXRDevice r)
    (DXRCommandList r) (GlobalRaytracingRootSig r)
    (LocalRaytracingRootSig r) (RaytracingPipelineStateObject r)
    (RaytracingPipelineProperties r) (ShaderTable r)
    (ShaderTableRecordSize r) (TLASScratchBuffer r) (BLASScratchBuffer r)
    (TLASInstanceDescBuffer r) (TLAS r) v (RaytracingOutput r)
    (RaytracingOutputUAV_CPU r) (RaytracingOutputUAV_GPU r)
    (indexBufferSRV r) (vertexBufferSRV r).

Definition set_RaytracingOutput (v : ComPtr ID3D12Resource) (r : RayTracingState) : RayTracingState :=
  Build_RayTracingState (dxrAvailable r) (dxrInitialized r) (DXRDevice r)
    (DXRCommandList r) (GlobalRaytracingRootSig r)
    (LocalRaytracingRootSig r) (RaytracingPipelineStateObject r)
    (RaytracingPipelineProperties r) (ShaderTable r)
    (ShaderTableRecordSize r) (TLASScratchBuffer r) (BLASScratchBuffer r)
    (TLASInstanceDescBuffer r) (TLAS r) (BLAS r) v
    (RaytracingOutputUAV_CPU r) (RaytracingOutputUAV_GPU r)
    (indexBufferSRV r) (vertexBufferSRV r).

Definition set_RaytracingOutputUAV_CPU (v : Z) (r : RayTracingState) : RayTracingState :=
  Build_RayTracingState (dxrAvailable r) (dxrInitialized r) (DXRDevice r)
    (DXRCommandList r) (GlobalRaytracingRootSig r)
    (LocalRaytracingRootSig r) (RaytracingPipelineStateObject r)
    (RaytracingPipelineProperties r) (ShaderTable r)
    (ShaderTableRecordSize r) (TLASScratchBuffer r) (BLASScratchBuffer r)
    (TLASInstanceDescBuffer r) (TLAS r) (BLAS r) (RaytracingOutput r) v
    (RaytracingOutputUAV_GPU r) (indexBufferSRV r) (vertexBufferSRV r).

Definition set_RaytracingOutputUAV_GPU (v : Z) (r : RayTracingState) : RayTracingState :=
  Build_RayTracingState (dxrAvailable r) (dxrInitialized r) (DXRDevice r)
    (DXRCommandList r) (GlobalRaytracingRootSig r)
    (LocalRaytracingRootSig r) (RaytracingPipelineStateObject r)
    (RaytracingPipelineProperties r) (ShaderTable r)
    (ShaderTableRecordSize r) (TLASScratchBuffer r) (BLASScratchBuffer r)
    (TLASInstanceDescBuffer r) (TLAS r) (BLAS r) (RaytracingOutput r)
    (RaytracingOutputUAV_CPU r) v (indexBufferSRV r) (vertexBufferSRV r).

Definition set_indexBufferSRV (v : Z) (r : RayTracingState) : RayTracingState :=
  Build_RayTracingState (dxrAvailable r) (dxrInitialized r) (DXRDevice r)
    (DXRCommandList r) (GlobalRaytracingRootSig r)
    (LocalRaytracingRootSig r) (RaytracingPipelineStateObject r)
    (RaytracingPipelineProperties r) (ShaderTable r)
    (ShaderTableRecordSize r) (TLASScratchBuffer r) (BLASScratchBuffer r)
    (TLASInstanceDescBuffer r) (TLAS r) (BLAS r) (RaytracingOutput r)
    (RaytracingOutputUAV_CPU r) (RaytracingOutputUAV_GPU r) v
    (vertexBufferSRV r).

Definition set_vertexBufferSRV (v : Z) (r : RayTracingState) : RayTracingState :=
  Build_RayTracingState (dxrAvailable r) (dxrInitialized r) (DXRDevice r)
    (DXRCommandList r) (GlobalRaytracingRootSig r)
    (LocalRaytracingRootSig r) (RaytracingPipelineStateObject r)
    (RaytracingPipelineProperties r) (ShaderTable r)
    (ShaderTableRecordSize r) (TLASScratchBuffer r) (BLASScratchBuffer r)
    (TLASInstanceDescBuffer r) (TLAS r) (BLAS r) (RaytracingOutput r)
    (RaytracingOutputUAV_CPU r) (RaytracingOutputUAV_GPU r)
    (indexBufferSRV r) v.

Definition set_created (v : nat) (d : DeviceState) : DeviceState :=
  Build_DeviceState v (memory d) (calls d).

Definition set_memory (v : nat -> Z -> Byte.byte) (d : DeviceState) : DeviceState :=
  Build_DeviceState (created d) v (calls d).

Definition set_calls (v : list Call) (d : DeviceState) : DeviceState :=
  Build_DeviceState (created d) (memory d) v.

Definition set_graphics (v : GraphicsState) (w : World) : World :=
  Build_World v (raytracing w) (device w) (Window_Width w) (Window_Height w).

Definition set_raytracing (v : RayTracingState) (w : World) : World :=
  Build_World (graphics w) v (device w) (Window_Width w) (Window_Height w).

Definition set_device (v : DeviceState) (w : World) : World :=
  Build_World (graphics w) (raytracing w) v (Window_Width w)
    (Window_Height w).

Definition set_Window_Width (v : Z) (w : World) : World :=
  Build_World (graphics w) (raytracing w) (device w) v (Window_Height w).

Definition set_Window_Height (v : Z) (w : World) : World :=
  Build_World (graphics w) (raytracing w) (device w) (Window_Width w) v.

(* ================================================================= *)
(** ** Running the code: state passing, with a crash on a null [->] *)

Inductive Outcome (A : Type) : Type :=
| Ret (a : A) (w : World)
| Crash (w : World).
Arguments Ret {A} a w.
Arguments Crash {A} w.

Definition M (A : Type) : Type := World -> Outcome A.

Definition ret {A} (a : A) : M A := fun w => Ret a w.

Definition bind {A B} (m : M A) (k : A -> M B) : M B :=
  fun w => match m w with
           | Ret a w' => k a w'
           | Crash w' => Crash w'
           end.

Notation "x <- m ;; k" := (bind m (fun x => k))
  (at level 61, m at next level, right associativity).
Notation "m ;; k" := (bind m (fun _ => k))
  (at level 61, right associativity).

Definition gets {A} (f : World -> A) : M A := fun w => Ret (f w) w.
Definition modify (f : World -> World) : M unit := fun w => Ret tt (f w).

(** [p->...]: the pointee, or the end of the program. *)
Definition deref {T} (p : World -> ComPtr T) : M T :=
  fun w => match p w with
           | Some x => Ret x w
           | None => Crash w
           end.

Definition getsG {A} (f : GraphicsState -> A) : M A :=
  gets (fun w => f (graphics w)).
Definition getsR {A} (f : RayTracingState -> A) : M A :=
  gets (fun w => f (raytracing w)).
Definition getsD {A} (f : DeviceState -> A) : M A :=
  gets (fun w => f (device w)).
Definition modifyG (f : GraphicsState -> GraphicsState) : M unit :=
  modify (fun w => set_graphics (f (graphics w)) w).
Definition modifyR (f : RayTracingState -> RayTracingState) : M unit :=
  modify (fun w => set_raytracing (f (raytracing w)) w).
Definition modifyD (f : DeviceState -> DeviceState) : M unit :=
  modify (fun w => set_device (f (device w)) w).
Definition derefG {T} (f : GraphicsState -> ComPtr T) : M T :=
  deref (fun w => f (graphics w)).
Definition derefR {T} (f : RayTracingState -> ComPtr T) : M T :=
  deref (fun w => f (raytracing w)).

(** One more entry in the trace. *)
Definition call (c : Call) : M unit :=
  modifyD (fun d => set_calls (calls d ++ [c]) d).

Definition when (b : bool) (m : M unit) : M unit := if b then m else ret tt.

Fixpoint forM_ {A} (l : list A) (body : A -> M unit) : M unit :=
  match l with
  | [] => ret tt
  | x :: l' => body x ;; forM_ l' body
  end.

(** The world an outcome leaves behind, and the calls made by a run. *)
Definition world_of {A} (o : Outcome A) : World :=
  match o with Ret _ w => w | Crash w => w end.

Definition trace (w : World) : list Call := calls (device w).

(** *** Memory of mapped resources *)

Definition write (m : nat -> Z -> Byte.byte) (rid : nat) (off : Z)
                 (src : list Byte.byte) : nat -> Z -> Byte.byte :=
  fun r o =>
    if ((r =? rid)%nat && (off <=? o) && (o <? off + Z.of_nat (List.length src)))%bool
    then nth (Z.to_nat (o - off)) src Byte.x00
    else m r o.

Definition read (m : nat -> Z -> Byte.byte) (rid : nat) (off : Z) (n : nat)
  : list Byte.byte :=
  map (fun i => m rid (off + Z.of_nat i)) (seq 0 n).

(** [memcpy(dst, src, n)] into a mapped resource; [dst] is the resource and
    the byte offset from the start of its mapping. *)
Definition memcpy (rid : nat) (off : Z) (src : list Byte.byte) (n : Z) : M unit :=
  modifyD (fun d => set_memory (write (memory d) rid off (firstn (Z.to_nat n) src)) d).

(** The object representation of a [D3D12_GPU_DESCRIPTOR_HANDLE]
    ([struct { UINT64 ptr; }]), little-endian. *)
Definition handle_bytes (size : Z) (ptr : Z) : list Byte.byte :=
  le_split (Z.to_nat size) ptr.

(** [Device->CreateCommittedResource]: the device numbers the resource and
    places it in the GPU address space. *)
Definition CreateCommittedResource_ (P : Platform) (heap : D3D12_HEAP_TYPE)
    (desc : D3D12_RESOURCE_DESC) (state : D3D12_RESOURCE_STATES)
  : M (ComPtr ID3D12Resource) :=
  n <- getsD created ;;
  call (CreateCommittedResource heap desc state) ;;
  modifyD (set_created (S n)) ;;
  ret (Some {| res_id := n;
               GetGPUVirtualAddress := virtualAddressOf P n;
               GetDesc := desc |}).

(* ================================================================= *)
(** ** Graphics.cpp *)

Module Graphics.

Definition NumBackBuffers : Z := 2.
Definition MaxConstantBuffers : Z := 1000.
Definition MaxTextureDescriptors : Z := 1000.

Section WithPlatform.
Variable P : Platform.

(** [Graphics::WaitForGPU].  The wait itself is not modelled; the trace
    records the signal and the wait on the fence value. *)
Definition WaitForGPU : M unit :=
  c <- getsG WaitFenceCounter ;;
  modifyG (set_WaitFenceCounter (add64 c 1)) ;;
  c <- getsG WaitFenceCounter ;;
  _ <- derefG CommandQueue ;;
  call (QueueSignal c) ;;
  call (WaitForFence c).

(** [Graphics::CreateBuffer]. *)
Definition CreateBuffer (size : Z) (heapType : D3D12_HEAP_TYPE)
    (state : D3D12_RESOURCE_STATES) (flags : D3D12_RESOURCE_FLAGS)
    (alignment : Z) : M (ComPtr ID3D12Resource) :=
  let desc := {| Dimension := D3D12_RESOURCE_DIMENSION_BUFFER;
                 Alignment := alignment;
                 Width := size;
                 Height := 1;
                 Flags := flags |} in
  _ <- derefG Device ;;
  CreateCommittedResource_ P heapType desc state.

(** [Graphics::Initialize].  The three early returns and every write to
    the allocator variables are as in the source; the DXGI factory, the
    debug layer and the vsync flags are left out. *)
Definition Initialize (windowWidth windowHeight : Z) : M HRESULT :=
  init <- getsG apiInitialized ;;
  if init then ret E_FAIL else
  call D3D12CreateDevice ;;
  if FAILED (createDeviceResult P) then ret (createDeviceResult P) else
  modifyG (set_Device (Some tt)) ;;
  _ <- derefG Device ;;
  call CheckFeatureSupport_FEATURE_LEVELS ;;
  (* allocators, queue, list *)
  forM_ [0; 1] (fun _ => call CreateCommandAllocator) ;;
  call CreateCommandQueue ;;
  modifyG (set_CommandQueue (Some tt)) ;;
  call CreateCommandList ;;
  modifyG (set_CommandList (Some tt)) ;;
  (* swap chain *)
  call (CreateSwapChain windowWidth windowHeight) ;;
  if FAILED (createSwapChainResult P) then ret (createSwapChainResult P) else
  (* back buffers *)
  call GetDescriptorHandleIncrementSize ;;
  call (CreateDescriptorHeap NumBackBuffers) ;;
  forM_ [0; 1] (fun i => call (CreateRenderTargetView i)) ;;
  (* depth buffer *)
  call (CreateDescriptorHeap 1) ;;
  _ <- CreateCommittedResource_ P D3D12_HEAP_TYPE_DEFAULT
         {| Dimension := D3D12_RESOURCE_DIMENSION_TEXTURE2D;
            Alignment := 0;
            Width := windowWidth;
            Height := windowHeight;
            Flags := D3D12_RESOURCE_FLAG_ALLOW_DEPTH_STENCIL |}
         D3D12_RESOURCE_STATE_DEPTH_WRITE ;;
  call CreateDepthStencilView ;;
  (* fences *)
  call CreateFence ;;
  modifyG (set_WaitFenceCounter 0) ;;
  call CreateFence ;;
  (* the CBV/SRV descriptor heap *)
  call GetDescriptorHandleIncrementSize ;;
  modifyG (set_cbvSrvDescriptorHeapIncrementSize
             (u64 (descriptorHandleIncrementSize P))) ;;
  call (CreateDescriptorHeap (add32 MaxConstantBuffers MaxTextureDescriptors)) ;;
  modifyG (set_CBVSRVDescriptorHeap (Some tt)) ;;
  modifyG (set_cbvDescriptorOffset 0) ;;
  modifyG (set_srvDescriptorOffset MaxConstantBuffers) ;;
  (* the upload heap for constant buffer data *)
  modifyG (set_cbUploadHeapSizeInBytes (mul64 (u64 MaxConstantBuffers) 256)) ;;
  modifyG (set_cbUploadHeapOffsetInBytes 0) ;;
  size <- getsG cbUploadHeapSizeInBytes ;;
  heap <- CreateCommittedResource_ P D3D12_HEAP_TYPE_UPLOAD
            {| Dimension := D3D12_RESOURCE_DIMENSION_BUFFER;
               Alignment := 0;
               Width := size;
               Height := 1;
               Flags := D3D12_RESOURCE_FLAG_NONE |}
            D3D12_RESOURCE_STATE_GENERIC_READ ;;
  modifyG (set_CBUploadHeap heap) ;;
  h <- derefG CBUploadHeap ;;
  call (ResourceMap (res_id h)) ;;
  WaitForGPU ;;
  modifyG (set_apiInitialized true) ;;
  ret S_OK.

(** [Graphics::FillNextConstantBufferAndGetGPUDescriptorHandle(data,
    dataSizeInBytes)].  [data] is the list of the bytes at the pointer;
    [dataSizeInBytes], an [unsigned int], is its length. *)
Definition FillNextConstantBufferAndGetGPUDescriptorHandle
    (data : list Byte.byte) : M Z :=
  let dataSizeInBytes := u32 (Z.of_nat (List.length data)) in
  let reservationSize := u64 dataSizeInBytes in
  let reservationSize := round256 reservationSize in
  (* Ensure this upload will fit in the remaining space. *)
  off <- getsG cbUploadHeapOffsetInBytes ;;
  size <- getsG cbUploadHeapSizeInBytes ;;
  when (add64 off reservationSize >=? size)
       (modifyG (set_cbUploadHeapOffsetInBytes 0)) ;;
  (* Where in the upload heap will this data go? *)
  heap <- derefG CBUploadHeap ;;
  off <- getsG cbUploadHeapOffsetInBytes ;;
  let virtualGPUAddress := add64 (GetGPUVirtualAddress heap) off in
  (* Copy data to the upload heap *)
  memcpy (res_id heap) off data dataSizeInBytes ;;
  modifyG (set_cbUploadHeapOffsetInBytes (add64 off reservationSize)) ;;
  off' <- getsG cbUploadHeapOffsetInBytes ;;
  when (off' >=? size) (modifyG (set_cbUploadHeapOffsetInBytes 0)) ;;
  (* Create a CBV for this section of the heap *)
  _ <- derefG CBVSRVDescriptorHeap ;;
  cbv <- getsG cbvDescriptorOffset ;;
  incr <- getsG cbvSrvDescriptorHeapIncrementSize ;;
  let cpuHandle :=
    add64 (GetCPUDescriptorHandleForHeapStart P) (mul64 (u64 cbv) incr) in
  let gpuHandle :=
    add64 (GetGPUDescriptorHandleForHeapStart P) (mul64 (u64 cbv) incr) in
  _ <- derefG Device ;;
  call (CreateConstantBufferView virtualGPUAddress (u32 reservationSize)
                                 cpuHandle) ;;
  modifyG (set_cbvDescriptorOffset (add32 cbv 1)) ;;
  cbv' <- getsG cbvDescriptorOffset ;;
  when (cbv' >=? MaxConstantBuffers) (modifyG (set_cbvDescriptorOffset 0)) ;;
  ret gpuHandle.

(** [Graphics::ReserveSrvUavDescriptorHeapSlot]: the CPU and the GPU
    handle of the slot, which the caller stores through its pointers. *)
Definition ReserveSrvUavDescriptorHeapSlot : M (Z * Z) :=
  _ <- derefG CBVSRVDescriptorHeap ;;
  srv <- getsG srvDescriptorOffset ;;
  incr <- getsG cbvSrvDescriptorHeapIncrementSize ;;
  let cpuHandle :=
    add64 (GetCPUDescriptorHandleForHeapStart P) (mul64 (u64 srv) incr) in
  let gpuHandle :=
    add64 (GetGPUDescriptorHandleForHeapStart P) (mul64 (u64 srv) incr) in
  modifyG (set_srvDescriptorOffset (add32 srv 1)) ;;
  ret (cpuHandle, gpuHandle).

(** [Graphics::ResetAllocatorAndCommandList]. *)
Definition ResetAllocatorAndCommandList (swapChainIndex : Z) : M unit :=
  call (CommandAllocatorReset swapChainIndex) ;;
  _ <- derefG CommandList ;;
  call (CommandListReset swapChainIndex).

(** [Graphics::CloseAndExecuteCommandList]. *)
Definition CloseAndExecuteCommandList : M unit :=
  _ <- derefG CommandList ;;
  call CommandListClose ;;
  _ <- derefG CommandQueue ;;
  call ExecuteCommandLists.

End WithPlatform.

End Graphics.

(* ================================================================= *)
(** ** RayTracing.cpp *)

Module RayTracing.

(** [sizeof(DirectX::XMFLOAT3)], [sizeof(DirectX::XMFLOAT2)],
    [sizeof(Vertex)] ([Vertex.h]: eleven floats) and [sizeof(float)]. *)
Definition sizeof_XMFLOAT3 : Z := 12.
Definition sizeof_XMFLOAT2 : Z := 8.
Definition sizeof_Vertex : Z := 44.
Definition sizeof_float : Z := 4.

(** The bits of [1.0f]. *)
Definition float_one : Z := 1065353216. (* 0x3F800000 *)

(** The object representation of the one [D3D12_RAYTRACING_INSTANCE_DESC]
    that [CreateTLAS] fills in: a 3x4 identity transform, instance id 0 and
    mask 0xFF in one word, hit group offset 0 and flags 0 in the next, then
    the address of the bottom-level structure. *)
Definition instanceDesc_bytes (AccelerationStructure : Z) : list Byte.byte :=
  flat_map (le_split 4)
    [ float_one; 0; 0; 0;
      0; float_one; 0; 0;
      0; 0; float_one; 0 ]
  ++ le_split 4 (Z.lor 0 (Z.shiftl 255 24))
  ++ le_split 4 (Z.lor 0 (Z.shiftl 0 24))
  ++ le_split 8 AccelerationStructure.

Definition sizeof_D3D12_RAYTRACING_INSTANCE_DESC : Z := 64.

Definition globalRootSigDesc : D3D12_ROOT_SIGNATURE_DESC :=
  let outputUAVRange := {| RangeType := D3D12_DESCRIPTOR_RANGE_TYPE_UAV;
                           NumDescriptors := 1;
                           BaseShaderRegister := 0 |} in
  let cbufferRange := {| RangeType := D3D12_DESCRIPTOR_RANGE_TYPE_CBV;
                         NumDescriptors := 1;
                         BaseShaderRegister := 0 |} in
  {| pParameters := [ ROOT_PARAMETER_DESCRIPTOR_TABLE [outputUAVRange];
                      ROOT_PARAMETER_SRV 0;
                      ROOT_PARAMETER_DESCRIPTOR_TABLE [cbufferRange] ];
     RootFlags := D3D12_ROOT_SIGNATURE_FLAG_NONE |}.

Definition localRootSigDesc : D3D12_ROOT_SIGNATURE_DESC :=
  let cbufferRange := {| RangeType := D3D12_DESCRIPTOR_RANGE_TYPE_CBV;
                         NumDescriptors := 1;
                         BaseShaderRegister := 1 |} in
  let geometrySRVRange := {| RangeType := D3D12_DESCRIPTOR_RANGE_TYPE_SRV;
                             NumDescriptors := 2;
                             BaseShaderRegister := 1 |} in
  {| pParameters := [ ROOT_PARAMETER_DESCRIPTOR_TABLE [cbufferRange];
                      ROOT_PARAMETER_DESCRIPTOR_TABLE [geometrySRVRange] ];
     RootFlags := D3D12_ROOT_SIGNATURE_FLAG_LOCAL_ROOT_SIGNATURE |}.

(** The dispatch description that [Raytrace] fills in, from the address of
    the shader table, the record size and the window's size. *)
Definition dispatchDesc (tableAddress recordSize width height : Z)
  : D3D12_DISPATCH_RAYS_DESC :=
  {| RayGenerationShaderRecord :=
       {| StartAddress := tableAddress;
          SizeInBytes := recordSize |};
     MissShaderTable :=
       {| TableStartAddress := add64 tableAddress recordSize;
          TableSizeInBytes := recordSize;
          StrideInBytes := recordSize |};
     HitGroupTable :=
       {| TableStartAddress := add64 tableAddress (mul64 recordSize 2);
          TableSizeInBytes := recordSize;
          StrideInBytes := recordSize |};
     DispatchWidth := width;
     DispatchHeight := height;
     DispatchDepth := 1 |}.

Section WithPlatform.
Variable P : Platform.

Let idSize := D3D12_SHADER_IDENTIFIER_SIZE_IN_BYTES P.
Let handleSize := sizeof_D3D12_GPU_DESCRIPTOR_HANDLE P.
Let asAlignment := D3D12_RAYTRACING_ACCELERATION_STRUCTURE_BYTE_ALIGNMENT P.

(** The guard that opens the three setup helpers. *)
Definition setup_skipped : M bool :=
  i <- getsR dxrInitialized ;;
  a <- getsR dxrAvailable ;;
  ret (i || negb a)%bool.

(** The guard that opens [ResizeOutputUAV] and [Raytrace]. *)
Definition not_ready : M bool :=
  i <- getsR dxrInitialized ;;
  a <- getsR dxrAvailable ;;
  ret (negb i || negb a)%bool.

(** [RayTracing::CreateRaytracingRootSignatures]. *)
Definition CreateRaytracingRootSignatures : M unit :=
  skip <- setup_skipped ;;
  if skip then ret tt else
  call (D3D12SerializeRootSignature globalRootSigDesc) ;;
  _ <- derefR DXRDevice ;;
  call CreateRootSignature ;;
  modifyR (set_GlobalRaytracingRootSig (Some tt)) ;;
  call (D3D12SerializeRootSignature localRootSigDesc) ;;
  _ <- derefR DXRDevice ;;
  call CreateRootSignature ;;
  modifyR (set_LocalRaytracingRootSig (Some tt)).

(** The ten subobjects of the pipeline state. *)
Definition subobjects : list D3D12_STATE_SUBOBJECT :=
  [ SUBOBJECT_DXIL_LIBRARY "RayGen";
    SUBOBJECT_DXIL_LIBRARY "Miss";
    SUBOBJECT_DXIL_LIBRARY "ClosestHit";
    SUBOBJECT_HIT_GROUP "ClosestHit" "HitGroup";
    SUBOBJECT_RAYTRACING_SHADER_CONFIG sizeof_XMFLOAT3 sizeof_XMFLOAT2;
    SUBOBJECT_TO_EXPORTS_ASSOCIATION ["RayGen"; "Miss"; "HitGroup"]%string 4;
    SUBOBJECT_LOCAL_ROOT_SIGNATURE;
    SUBOBJECT_TO_EXPORTS_ASSOCIATION ["RayGen"; "Miss"; "HitGroup"]%string 6;
    SUBOBJECT_GLOBAL_ROOT_SIGNATURE;
    SUBOBJECT_RAYTRACING_PIPELINE_CONFIG
      (D3D12_RAYTRACING_MAX_DECLARABLE_TRACE_RECURSION_DEPTH P) ].

(** [RayTracing::CreateRaytracingPipelineState]. *)
Definition CreateRaytracingPipelineState
    (raytracingShaderLibraryFile : string) : M unit :=
  skip <- setup_skipped ;;
  if skip then ret tt else
  call (D3DReadFileToBlob raytracingShaderLibraryFile) ;;
  _ <- deref (fun _ => readFileToBlob P raytracingShaderLibraryFile) ;;
  _ <- derefR DXRDevice ;;
  call (CreateStateObject subobjects) ;;
  modifyR (set_RaytracingPipelineStateObject (Some tt)) ;;
  _ <- derefR RaytracingPipelineStateObject ;;
  call QueryInterface_ID3D12StateObjectProperties ;;
  modifyR (set_RaytracingPipelineProperties (Some tt)).

(** [RaytracingPipelineProperties->GetShaderIdentifier(name)], read by
    [memcpy]: a null identifier ends the program. *)
Definition shader_identifier (name : string) : M (list Byte.byte) :=
  _ <- derefR RaytracingPipelineProperties ;;
  call (GetShaderIdentifier name) ;;
  deref (fun _ => shaderIdentifier P name).

(** The record size and the table size that [CreateShaderTable] computes. *)
Definition shaderTableRecordSize : Z :=
  let shaderTableRayGenRecordSize := u64 idSize in
  let shaderTableMissRecordSize := u64 idSize in
  let shaderTableHitGroupRecordSize := add64 idSize (mul64 handleSize 2) in
  let shaderTableRayGenRecordSize :=
    ALIGN shaderTableRayGenRecordSize
          (D3D12_RAYTRACING_SHADER_RECORD_BYTE_ALIGNMENT P) in
  let shaderTableMissRecordSize :=
    ALIGN shaderTableMissRecordSize
          (D3D12_RAYTRACING_SHADER_RECORD_BYTE_ALIGNMENT P) in
  let shaderTableHitGroupRecordSize :=
    ALIGN shaderTableHitGroupRecordSize
          (D3D12_RAYTRACING_SHADER_RECORD_BYTE_ALIGNMENT P) in
  Z.max shaderTableRayGenRecordSize
        (Z.max shaderTableMissRecordSize shaderTableHitGroupRecordSize).

Definition shaderTableSize (recordSize : Z) : Z :=
  let shaderTableSize := mul64 recordSize 3 in
  ALIGN shaderTableSize (D3D12_RAYTRACING_SHADER_TABLE_BYTE_ALIGNMENT P).

(** [RayTracing::CreateShaderTable]. *)
Definition CreateShaderTable : M unit :=
  skip <- setup_skipped ;;
  if skip then ret tt else
  modifyR (set_ShaderTableRecordSize shaderTableRecordSize) ;;
  recordSize <- getsR ShaderTableRecordSize ;;
  (* Create the shader table buffer and map it *)
  table <- Graphics.CreateBuffer P (shaderTableSize recordSize)
             D3D12_HEAP_TYPE_UPLOAD D3D12_RESOURCE_STATE_GENERIC_READ
             D3D12_RESOURCE_FLAG_NONE 0 ;;
  modifyR (set_ShaderTable table) ;;
  t <- derefR ShaderTable ;;
  call (ResourceMap (res_id t)) ;;
  let shaderTableData := 0 in
  (* Mem copy each record in: ray gen, miss and the overall hit group *)
  id <- shader_identifier "RayGen" ;;
  memcpy (res_id t) shaderTableData id idSize ;;
  let shaderTableData := shaderTableData + recordSize in
  id <- shader_identifier "Miss" ;;
  memcpy (res_id t) shaderTableData id idSize ;;
  let shaderTableData := shaderTableData + recordSize in
  id <- shader_identifier "HitGroup" ;;
  memcpy (res_id t) shaderTableData id idSize ;;
  (* Unmap *)
  t <- derefR ShaderTable ;;
  call (ResourceUnmap (res_id t)).

(** [RayTracing::CreateRaytracingOutputUAV]. *)
Definition CreateRaytracingOutputUAV (width height : Z) : M unit :=
  let desc := {| Dimension := D3D12_RESOURCE_DIMENSION_TEXTURE2D;
                 Alignment := 0;
                 Width := width;
                 Height := height;
                 Flags := D3D12_RESOURCE_FLAG_ALLOW_UNORDERED_ACCESS |} in
  _ <- derefR DXRDevice ;;
  out <- CreateCommittedResource_ P D3D12_HEAP_TYPE_DEFAULT desc
           D3D12_RESOURCE_STATE_COPY_SOURCE ;;
  modifyR (set_RaytracingOutput out) ;;
  (* Do we have a UAV already? *)
  gpu <- getsR RaytracingOutputUAV_GPU ;;
  when (gpu =? 0)
       (slot <- Graphics.ReserveSrvUavDescriptorHeapSlot P ;;
        modifyR (set_RaytracingOutputUAV_CPU (fst slot)) ;;
        modifyR (set_RaytracingOutputUAV_GPU (snd slot))) ;;
  (* Set up the UAV *)
  _ <- derefR DXRDevice ;;
  out <- getsR RaytracingOutput ;;
  cpu <- getsR RaytracingOutputUAV_CPU ;;
  call (CreateUnorderedAccessView (Get out) cpu).

(** [RayTracing::Initialize]. *)
Definition Initialize (outputWidth outputHeight : Z)
    (raytracingShaderLibraryFile : string) : M HRESULT :=
  _ <- derefG Device ;;
  call CheckFeatureSupport_OPTIONS5 ;;
  _ <- derefG Device ;;
  call QueryInterface_ID3D12Device5 ;;
  modifyR (set_DXRDevice
             (if FAILED (dxrDeviceResult P) then None else Some tt)) ;;
  _ <- derefG CommandList ;;
  call QueryInterface_ID3D12GraphicsCommandList4 ;;
  modifyR (set_DXRCommandList
             (if FAILED (dxrCommandListResult P) then None else Some tt)) ;;
  (* Check the results *)
  if (FAILED (supportResult P) || tier_not_supported (RaytracingTier P))%bool
  then ret (supportResult P) else
  if FAILED (dxrDeviceResult P) then ret (dxrDeviceResult P) else
  if FAILED (dxrCommandListResult P) then ret (dxrCommandListResult P) else
  (* We have DXR support *)
  modifyR (set_dxrAvailable true) ;;
  (* Proceed with setup *)
  CreateRaytracingRootSignatures ;;
  CreateRaytracingPipelineState raytracingShaderLibraryFile ;;
  CreateShaderTable ;;
  CreateRaytracingOutputUAV outputWidth outputHeight ;;
  (* All set *)
  modifyR (set_dxrInitialized true) ;;
  ret S_OK.

(** [RayTracing::ResizeOutputUAV]. *)
Definition ResizeOutputUAV (outputWidth outputHeight : Z) : M unit :=
  skip <- not_ready ;;
  if skip then ret tt else
  Graphics.WaitForGPU ;;
  modifyR (set_RaytracingOutput None) ;;
  CreateRaytracingOutputUAV outputWidth outputHeight.

(** The sizes asked of the device, rounded as both builders round them:
    scratch first, result second. *)
Definition aligned_prebuild
    (info : D3D12_RAYTRACING_ACCELERATION_STRUCTURE_PREBUILD_INFO)
  : D3D12_RAYTRACING_ACCELERATION_STRUCTURE_PREBUILD_INFO :=
  let scratch := ALIGN (ScratchDataSizeInBytes info) asAlignment in
  let result := ALIGN (ResultDataMaxSizeInBytes info) asAlignment in
  {| ResultDataMaxSizeInBytes := result;
     ScratchDataSizeInBytes := scratch |}.

Definition accelStructBufferAlignment : Z :=
  Z.max asAlignment (D3D12_DEFAULT_RESOURCE_PLACEMENT_ALIGNMENT P).

(** [RayTracing::CreateBLAS]. *)
Definition CreateBLAS (mesh : Mesh) : M unit :=
  a <- getsR dxrAvailable ;;
  if negb a then ret tt else
  (* Describe the geometry data we intend to store in this BLAS *)
  vb <- deref (fun _ => vertexBuffer mesh) ;;
  ib <- deref (fun _ => indexBuffer mesh) ;;
  let geometryDesc :=
    {| VertexBuffer_StartAddress := GetGPUVirtualAddress vb;
       VertexBuffer_StrideInBytes := vbView_StrideInBytes mesh;
       VertexCount := u32 (numVertices mesh);
       IndexBuffer := GetGPUVirtualAddress ib;
       IndexCount := u32 (numIndices mesh) |} in
  let accelStructInputs := INPUTS_BOTTOM_LEVEL [geometryDesc] in
  _ <- derefR DXRDevice ;;
  call (GetRaytracingAccelerationStructurePrebuildInfo accelStructInputs) ;;
  (* Handle alignment requirements ourselves *)
  let accelStructPrebuildInfo :=
    aligned_prebuild (prebuildInfo P accelStructInputs) in
  (* Create a scratch buffer *)
  scratch <- Graphics.CreateBuffer P
               (ScratchDataSizeInBytes accelStructPrebuildInfo)
               D3D12_HEAP_TYPE_DEFAULT
               D3D12_RESOURCE_STATE_UNORDERED_ACCESS
               D3D12_RESOURCE_FLAG_ALLOW_UNORDERED_ACCESS
               accelStructBufferAlignment ;;
  modifyR (set_BLASScratchBuffer scratch) ;;
  (* Create the final buffer for the BLAS *)
  blas <- Graphics.CreateBuffer P
            (ResultDataMaxSizeInBytes accelStructPrebuildInfo)
            D3D12_HEAP_TYPE_DEFAULT
            D3D12_RESOURCE_STATE_RAYTRACING_ACCELERATION_STRUCTURE
            D3D12_RESOURCE_FLAG_ALLOW_UNORDERED_ACCESS
            accelStructBufferAlignment ;;
  modifyR (set_BLAS blas) ;;
  (* Describe the final BLAS and set up the build *)
  s <- derefR BLASScratchBuffer ;;
  b <- derefR BLAS ;;
  _ <- derefR DXRCommandList ;;
  call (BuildRaytracingAccelerationStructure accelStructInputs
          (GetGPUVirtualAddress s) (GetGPUVirtualAddress b)) ;;
  (* Barrier until the BLAS is built *)
  call (ResourceBarrier [BARRIER_UAV (Some (res_id b))]) ;;
  (* Create two SRVs for the index and vertex buffers *)
  islot <- Graphics.ReserveSrvUavDescriptorHeapSlot P ;;
  modifyR (set_indexBufferSRV (snd islot)) ;;
  vslot <- Graphics.ReserveSrvUavDescriptorHeapSlot P ;;
  modifyR (set_vertexBufferSRV (snd vslot)) ;;
  let ib_cpu := fst islot in
  let vb_cpu := fst vslot in
  _ <- derefR DXRDevice ;;
  call (CreateShaderResourceView (Some (res_id ib))
          (u32 (numIndices mesh)) ib_cpu) ;;
  call (CreateShaderResourceView (Some (res_id vb))
          (u32 (mul64 (u64 (numVertices mesh)) sizeof_Vertex / sizeof_float))
          vb_cpu) ;;
  (* Put this mesh's SRVs into the shader table *)
  t <- derefR ShaderTable ;;
  call (ResourceMap (res_id t)) ;;
  recordSize <- getsR ShaderTableRecordSize ;;
  let tablePointer := 0 in
  (* Get past the raygen and miss shaders in the shader table *)
  let tablePointer := tablePointer + add64 recordSize recordSize in
  (* Get past the identifier and first CBV descriptor *)
  let tablePointer := tablePointer + add64 idSize handleSize in
  (* Memcpy the index buffer's SRV to the table *)
  srv <- getsR indexBufferSRV ;;
  memcpy (res_id t) tablePointer (handle_bytes handleSize srv) handleSize ;;
  t <- derefR ShaderTable ;;
  call (ResourceUnmap (res_id t)).

(** [RayTracing::CreateTLAS]. *)
Definition CreateTLAS : M unit :=
  a <- getsR dxrAvailable ;;
  if negb a then ret tt else
  (* Describe the BLAS instance(s) that make up the TLAS *)
  b <- derefR BLAS ;;
  let instanceDesc := instanceDesc_bytes (GetGPUVirtualAddress b) in
  (* The instance description needs to be in a buffer on the GPU *)
  buf <- Graphics.CreateBuffer P sizeof_D3D12_RAYTRACING_INSTANCE_DESC
           D3D12_HEAP_TYPE_UPLOAD D3D12_RESOURCE_STATE_GENERIC_READ
           D3D12_RESOURCE_FLAG_NONE 0 ;;
  modifyR (set_TLASInstanceDescBuffer buf) ;;
  i <- derefR TLASInstanceDescBuffer ;;
  call (ResourceMap (res_id i)) ;;
  memcpy (res_id i) 0 instanceDesc sizeof_D3D12_RAYTRACING_INSTANCE_DESC ;;
  i <- derefR TLASInstanceDescBuffer ;;
  call (ResourceUnmap (res_id i)) ;;
  (* Describe our overall input so we can get sizing info *)
  i <- derefR TLASInstanceDescBuffer ;;
  let accelStructInputs := INPUTS_TOP_LEVEL (GetGPUVirtualAddress i) 1 in
  _ <- derefR DXRDevice ;;
  call (GetRaytracingAccelerationStructurePrebuildInfo accelStructInputs) ;;
  (* Handle alignment requirements ourselves *)
  let accelStructPrebuildInfo :=
    aligned_prebuild (prebuildInfo P accelStructInputs) in
  (* Create a scratch buffer *)
  scratch <- Graphics.CreateBuffer P
               (ScratchDataSizeInBytes accelStructPrebuildInfo)
               D3D12_HEAP_TYPE_DEFAULT
               D3D12_RESOURCE_STATE_UNORDERED_ACCESS
               D3D12_RESOURCE_FLAG_ALLOW_UNORDERED_ACCESS
               accelStructBufferAlignment ;;
  modifyR (set_TLASScratchBuffer scratch) ;;
  (* Create the final buffer for the TLAS *)
  tlas <- Graphics.CreateBuffer P
            (ResultDataMaxSizeInBytes accelStructPrebuildInfo)
            D3D12_HEAP_TYPE_DEFAULT
            D3D12_RESOURCE_STATE_RAYTRACING_ACCELERATION_STRUCTURE
            D3D12_RESOURCE_FLAG_ALLOW_UNORDERED_ACCESS
            accelStructBufferAlignment ;;
  modifyR (set_TLAS tlas) ;;
  (* Describe the final TLAS and set up the build *)
  s <- derefR TLASScratchBuffer ;;
  t <- derefR TLAS ;;
  _ <- derefR DXRCommandList ;;
  call (BuildRaytracingAccelerationStructure accelStructInputs
          (GetGPUVirtualAddress s) (GetGPUVirtualAddress t)) ;;
  call (ResourceBarrier [BARRIER_UAV (Some (res_id t))]) ;;
  (* All done - execute, wait and reset command list *)
  _ <- derefR DXRCommandList ;;
  call CommandListClose ;;
  _ <- derefG CommandQueue ;;
  call ExecuteCommandLists ;;
  Graphics.WaitForGPU ;;
  Graphics.ResetAllocatorAndCommandList 0.

(** [RayTracing::Raytrace].  [sceneData] holds the bytes of the
    [RaytracingSceneData] that the source computes from the camera. *)
Definition Raytrace (sceneData : list Byte.byte)
    (currentBackBuffer : ComPtr ID3D12Resource) : M unit :=
  skip <- not_ready ;;
  if skip then ret tt else
  (* Transition the output-related resources to the proper states *)
  out <- getsR RaytracingOutput ;;
  let outputBarriers0 :=
    BARRIER_TRANSITION (Get currentBackBuffer)
      D3D12_RESOURCE_STATE_PRESENT D3D12_RESOURCE_STATE_COPY_DEST in
  let outputBarriers1 :=
    BARRIER_TRANSITION (Get out)
      D3D12_RESOURCE_STATE_COPY_SOURCE D3D12_RESOURCE_STATE_UNORDERED_ACCESS in
  _ <- derefR DXRCommandList ;;
  call (ResourceBarrier [outputBarriers0; outputBarriers1]) ;;
  (* Grab and fill a constant buffer *)
  cbuffer <- Graphics.FillNextConstantBufferAndGetGPUDescriptorHandle P
               sceneData ;;
  (* ACTUAL RAYTRACING HERE *)
  _ <- derefR DXRCommandList ;;
  call SetDescriptorHeaps ;;
  call SetPipelineState1 ;;
  call SetComputeRootSignature ;;
  uav <- getsR RaytracingOutputUAV_GPU ;;
  call (SetComputeRootDescriptorTable 0 uav) ;;
  tlas <- derefR TLAS ;;
  call (SetComputeRootShaderResourceView 1 (GetGPUVirtualAddress tlas)) ;;
  call (SetComputeRootDescriptorTable 2 cbuffer) ;;
  (* Dispatch rays *)
  table <- derefR ShaderTable ;;
  recordSize <- getsR ShaderTableRecordSize ;;
  width <- gets Window_Width ;;
  height <- gets Window_Height ;;
  call (DispatchRays (dispatchDesc (GetGPUVirtualAddress table) recordSize
                                   width height)) ;;
  (* Final transitions *)
  let outputBarriers1 :=
    BARRIER_TRANSITION (Get out)
      D3D12_RESOURCE_STATE_UNORDERED_ACCESS D3D12_RESOURCE_STATE_COPY_SOURCE in
  call (ResourceBarrier [outputBarriers1]) ;;
  out' <- getsR RaytracingOutput ;;
  call (CopyResource (Get currentBackBuffer) (Get out')) ;;
  let outputBarriers0 :=
    BARRIER_TRANSITION (Get currentBackBuffer)
      D3D12_RESOURCE_STATE_COPY_DEST D3D12_RESOURCE_STATE_PRESENT in
  call (ResourceBarrier [outputBarriers0]) ;;
  (* Close and execute *)
  call CommandListClose ;;
  _ <- derefG CommandQueue ;;
  call ExecuteCommandLists.

End WithPlatform.

End RayTracing.

(* ================================================================= *)
(** ** The start of the process, and a machine to run examples on *)

(** Namespace-scope variables start out zero: flags false, pointers null. *)
Definition initial_graphics : GraphicsState :=
  {| apiInitialized := false;
     Device := None;
     CommandQueue := None;
     CommandList := None;
     CBVSRVDescriptorHeap := None;
     CBUploadHeap := None;
     WaitFenceCounter := 0;
     cbvSrvDescriptorHeapIncrementSize := 0;
     cbvDescriptorOffset := 0;
     srvDescriptorOffset := 0;
     cbUploadHeapSizeInBytes := 0;
     cbUploadHeapOffsetInBytes := 0 |}.

Definition initial_raytracing : RayTracingState :=
  {| dxrAvailable := false;
     dxrInitialized := false;
     DXRDevice := None;
     DXRCommandList := None;
     GlobalRaytracingRootSig := None;
     LocalRaytracingRootSig := None;
     RaytracingPipelineStateObject := None;
     RaytracingPipelineProperties := None;
     ShaderTable := None;
     ShaderTableRecordSize := 0;
     TLASScratchBuffer := None;
     BLASScratchBuffer := None;
     TLASInstanceDescBuffer := None;
     TLAS := None;
     BLAS := None;
     RaytracingOutput := None;
     RaytracingOutputUAV_CPU := 0;
     RaytracingOutputUAV_GPU := 0;
     indexBufferSRV := 0;
     vertexBufferSRV := 0 |}.

Definition initial_world (width height : Z) : World :=
  {| graphics := initial_graphics;
     raytracing := initial_raytracing;
     device := {| created := 0;
                  memory := fun _ _ => Byte.x00;
                  calls := [] |};
     Window_Width := width;
     Window_Height := height |}.

(** A device with ray tracing, with the values [d3d12.h] gives the
    constants; shader identifiers are 32 bytes that spell the export out. *)
Definition sample_identifier (tag : Byte.byte) : list Byte.byte := repeat tag 32.

Definition sample_platform : Platform :=
  {| D3D12_SHADER_IDENTIFIER_SIZE_IN_BYTES := 32;
     sizeof_D3D12_GPU_DESCRIPTOR_HANDLE := 8;
     D3D12_RAYTRACING_SHADER_RECORD_BYTE_ALIGNMENT := 32;
     D3D12_RAYTRACING_SHADER_TABLE_BYTE_ALIGNMENT := 64;
     D3D12_RAYTRACING_ACCELERATION_STRUCTURE_BYTE_ALIGNMENT := 256;
     D3D12_DEFAULT_RESOURCE_PLACEMENT_ALIGNMENT := 65536;
     D3D12_RAYTRACING_MAX_DECLARABLE_TRACE_RECURSION_DEPTH := 31;
     createDeviceResult := S_OK;
     createSwapChainResult := S_OK;
     supportResult := S_OK;
     RaytracingTier := D3D12_RAYTRACING_TIER_1_1;
     dxrDeviceResult := S_OK;
     dxrCommandListResult := S_OK;
     descriptorHandleIncrementSize := 32;
     GetCPUDescriptorHandleForHeapStart := 4096;
     GetGPUDescriptorHandleForHeapStart := 8192;
     prebuildInfo := fun inputs =>
       match inputs with
       | INPUTS_BOTTOM_LEVEL _ =>
           {| ResultDataMaxSizeInBytes := 1000; ScratchDataSizeInBytes := 300 |}
       | INPUTS_TOP_LEVEL _ _ =>
           {| ResultDataMaxSizeInBytes := 512; ScratchDataSizeInBytes := 1 |}
       end;
     readFileToBlob := fun _ => Some tt;
     shaderIdentifier := fun name =>
       if String.eqb name "RayGen" then Some (sample_identifier Byte.x01)
       else if String.eqb name "Miss" then Some (sample_identifier Byte.x02)
       else if String.eqb name "HitGroup" then Some (sample_identifier Byte.x03)
       else None;
     virtualAddressOf := fun n => 65536 * (1 + Z.of_nat n) |}.

(** The same machine without ray tracing: the feature query succeeds and
    reports the tier as not supported. *)
Definition set_RaytracingTier (t : D3D12_RAYTRACING_TIER) (P : Platform)
  : Platform :=
  {| D3D12_SHADER_IDENTIFIER_SIZE_IN_BYTES := D3D12_SHADER_IDENTIFIER_SIZE_IN_BYTES P;
     sizeof_D3D12_GPU_DESCRIPTOR_HANDLE := sizeof_D3D12_GPU_DESCRIPTOR_HANDLE P;
     D3D12_RAYTRACING_SHADER_RECORD_BYTE_ALIGNMENT :=
       D3D12_RAYTRACING_SHADER_RECORD_BYTE_ALIGNMENT P;
     D3D12_RAYTRACING_SHADER_TABLE_BYTE_ALIGNMENT :=
       D3D12_RAYTRACING_SHADER_TABLE_BYTE_ALIGNMENT P;
     D3D12_RAYTRACING_ACCELERATION_STRUCTURE_BYTE_ALIGNMENT :=
       D3D12_RAYTRACING_ACCELERATION_STRUCTURE_BYTE_ALIGNMENT P;
     D3D12_DEFAULT_RESOURCE_PLACEMENT_ALIGNMENT :=
       D3D12_DEFAULT_RESOURCE_PLACEMENT_ALIGNMENT P;
     D3D12_RAYTRACING_MAX_DECLARABLE_TRACE_RECURSION_DEPTH :=
       D3D12_RAYTRACING_MAX_DECLARABLE_TRACE_RECURSION_DEPTH P;
     createDeviceResult := createDeviceResult P;
     createSwapChainResult := createSwapChainResult P;
     supportResult := supportResult P;
     RaytracingTier := t;
     dxrDeviceResult := dxrDeviceResult P;
     dxrCommandListResult := dxrCommandListResult P;
     descriptorHandleIncrementSize := descriptorHandleIncrementSize P;
     GetCPUDescriptorHandleForHeapStart := GetCPUDescriptorHandleForHeapStart P;
     GetGPUDescriptorHandleForHeapStart := GetGPUDescriptorHandleForHeapStart P;
     prebuildInfo := prebuildInfo P;
     readFileToBlob := readFileToBlob P;
     shaderIdentifier := shaderIdentifier P;
     virtualAddressOf := virtualAddressOf P |}.

Definition sample_platform_without_dxr : Platform :=
  set_RaytracingTier D3D12_RAYTRACING_TIER_NOT_SUPPORTED sample_platform.

(** A single triangle: 3 vertices, 3 indices, buffers already resident. *)
Definition resident_buffer (n : nat) (size : Z) : ID3D12Resource :=
  {| res_id := n;
     GetGPUVirtualAddress := 1048576 * Z.of_nat n;
     GetDesc := {| Dimension := D3D12_RESOURCE_DIMENSION_BUFFER;
                   Alignment := 0;
                   Width := size;
                   Height := 1;
                   Flags := D3D12_RESOURCE_FLAG_NONE |} |}.

Definition triangle_vertex_buffer : ID3D12Resource := resident_buffer 1000 132.
Definition triangle_index_buffer : ID3D12Resource := resident_buffer 1001 12.

Definition triangle_mesh : Mesh :=
  {| numIndices := 3;
     numVertices := 3;
     vbView_StrideInBytes := 44;
     vertexBuffer := Some triangle_vertex_buffer;
     indexBuffer := Some triangle_index_buffer |}.

(** The start of [WinMain] and [Game::Initialize], up to and excluding the
    acceleration structures: the world after both [Initialize] calls. *)
Definition startup (P : Platform) (width height : Z) : M HRESULT :=
  hr <- Graphics.Initialize P width height ;;
  if FAILED hr then ret hr else
  RayTracing.Initialize P width height "Raytracing.cso".

(** [Game::Initialize] after that: both acceleration structures. *)
Definition build_scene (P : Platform) (mesh : Mesh) : M unit :=
  RayTracing.CreateBLAS P mesh ;;
  RayTracing.CreateTLAS P ;;
  Graphics.CloseAndExecuteCommandList ;;
  Graphics.WaitForGPU.

(** The entry points the game loop keeps calling: [Game::Draw] calls
    [Raytrace], [Game::OnResize] calls [ResizeOutputUAV]. *)
Inductive EntryPoint :=
| CallRaytrace (sceneData : list Byte.byte)
               (currentBackBuffer : ComPtr ID3D12Resource)
| CallResizeOutputUAV (outputWidth outputHeight : Z).

Definition enter (P : Platform) (e : EntryPoint) : M unit :=
  match e with
  | CallRaytrace sceneData bb => RayTracing.Raytrace P sceneData bb
  | CallResizeOutputUAV w h => RayTracing.ResizeOutputUAV P w h
  end.

Definition enter_all (P : Platform) (es : list EntryPoint) : M unit :=
  forM_ es (enter P).

(** The condition under which [RayTracing::Initialize] gives up. *)
Definition capability_absent (P : Platform) : bool :=
  (FAILED (supportResult P) || tier_not_supported (RaytracingTier P)
   || FAILED (dxrDeviceResult P) || FAILED (dxrCommandListResult P))%bool.

(* ================================================================= *)
(** ** Properties of worlds, and the worlds of the examples *)

(** The world after [Graphics::Initialize] and [RayTracing::Initialize] on
    the sample machine, and on the sample machine without ray tracing. *)
Definition world_after_startup : World :=
  world_of (startup sample_platform 1280 720 (initial_world 1280 720)).

Definition world_after_startup_without_dxr : World :=
  world_of (startup sample_platform_without_dxr 1280 720 (initial_world 1280 720)).

(** A frame's [RaytracingSceneData]: 76 bytes (a [float3] and a [float4x4]). *)
Definition sample_sceneData : list Byte.byte := repeat Byte.x07 76.

Definition ncalls {A} (o : Outcome A) : nat := List.length (trace (world_of o)).

(** What holds of the allocator between calls. *)
Definition AllocatorInv (w : World) : Prop :=
  let g := graphics w in
  cbUploadHeapSizeInBytes g = Graphics.MaxConstantBuffers * 256
  /\ cbUploadHeapOffsetInBytes g mod 256 = 0
  /\ 0 <= cbUploadHeapOffsetInBytes g < cbUploadHeapSizeInBytes g
  /\ 0 <= cbvDescriptorOffset g < Graphics.MaxConstantBuffers
  /\ Graphics.MaxConstantBuffers <= srvDescriptorOffset g.

(** The objects the allocator works through exist. *)
Definition AllocatorReady (w : World) : Prop :=
  let g := graphics w in
  Device g = Some tt
  /\ CBVSRVDescriptorHeap g = Some tt
  /\ CBUploadHeap g <> None.

(** The reservation for [n] bytes. *)
Definition reservation (n : nat) : Z := round256 (u64 (u32 (Z.of_nat n))).

(** The world one call of
    [FillNextConstantBufferAndGetGPUDescriptorHandle] leaves, when the
    objects it works through exist: the two wrap tests of the upload offset
    and the wrap test of the CBV cursor, as in the source. *)
Definition after_Fill (P : Platform) (data : list Byte.byte)
    (heap : ID3D12Resource) (w : World) : World :=
  let g := graphics w in
  let r := reservation (List.length data) in
  let o1 := if add64 (cbUploadHeapOffsetInBytes g) r >=? cbUploadHeapSizeInBytes g
            then 0 else cbUploadHeapOffsetInBytes g in
  let o2 := if add64 o1 r >=? cbUploadHeapSizeInBytes g then 0 else add64 o1 r in
  let k := cbvDescriptorOffset g in
  let k' := if add32 k 1 >=? Graphics.MaxConstantBuffers then 0 else add32 k 1 in
  {| graphics := set_cbvDescriptorOffset k' (set_cbUploadHeapOffsetInBytes o2 g);
     raytracing := raytracing w;
     device :=
       {| created := created (device w);
          memory := write (memory (device w)) (res_id heap) o1
                      (firstn (Z.to_nat (u32 (Z.of_nat (List.length data)))) data);
          calls := calls (device w) ++
                   [CreateConstantBufferView
                      (add64 (GetGPUVirtualAddress heap) o1) (u32 r)
                      (add64 (GetCPUDescriptorHandleForHeapStart P)
                             (mul64 (u64 k) (cbvSrvDescriptorHeapIncrementSize g)))] |};
     Window_Width := Window_Width w;
     Window_Height := Window_Height w |}.

(** A run of window resizes, as [Game::OnResize] makes them. *)
Definition resize_all (P : Platform) (sizes : list (Z * Z)) : M unit :=
  forM_ sizes (fun s => RayTracing.ResizeOutputUAV P (fst s) (snd s)).

(** The shader table that [CreateShaderTable] creates as the device's
    resource number [n]. *)
Definition shader_table_resource (P : Platform) (n : nat) : ID3D12Resource :=
  {| res_id := n;
     GetGPUVirtualAddress := virtualAddressOf P n;
     GetDesc := {| Dimension := D3D12_RESOURCE_DIMENSION_BUFFER;
                   Alignment := 0;
                   Width := RayTracing.shaderTableSize P
                              (RayTracing.shaderTableRecordSize P);
                   Height := 1;
                   Flags := D3D12_RESOURCE_FLAG_NONE |} |}.

(** The buffers both acceleration-structure builders create. *)
Definition accel_buffer (P : Platform) (n : nat) (size : Z) : ID3D12Resource :=
  {| res_id := n;
     GetGPUVirtualAddress := virtualAddressOf P n;
     GetDesc := {| Dimension := D3D12_RESOURCE_DIMENSION_BUFFER;
                   Alignment := RayTracing.accelStructBufferAlignment P;
                   Width := size;
                   Height := 1;
                   Flags := D3D12_RESOURCE_FLAG_ALLOW_UNORDERED_ACCESS |} |}.

(** The output image that [CreateRaytracingOutputUAV] creates. *)
Definition output_texture (P : Platform) (n : nat) (width height : Z)
  : ID3D12Resource :=
  {| res_id := n;
     GetGPUVirtualAddress := virtualAddressOf P n;
     GetDesc := {| Dimension := D3D12_RESOURCE_DIMENSION_TEXTURE2D;
                   Alignment := 0;
                   Width := width;
                   Height := height;
                   Flags := D3D12_RESOURCE_FLAG_ALLOW_UNORDERED_ACCESS |} |}.

(** The handle of slot [slot] of the shader-visible heap, from a heap start. *)
Definition slot_handle (start slot increment : Z) : Z :=
  add64 start (mul64 (u64 slot) increment).

(** The sample machine midway through [RayTracing::Initialize]: ray tracing
    found available, root signatures and pipeline state created, the shader
    table not yet. *)
Definition world_before_shader_table : World :=
  world_of
    ((_ <- Graphics.Initialize sample_platform 1280 720 ;;
      _ <- derefG Device ;;
      modifyR (set_DXRDevice (Some tt)) ;;
      modifyR (set_DXRCommandList (Some tt)) ;;
      modifyR (set_dxrAvailable true) ;;
      RayTracing.CreateRaytracingRootSignatures ;;
      RayTracing.CreateRaytracingPipelineState sample_platform "Raytracing.cso")
       (initial_world 1280 720)).

(** The sizes fit the machine word: nothing [CreateShaderTable] computes
    wraps around. *)
Definition sizes_fit (P : Platform) : Prop :=
  let idSize := D3D12_SHADER_IDENTIFIER_SIZE_IN_BYTES P in
  let h := sizeof_D3D12_GPU_DESCRIPTOR_HANDLE P in
  let rA := D3D12_RAYTRACING_SHADER_RECORD_BYTE_ALIGNMENT P in
  let tA := D3D12_RAYTRACING_SHADER_TABLE_BYTE_ALIGNMENT P in
  0 <= idSize /\ 0 <= h /\ 0 < rA /\ 0 < tA
  /\ 3 * (idSize + 2 * h + rA) + tA <= 2 ^ 64.

(** Width and height of the output image, when there is one. *)
Definition output_size (w : World) : option (Z * Z) :=
  option_map (fun r => (Width (GetDesc r), Height (GetDesc r)))
             (RaytracingOutput (raytracing w)).

(** A call that creates an unordered access view puts it at [dest]. *)
Definition uav_goes_to (dest : Z) (c : Call) : Prop :=
  match c with
  | CreateUnorderedAccessView _ d => d = dest
  | _ => True
  end.

(** What [ResizeOutputUAV] needs in order to run. *)
Definition ResizeReady (w : World) : Prop :=
  dxrInitialized (raytracing w) = true
  /\ dxrAvailable (raytracing w) = true
  /\ DXRDevice (raytracing w) = Some tt
  /\ CommandQueue (graphics w) = Some tt.

(** The build inputs [CreateBLAS] describes for a mesh whose buffers are
    [vb] and [ib], and those [CreateTLAS] describes for the instance buffer
    that is the device's resource number [n]. *)
Definition blas_inputs (mesh : Mesh) (vb ib : ID3D12Resource)
  : D3D12_BUILD_RAYTRACING_ACCELERATION_STRUCTURE_INPUTS :=
  INPUTS_BOTTOM_LEVEL
    [ {| VertexBuffer_StartAddress := GetGPUVirtualAddress vb;
         VertexBuffer_StrideInBytes := vbView_StrideInBytes mesh;
         VertexCount := u32 (numVertices mesh);
         IndexBuffer := GetGPUVirtualAddress ib;
         IndexCount := u32 (numIndices mesh) |} ].

Definition tlas_inputs (P : Platform) (n : nat)
  : D3D12_BUILD_RAYTRACING_ACCELERATION_STRUCTURE_INPUTS :=
  INPUTS_TOP_LEVEL (virtualAddressOf P n) 1.

Definition instance_buffer (P : Platform) (n : nat) : ID3D12Resource :=
  {| res_id := n;
     GetGPUVirtualAddress := virtualAddressOf P n;
     GetDesc := {| Dimension := D3D12_RESOURCE_DIMENSION_BUFFER;
                   Alignment := 0;
                   Width := RayTracing.sizeof_D3D12_RAYTRACING_INSTANCE_DESC;
                   Height := 1;
                   Flags := D3D12_RESOURCE_FLAG_NONE |} |}.

(** The sizes the device asks for stay representable once rounded up. *)
Definition prebuild_fits (P : Platform) : Prop :=
  let A := D3D12_RAYTRACING_ACCELERATION_STRUCTURE_BYTE_ALIGNMENT P in
  0 < A
  /\ forall inputs,
       0 <= ScratchDataSizeInBytes (prebuildInfo P inputs)
       /\ ScratchDataSizeInBytes (prebuildInfo P inputs) + A <= 2 ^ 64
       /\ 0 <= ResultDataMaxSizeInBytes (prebuildInfo P inputs)
       /\ ResultDataMaxSizeInBytes (prebuildInfo P inputs) + A <= 2 ^ 64.

(** What [CreateBLAS] needs in order to run on a mesh with buffers [vb] and
    [ib] and a shader table [table], and what [CreateTLAS] needs besides. *)
Definition BLASReady (mesh : Mesh) (vb ib table : ID3D12Resource) (w : World)
  : Prop :=
  dxrAvailable (raytracing w) = true
  /\ vertexBuffer mesh = Some vb
  /\ indexBuffer mesh = Some ib
  /\ Device (graphics w) = Some tt
  /\ CBVSRVDescriptorHeap (graphics w) = Some tt
  /\ DXRDevice (raytracing w) = Some tt
  /\ DXRCommandList (raytracing w) = Some tt
  /\ ShaderTable (raytracing w) = Some table.

Definition TLASReady (blas : ID3D12Resource) (w : World) : Prop :=
  dxrAvailable (raytracing w) = true
  /\ BLAS (raytracing w) = Some blas
  /\ Device (graphics w) = Some tt
  /\ CommandQueue (graphics w) = Some tt
  /\ CommandList (graphics w) = Some tt
  /\ DXRDevice (raytracing w) = Some tt
  /\ DXRCommandList (raytracing w) = Some tt.

(** The world after the whole of [Game::Initialize] on the sample machine:
    start-up, then the acceleration structures of the single triangle. *)
Definition world_after_scene : World :=
  world_of (build_scene sample_platform triangle_mesh world_after_startup).

(** What [Raytrace] needs in order to run to its end. *)
Definition FrameReady (heap tlas table : ID3D12Resource) (w : World) : Prop :=
  dxrInitialized (raytracing w) = true
  /\ dxrAvailable (raytracing w) = true
  /\ DXRCommandList (raytracing w) = Some tt
  /\ Device (graphics w) = Some tt
  /\ CBVSRVDescriptorHeap (graphics w) = Some tt
  /\ CBUploadHeap (graphics w) = Some heap
  /\ CommandQueue (graphics w) = Some tt
  /\ TLAS (raytracing w) = Some tlas
  /\ ShaderTable (raytracing w) = Some table.

(** What [CreateShaderTable] needs in order to run, with the three
    identifiers the pipeline hands out. *)
Definition ShaderTableReady (P : Platform)
    (idRayGen idMiss idHitGroup : list Byte.byte) (w : World) : Prop :=
  dxrAvailable (raytracing w) = true
  /\ dxrInitialized (raytracing w) = false
  /\ Device (graphics w) = Some tt
  /\ RaytracingPipelineProperties (raytracing w) = Some tt
  /\ shaderIdentifier P "RayGen" = Some idRayGen
  /\ shaderIdentifier P "Miss" = Some idMiss
  /\ shaderIdentifier P "HitGroup" = Some idHitGroup.

(** The sample world with the upload ring one reservation short of full,
    and the sample world's upload heap. *)
Definition world_ring_almost_full : World :=
  set_graphics
    (set_cbUploadHeapOffsetInBytes 255744 (graphics world_after_startup))
    world_after_startup.

Definition sample_upload_heap : ID3D12Resource :=
  {| res_id := 1;
     GetGPUVirtualAddress := 131072;
     GetDesc := {| Dimension := D3D12_RESOURCE_DIMENSION_BUFFER;
                   Alignment := 0;
                   Width := 256000;
                   Height := 1;
                   Flags := D3D12_RESOURCE_FLAG_NONE |} |}.

(** The sample world after [Graphics::Initialize] alone. *)
Definition world_after_graphics : World :=
  world_of (Graphics.Initialize sample_platform 1280 720 (initial_world 1280 720)).

(* ================================================================= *)
(** ** Runs of calls, and what is read off a trace *)

(** The fence values [CommandQueue->Signal] was called with, in order. *)
Definition signalled (t : list Call) : list Z :=
  flat_map (fun c => match c with QueueSignal v => [v] | _ => [] end) t.

(** The descriptions [DispatchRays] was called with, in order. *)
Definition dispatched (t : list Call) : list D3D12_DISPATCH_RAYS_DESC :=
  flat_map (fun c => match c with DispatchRays d => [d] | _ => [] end) t.

(** [n] calls of [Graphics::WaitForGPU] in a row. *)
Definition wait_n (n : nat) : M unit :=
  forM_ (repeat tt n) (fun _ => Graphics.WaitForGPU).

(** [n] calls of [Graphics::ReserveSrvUavDescriptorHeapSlot] in a row, and
    the pair of handles each one hands out. *)
Fixpoint reserve_n (P : Platform) (n : nat) : M (list (Z * Z)) :=
  match n with
  | O => ret []
  | S n' =>
      slot <- Graphics.ReserveSrvUavDescriptorHeapSlot P ;;
      rest <- reserve_n P n' ;;
      ret (slot :: rest)
  end.

(** One call of [Graphics::FillNextConstantBufferAndGetGPUDescriptorHandle]
    for each block of data, in order. *)
Definition fill_all (P : Platform) (blocks : list (list Byte.byte)) : M unit :=
  forM_ blocks
    (fun data =>
       _ <- Graphics.FillNextConstantBufferAndGetGPUDescriptorHandle P data ;;
       ret tt).

(** One call of [RayTracing::Raytrace] for each frame, in order. *)
Definition raytrace_all (P : Platform)
    (frames : list (list Byte.byte * ComPtr ID3D12Resource)) : M unit :=
  forM_ frames (fun f => RayTracing.Raytrace P (fst f) (snd f)).

(** [Game::Initialize], from its call of [RayTracing::Initialize] on.  The
    camera is outside the model, and so is the loading of the mesh
    ([Mesh.cpp] is not among these sources): the mesh is an argument, as
    [CreateBLAS] finds it. *)
Definition Game_Initialize (P : Platform) (raytracingShaderLibraryFile : string)
    (sphereMesh : Mesh) : M unit :=
  width <- gets Window_Width ;;
  height <- gets Window_Height ;;
  _ <- RayTracing.Initialize P width height raytracingShaderLibraryFile ;;
  RayTracing.CreateBLAS P sphereMesh ;;
  RayTracing.CreateTLAS P ;;
  Graphics.CloseAndExecuteCommandList ;;
  Graphics.WaitForGPU.




(** *** Resource states, followed through a trace

    D3D12 keeps every resource in a state.  A transition barrier names the
    state it takes the resource from, and is in order only if the resource
    is in that state; a copy needs its destination in [COPY_DEST] and its
    source in [COPY_SOURCE]. *)
Definition ResourceStates : Type := option nat -> D3D12_RESOURCE_STATES.

Definition state_eqb (a b : D3D12_RESOURCE_STATES) : bool :=
  match a, b with
  | D3D12_RESOURCE_STATE_COMMON, D3D12_RESOURCE_STATE_COMMON
  | D3D12_RESOURCE_STATE_GENERIC_READ, D3D12_RESOURCE_STATE_GENERIC_READ
  | D3D12_RESOURCE_STATE_UNORDERED_ACCESS, D3D12_RESOURCE_STATE_UNORDERED_ACCESS
  | D3D12_RESOURCE_STATE_RAYTRACING_ACCELERATION_STRUCTURE,
    D3D12_RESOURCE_STATE_RAYTRACING_ACCELERATION_STRUCTURE
  | D3D12_RESOURCE_STATE_DEPTH_WRITE, D3D12_RESOURCE_STATE_DEPTH_WRITE
  | D3D12_RESOURCE_STATE_COPY_SOURCE, D3D12_RESOURCE_STATE_COPY_SOURCE
  | D3D12_RESOURCE_STATE_COPY_DEST, D3D12_RESOURCE_STATE_COPY_DEST
  | D3D12_RESOURCE_STATE_PRESENT, D3D12_RESOURCE_STATE_PRESENT => true
  | _, _ => false
  end.

Definition same_resource (a b : option nat) : bool :=
  match a, b with
  | Some x, Some y => (x =? y)%nat
  | None, None => true
  | _, _ => false
  end.

Definition apply_barrier (b : D3D12_RESOURCE_BARRIER) (st : ResourceStates)
  : option ResourceStates :=
  match b with
  | BARRIER_TRANSITION r before after =>
      if state_eqb (st r) before
      then Some (fun r' => if same_resource r' r then after else st r')
      else None
  | BARRIER_UAV _ => Some st
  end.

Fixpoint apply_barriers (bs : list D3D12_RESOURCE_BARRIER) (st : ResourceStates)
  : option ResourceStates :=
  match bs with
  | [] => Some st
  | b :: bs' =>
      match apply_barrier b st with
      | Some st' => apply_barriers bs' st'
      | None => None
      end
  end.

(** The states after the calls of [t], or [None] when a barrier or a copy
    of [t] finds a resource in another state than the one it needs. *)
Fixpoint follow (t : list Call) (st : ResourceStates) : option ResourceStates :=
  match t with
  | [] => Some st
  | ResourceBarrier bs :: t' =>
      match apply_barriers bs st with
      | Some st' => follow t' st'
      | None => None
      end
  | CopyResource dst src :: t' =>
      if (state_eqb (st dst) D3D12_RESOURCE_STATE_COPY_DEST
          && state_eqb (st src) D3D12_RESOURCE_STATE_COPY_SOURCE)%bool
      then follow t' st
      else None
  | _ :: t' => follow t' st
  end.

(** The states the sample machine's frame starts from: the output image
    (resource 3) as created, the back buffer (the null handle of the
    example) as the swap chain leaves it. *)
Definition sample_states : ResourceStates :=
  fun r => match r with
           | Some _ => D3D12_RESOURCE_STATE_COPY_SOURCE
           | None => D3D12_RESOURCE_STATE_PRESENT
           end.

(* ================================================================= *)
(** ** The rest of [Graphics.cpp]

    The variables of [namespace Graphics] that the ray tracer does not
    touch (the swap chain and its buffers, the depth buffer, the frame
    fence and its counters, the vsync flags), and the calls on the swap
    chain and the frame fence, which get a log of their own
    ([rest_calls]).  The functions below thread this record by hand and run
    in [M] for the part of the world they share with the ray tracer. *)

(** Two flags of [dxgi.h]. *)
Definition DXGI_SWAP_CHAIN_FLAG_ALLOW_TEARING : Z := 2048.
Definition DXGI_PRESENT_ALLOW_TEARING : Z := 512.

(** The calls on the swap chain; [CommandQueue->Signal] on the frame fence
    and the wait for a value of that fence ([SetEventOnCompletion], then
    [WaitForSingleObject]); [Device->CopyDescriptorsSimple]. *)
Inductive RestCall :=
| SwapChain_ResizeBuffers (BufferCount Width Height SwapChainFlags : Z)
| SwapChain_GetBuffer (Buffer : Z)
| SwapChain_GetFullscreenState
| SwapChain_Present (SyncInterval Flags : Z)
| FrameSyncFence_Signal (Value : Z)
| FrameSyncFence_Wait (Value : Z)
| CopyDescriptorsSimple (NumDescriptors DestDescriptorRangeStart
                         SrcDescriptorRangeStart : Z).

Record Rest := Build_Rest {
  supportsTearing : bool;
  vsyncDesired : bool;
  isFullscreen : bool;
  currentBackBufferIndex : Z;
  SwapChain : ComPtr unit;
  BackBuffers : list (ComPtr ID3D12Resource);
  RTVHeap : ComPtr unit;
  RTVHandles : list Z;
  DepthBuffer : ComPtr ID3D12Resource;
  DSVHeap : ComPtr unit;
  DSVHandle : Z;
  FrameSyncFence : ComPtr unit;
  FrameSyncFenceCounters : list Z;
  rest_calls : list RestCall
}.

Definition set_supportsTearing (v : bool) (r : Rest) : Rest :=
  Build_Rest v (vsyncDesired r) (isFullscreen r) (currentBackBufferIndex r)
    (SwapChain r) (BackBuffers r) (RTVHeap r) (RTVHandles r)
    (DepthBuffer r) (DSVHeap r) (DSVHandle r) (FrameSyncFence r)
    (FrameSyncFenceCounters r) (rest_calls r).

Definition set_vsyncDesired (v : bool) (r : Rest) : Rest :=
  Build_Rest (supportsTearing r) v (isFullscreen r)
    (currentBackBufferIndex r) (SwapChain r) (BackBuffers r) (RTVHeap r)
    (RTVHandles r) (DepthBuffer r) (DSVHeap r) (DSVHandle r)
    (FrameSyncFence r) (FrameSyncFenceCounters r) (rest_calls r).

Definition set_isFullscreen (v : bool) (r : Rest) : Rest :=
  Build_Rest (supportsTearing r) (vsyncDesired r) v
    (currentBackBufferIndex r) (SwapChain r) (BackBuffers r) (RTVHeap r)
    (RTVHandles r) (DepthBuffer r) (DSVHeap r) (DSVHandle r)
    (FrameSyncFence r) (FrameSyncFenceCounters r) (rest_calls r).

Definition set_currentBackBufferIndex (v : Z) (r : Rest) : Rest :=
  Build_Rest (supportsTearing r) (vsyncDesired r) (isFullscreen r) v
    (SwapChain r) (BackBuffers r) (RTVHeap r) (RTVHandles r)
    (DepthBuffer r) (DSVHeap r) (DSVHandle r) (FrameSyncFence r)
    (FrameSyncFenceCounters r) (rest_calls r).

Definition set_SwapChain (v : ComPtr unit) (r : Rest) : Rest :=
  Build_Rest (supportsTearing r) (vsyncDesired r) (isFullscreen r)
    (currentBackBufferIndex r) v (BackBuffers r) (RTVHeap r) (RTVHandles r)
    (DepthBuffer r) (DSVHeap r) (DSVHandle r) (FrameSyncFence r)
    (FrameSyncFenceCounters r) (rest_calls r).

Definition set_BackBuffers (v : list (ComPtr ID3D12Resource)) (r : Rest)
  : Rest :=
  Build_Rest (supportsTearing r) (vsyncDesired r) (isFullscreen r)
    (currentBackBufferIndex r) (SwapChain r) v (RTVHeap r) (RTVHandles r)
    (DepthBuffer r) (DSVHeap r) (DSVHandle r) (FrameSyncFence r)
    (FrameSyncFenceCounters r) (rest_calls r).

Definition set_RTVHeap (v : ComPtr unit) (r : Rest) : Rest :=
  Build_Rest (supportsTearing r) (vsyncDesired r) (isFullscreen r)
    (currentBackBufferIndex r) (SwapChain r) (BackBuffers r) v
    (RTVHandles r) (DepthBuffer r) (DSVHeap r) (DSVHandle r)
    (FrameSyncFence r) (FrameSyncFenceCounters r) (rest_calls r).

Definition set_RTVHandles (v : list Z) (r : Rest) : Rest :=
  Build_Rest (supportsTearing r) (vsyncDesired r) (isFullscreen r)
    (currentBackBufferIndex r) (SwapChain r) (BackBuffers r) (RTVHeap r) v
    (DepthBuffer r) (DSVHeap r) (DSVHandle r) (FrameSyncFence r)
    (FrameSyncFenceCounters r) (rest_calls r).

Definition set_DepthBuffer (v : ComPtr ID3D12Resource) (r : Rest) : Rest :=
  Build_Rest (supportsTearing r) (vsyncDesired r) (isFullscreen r)
    (currentBackBufferIndex r) (SwapChain r) (BackBuffers r) (RTVHeap r)
    (RTVHandles r) v (DSVHeap r) (DSVHandle r) (FrameSyncFence r)
    (FrameSyncFenceCounters r) (rest_calls r).

Definition set_DSVHeap (v : ComPtr unit) (r : Rest) : Rest :=
  Build_Rest (supportsTearing r) (vsyncDesired r) (isFullscreen r)
    (currentBackBufferIndex r) (SwapChain r) (BackBuffers r) (RTVHeap r)
    (RTVHandles r) (DepthBuffer r) v (DSVHandle r) (FrameSyncFence r)
    (FrameSyncFenceCounters r) (rest_calls r).

Definition set_DSVHandle (v : Z) (r : Rest) : Rest :=
  Build_Rest (supportsTearing r) (vsyncDesired r) (isFullscreen r)
    (currentBackBufferIndex r) (SwapChain r) (BackBuffers r) (RTVHeap r)
    (RTVHandles r) (DepthBuffer r) (DSVHeap r) v (FrameSyncFence r)
    (FrameSyncFenceCounters r) (rest_calls r).

Definition set_FrameSyncFence (v : ComPtr unit) (r : Rest) : Rest :=
  Build_Rest (supportsTearing r) (vsyncDesired r) (isFullscreen r)
    (currentBackBufferIndex r) (SwapChain r) (BackBuffers r) (RTVHeap r)
    (RTVHandles r) (DepthBuffer r) (DSVHeap r) (DSVHandle r) v
    (FrameSyncFenceCounters r) (rest_calls r).

Definition set_FrameSyncFenceCounters (v : list Z) (r : Rest) : Rest :=
  Build_Rest (supportsTearing r) (vsyncDesired r) (isFullscreen r)
    (currentBackBufferIndex r) (SwapChain r) (BackBuffers r) (RTVHeap r)
    (RTVHandles r) (DepthBuffer r) (DSVHeap r) (DSVHandle r)
    (FrameSyncFence r) v (rest_calls r).

Definition set_rest_calls (v : list RestCall) (r : Rest) : Rest :=
  Build_Rest (supportsTearing r) (vsyncDesired r) (isFullscreen r)
    (currentBackBufferIndex r) (SwapChain r) (BackBuffers r) (RTVHeap r)
    (RTVHandles r) (DepthBuffer r) (DSVHeap r) (DSVHandle r)
    (FrameSyncFence r) (FrameSyncFenceCounters r) v.

(** What the swap chain, the frame fence and the two small descriptor heaps
    answer during one call: the environment of that call. *)
Record Display := {
  GetBuffer : Z -> ComPtr ID3D12Resource;
  GetFullscreenState : bool;
  (* the frame fence's completed value at the n-th query of the call *)
  GetCompletedValue : nat -> Z;
  RTVDescriptorHandleIncrementSize : Z;
  RTVHeap_GetCPUDescriptorHandleForHeapStart : Z;
  DSVHeap_GetCPUDescriptorHandleForHeapStart : Z
}.

(** A namespace-scope array: reading [a[i]] outside the array stops the
    program; [update] writes inside it. *)
Definition index {A} (a : list A) (i : Z) : M A :=
  deref (fun _ => if i <? 0 then None else nth_error a (Z.to_nat i)).

Fixpoint update {A} (i : nat) (v : A) (a : list A) : list A :=
  match a, i with
  | [], _ => []
  | _ :: a', O => v :: a'
  | x :: a', S i' => x :: update i' v a'
  end.

Definition log (c : RestCall) (r : Rest) : Rest :=
  set_rest_calls (rest_calls r ++ [c]) r.

(** A loop that threads a state through [M]. *)
Fixpoint foldM {A S} (l : list A) (body : A -> S -> M S) (s : S) : M S :=
  match l with
  | [] => ret s
  | x :: l' => s' <- body x s ;; foldM l' body s'
  end.

Module Graphics'.

Section WithPlatform.
Variable P : Platform.

(** [Graphics::VsyncState] and [Graphics::SwapChainIndex]. *)
Definition VsyncState (r : Rest) : bool :=
  (vsyncDesired r || negb (supportsTearing r) || isFullscreen r)%bool.

Definition SwapChainIndex (r : Rest) : Z := currentBackBufferIndex r.

(** [Graphics::AdvanceSwapChainIndex].  [completedValue] is what
    [FrameSyncFence->GetCompletedValue()] answers; the wait itself is an
    entry of the log. *)
Definition AdvanceSwapChainIndex (completedValue : Z) (r : Rest) : M Rest :=
  (* Grab the current fence value and use it to signal this frame being done *)
  currentFenceCounter <-
    index (FrameSyncFenceCounters r) (currentBackBufferIndex r) ;;
  _ <- derefG CommandQueue ;;
  let r := log (FrameSyncFence_Signal currentFenceCounter) r in
  (* Calculate the next index *)
  let nextBuffer := add32 (currentBackBufferIndex r) 1 in
  let nextBuffer := nextBuffer mod Graphics.NumBackBuffers in
  (* Do we need to wait for the next frame? *)
  _ <- deref (fun _ => FrameSyncFence r) ;;
  nextCounter <- index (FrameSyncFenceCounters r) nextBuffer ;;
  let r := if completedValue <? nextCounter
           then log (FrameSyncFence_Wait nextCounter) r
           else r in
  (* Frame is done, so update the next frame's counter *)
  let r := set_FrameSyncFenceCounters
             (update (Z.to_nat nextBuffer) (add64 currentFenceCounter 1)
                     (FrameSyncFenceCounters r)) r in
  ret (set_currentBackBufferIndex nextBuffer r).

(** [while (currentBackBufferIndex != 0) AdvanceSwapChainIndex();], with
    fuel for the iterations: [None] when the fuel runs out first. *)
Fixpoint advance_to_zero (fuel : nat) (completed : nat -> Z) (r : Rest)
  : M (option Rest) :=
  if currentBackBufferIndex r =? 0 then ret (Some r) else
  match fuel with
  | O => ret None
  | S fuel' =>
      r' <- AdvanceSwapChainIndex (completed O) r ;;
      advance_to_zero fuel' (fun n => completed (S n)) r'
  end.

(** [Graphics::ResizeBuffers]. *)
Definition ResizeBuffers (fuel : nat) (D : Display) (width height : Z)
    (r : Rest) : M (option Rest) :=
  (* Ensure graphics API is initialized *)
  init <- getsG apiInitialized ;;
  if negb init then ret (Some r) else
  (* Wait for the GPU to finish all work *)
  Graphics.WaitForGPU ;;
  (* Release the back buffers *)
  let r := fold_left
             (fun r i => set_BackBuffers (update i None (BackBuffers r)) r)
             [0%nat; 1%nat] r in
  (* Resize the swap chain *)
  _ <- deref (fun _ => SwapChain r) ;;
  let r := log (SwapChain_ResizeBuffers Graphics.NumBackBuffers width height
                  (if supportsTearing r
                   then DXGI_SWAP_CHAIN_FLAG_ALLOW_TEARING else 0)) r in
  _ <- derefG Device ;;
  call GetDescriptorHandleIncrementSize ;;
  let RTVDescriptorSize := u64 (RTVDescriptorHandleIncrementSize D) in
  (* Go through the steps to setup the back buffers again *)
  r <- foldM [0; 1]
         (fun i r =>
            _ <- deref (fun _ => SwapChain r) ;;
            let r := log (SwapChain_GetBuffer i) r in
            let r := set_BackBuffers
                       (update (Z.to_nat i) (GetBuffer D i) (BackBuffers r)) r in
            _ <- deref (fun _ => RTVHeap r) ;;
            let handle :=
              add64 (RTVHeap_GetCPUDescriptorHandleForHeapStart D)
                    (mul64 RTVDescriptorSize (u64 i)) in
            let r := set_RTVHandles
                       (update (Z.to_nat i) handle (RTVHandles r)) r in
            _ <- derefG Device ;;
            call (CreateRenderTargetView i) ;;
            ret r)
         r ;;
  (* Reset the depth buffer and create it again *)
  let r := set_DepthBuffer None r in
  _ <- derefG Device ;;
  depth <- CreateCommittedResource_ P D3D12_HEAP_TYPE_DEFAULT
             {| Dimension := D3D12_RESOURCE_DIMENSION_TEXTURE2D;
                Alignment := 0;
                Width := width;
                Height := height;
                Flags := D3D12_RESOURCE_FLAG_ALLOW_DEPTH_STENCIL |}
             D3D12_RESOURCE_STATE_DEPTH_WRITE ;;
  let r := set_DepthBuffer depth r in
  _ <- deref (fun _ => DSVHeap r) ;;
  let r := set_DSVHandle (DSVHeap_GetCPUDescriptorHandleForHeapStart D) r in
  _ <- derefG Device ;;
  call CreateDepthStencilView ;;
  (* Advance the swap chain until we're back at zero *)
  r <- advance_to_zero fuel (GetCompletedValue D) r ;;
  match r with
  | None => ret None
  | Some r =>
      (* Are we in a fullscreen state? *)
      _ <- deref (fun _ => SwapChain r) ;;
      let r := log SwapChain_GetFullscreenState r in
      let r := set_isFullscreen (GetFullscreenState D) r in
      (* Wait for the GPU before we proceed *)
      Graphics.WaitForGPU ;;
      ret (Some r)
  end.


(** [Graphics::CopySRVsToDescriptorHeapAndGetGPUDescriptorHandle]. *)
Definition CopySRVsToDescriptorHeapAndGetGPUDescriptorHandle
    (firstDescriptorToCopy numDescriptorsToCopy : Z) (r : Rest)
  : M (Z * Rest) :=
  _ <- derefG CBVSRVDescriptorHeap ;;
  srv <- getsG srvDescriptorOffset ;;
  incr <- getsG cbvSrvDescriptorHeapIncrementSize ;;
  let cpuHandle :=
    add64 (GetCPUDescriptorHandleForHeapStart P) (mul64 (u64 srv) incr) in
  let gpuHandle :=
    add64 (GetGPUDescriptorHandleForHeapStart P) (mul64 (u64 srv) incr) in
  (* We know where to copy these descriptors, so copy all of them *)
  _ <- derefG Device ;;
  let r := log (CopyDescriptorsSimple numDescriptorsToCopy cpuHandle
                  firstDescriptorToCopy) r in
  modifyG (set_srvDescriptorOffset (add32 srv numDescriptorsToCopy)) ;;
  ret (gpuHandle, r).

End WithPlatform.

End Graphics'.

(** One call of [Graphics::AdvanceSwapChainIndex] for each answer of the
    frame fence, in order. *)
Definition advance_all (completed : list Z) (r : Rest) : M Rest :=
  foldM completed Graphics'.AdvanceSwapChainIndex r.

(* ================================================================= *)
(** ** [Game.cpp] and the resize message of [Window.cpp] *)

Section GameLoop.
Variable P : Platform.

(** [Game::Draw].  The camera being outside the model, the bytes of the
    frame's scene data are an argument, as for [Raytrace]; so is the answer
    of the frame fence. *)
Definition Game_Draw (sceneData : list Byte.byte) (completedValue : Z)
    (r : Rest) : M Rest :=
  (* Reset the allocator for this frame *)
  Graphics.ResetAllocatorAndCommandList (Graphics'.SwapChainIndex r) ;;
  (* Grab the current back buffer for this frame *)
  currentBackBuffer <- index (BackBuffers r) (Graphics'.SwapChainIndex r) ;;
  (* Ray tracing here! *)
  RayTracing.Raytrace P sceneData currentBackBuffer ;;
  (* Present the current back buffer and move to the next one *)
  let vsync := Graphics'.VsyncState r in
  _ <- deref (fun _ => SwapChain r) ;;
  let r := log (SwapChain_Present (if vsync then 1 else 0)
                  (if vsync then 0 else DXGI_PRESENT_ALLOW_TEARING)) r in
  Graphics'.AdvanceSwapChainIndex completedValue r.




End GameLoop.

(* ================================================================= *)
(** ** [Material.cpp]: the textures of a material *)

(** The part of a [Material] that its textures use: the SRV handles by slot
    ([D3D12_CPU_DESCRIPTOR_HANDLE textureSRVsBySlot[128]]) and what
    [FinalizeTextures] leaves. *)
Record Material := Build_Material {
  materialTexturesFinalized : bool;
  highestSRVSlot : Z;
  textureSRVsBySlot : list Z;
  finalGPUHandleForSRVs : Z
}.

Definition set_materialTexturesFinalized (v : bool) (m : Material)
  : Material :=
  Build_Material v (highestSRVSlot m) (textureSRVsBySlot m)
    (finalGPUHandleForSRVs m).

Definition set_highestSRVSlot (v : Z) (m : Material) : Material :=
  Build_Material (materialTexturesFinalized m) v (textureSRVsBySlot m)
    (finalGPUHandleForSRVs m).

Definition set_textureSRVsBySlot (v : list Z) (m : Material) : Material :=
  Build_Material (materialTexturesFinalized m) (highestSRVSlot m) v
    (finalGPUHandleForSRVs m).

Definition set_finalGPUHandleForSRVs (v : Z) (m : Material) : Material :=
  Build_Material (materialTexturesFinalized m) (highestSRVSlot m)
    (textureSRVsBySlot m) v.

Module Material_.

(** What the constructor leaves: no texture in any of the 128 slots. *)
Definition new : Material :=
  {| materialTexturesFinalized := false;
     highestSRVSlot := -1;
     textureSRVsBySlot := repeat 0 128;
     finalGPUHandleForSRVs := 0 |}.

(** [Material::AddTexture]. *)
Definition AddTexture (srvDescriptorHandle slot : Z) (m : Material) : Material :=
  (* Valid slot? *)
  if (materialTexturesFinalized m || (slot <? 0) || (slot >=? 128))%bool
  then m else
  (* Save and check if this was the highest slot *)
  let m := set_textureSRVsBySlot
             (update (Z.to_nat slot) srvDescriptorHandle (textureSRVsBySlot m))
             m in
  set_highestSRVSlot (Z.max (highestSRVSlot m) slot) m.

(** [Material::FinalizeTextures]. *)
Definition FinalizeTextures (P : Platform) (m : Material) (r : Rest)
  : M (Material * Rest) :=
  (* Skip if we're already set up *)
  if materialTexturesFinalized m then ret (m, r) else
  (* One by one, copy all SRVs into the shader-visible CBV/SRV heap *)
  mr <- foldM (map Z.of_nat (seq 0 (Z.to_nat (highestSRVSlot m + 1))))
          (fun i (mr : Material * Rest) =>
             let (m, r) := mr in
             src <- index (textureSRVsBySlot m) i ;;
             copied <- Graphics'.CopySRVsToDescriptorHeapAndGetGPUDescriptorHandle
                         P src 1 r ;;
             let (gpuHandle, r) := copied in
             (* Save the first resulting handle *)
             let m := if i =? 0 then set_finalGPUHandleForSRVs gpuHandle m
                      else m in
             ret (m, r))
          (m, r) ;;
  (* All done with texture setup *)
  let (m, r) := mr in
  ret (set_materialTexturesFinalized true m, r).

End Material_.

(** One call of [Material::AddTexture] for each pair of a handle and a
    slot, in order. *)
Definition add_all (adds : list (Z * Z)) (m : Material) : Material :=
  fold_left (fun m a => Material_.AddTexture (fst a) (snd a) m) adds m.

(* ================================================================= *)
(** ** [Input.cpp]: the keyboard and the mouse position

    The variables the functions below use; the wheel and the raw mouse
    deltas, which they do not, are left out.  A result of [None] is the
    use of an array that was never allocated. *)

Module Input.

Record State := Build_State {
  kbState : option (list Z);
  prevKbState : option (list Z);
  mouseX : Z;
  mouseY : Z;
  prevMouseX : Z;
  prevMouseY : Z;
  mouseXDelta : Z;
  mouseYDelta : Z;
  keyboardCaptured : bool;
  mouseCaptured : bool
}.

Definition set_kbState (v : option (list Z)) (s : State) : State :=
  Build_State v (prevKbState s) (mouseX s) (mouseY s) (prevMouseX s)
    (prevMouseY s) (mouseXDelta s) (mouseYDelta s) (keyboardCaptured s)
    (mouseCaptured s).

Definition set_prevKbState (v : option (list Z)) (s : State) : State :=
  Build_State (kbState s) v (mouseX s) (mouseY s) (prevMouseX s)
    (prevMouseY s) (mouseXDelta s) (mouseYDelta s) (keyboardCaptured s)
    (mouseCaptured s).

Definition set_mouseX (v : Z) (s : State) : State :=
  Build_State (kbState s) (prevKbState s) v (mouseY s) (prevMouseX s)
    (prevMouseY s) (mouseXDelta s) (mouseYDelta s) (keyboardCaptured s)
    (mouseCaptured s).

Definition set_mouseY (v : Z) (s : State) : State :=
  Build_State (kbState s) (prevKbState s) (mouseX s) v (prevMouseX s)
    (prevMouseY s) (mouseXDelta s) (mouseYDelta s) (keyboardCaptured s)
    (mouseCaptured s).

Definition set_prevMouseX (v : Z) (s : State) : State :=
  Build_State (kbState s) (prevKbState s) (mouseX s) (mouseY s) v
    (prevMouseY s) (mouseXDelta s) (mouseYDelta s) (keyboardCaptured s)
    (mouseCaptured s).

Definition set_prevMouseY (v : Z) (s : State) : State :=
  Build_State (kbState s) (prevKbState s) (mouseX s) (mouseY s)
    (prevMouseX s) v (mouseXDelta s) (mouseYDelta s) (keyboardCaptured s)
    (mouseCaptured s).

Definition set_mouseXDelta (v : Z) (s : State) : State :=
  Build_State (kbState s) (prevKbState s) (mouseX s) (mouseY s)
    (prevMouseX s) (prevMouseY s) v (mouseYDelta s) (keyboardCaptured s)
    (mouseCaptured s).

Definition set_mouseYDelta (v : Z) (s : State) : State :=
  Build_State (kbState s) (prevKbState s) (mouseX s) (mouseY s)
    (prevMouseX s) (prevMouseY s) (mouseXDelta s) v (keyboardCaptured s)
    (mouseCaptured s).

Definition set_keyboardCaptured (v : bool) (s : State) : State :=
  Build_State (kbState s) (prevKbState s) (mouseX s) (mouseY s)
    (prevMouseX s) (prevMouseY s) (mouseXDelta s) (mouseYDelta s) v
    (mouseCaptured s).

Definition set_mouseCaptured (v : bool) (s : State) : State :=
  Build_State (kbState s) (prevKbState s) (mouseX s) (mouseY s)
    (prevMouseX s) (prevMouseY s) (mouseXDelta s) (mouseYDelta s)
    (keyboardCaptured s) v.

(** [int] arithmetic, as the x64 compiler does it: modulo [2^32]. *)
Definition s32 (z : Z) : Z := (z + 2 ^ 31) mod 2 ^ 32 - 2 ^ 31.

(** A virtual key code of [WinUser.h]. *)
Definition VK_LBUTTON : Z := 1.

(** What [Input::Initialize] leaves: both arrays allocated and zeroed. *)
Definition Initialize : State :=
  {| kbState := Some (repeat 0 256);
     prevKbState := Some (repeat 0 256);
     mouseX := 0; mouseY := 0;
     prevMouseX := 0; prevMouseY := 0;
     mouseXDelta := 0; mouseYDelta := 0;
     keyboardCaptured := false; mouseCaptured := false |}.

(** [Input::SetKeyboardCapture] and [Input::SetMouseCapture]. *)
Definition SetKeyboardCapture (captured : bool) (s : State) : State :=
  set_keyboardCaptured captured s.

Definition SetMouseCapture (captured : bool) (s : State) : State :=
  set_mouseCaptured captured s.

(** [Input::Update].  [keys] is what [GetKeyboardState] puts in [kbState]
    ([None]: the call failed and wrote nothing); [cursor] is the cursor
    position in client coordinates. *)
Definition Update (keys : option (list Z)) (cursor : Z * Z) (s : State)
  : option State :=
  (* Copy the old keys so we have last frame's data *)
  match prevKbState s, kbState s with
  | Some prev, Some kb =>
      let s := set_prevKbState (Some (firstn 256 kb ++ skipn 256 prev)) s in
      (* Get the latest keys (from Windows) *)
      let s := match keys with
               | Some k => set_kbState (Some (firstn 256 k ++ skipn 256 kb)) s
               | None => s
               end in
      (* Save the previous mouse position, then the current one *)
      let s := set_prevMouseX (mouseX s) s in
      let s := set_prevMouseY (mouseY s) s in
      let s := set_mouseX (s32 (fst cursor)) s in
      let s := set_mouseY (s32 (snd cursor)) s in
      let s := set_mouseXDelta (s32 (mouseX s - prevMouseX s)) s in
      let s := set_mouseYDelta (s32 (mouseY s - prevMouseY s)) s in
      Some s
  | _, _ => None
  end.

(** [kbState[key] & 0x80], as a truth value. *)
Definition high_bit (a : list Z) (key : Z) : bool :=
  negb (Z.land (nth (Z.to_nat key) a 0) 128 =? 0).

Definition out_of_range (key : Z) : bool := ((key <? 0) || (key >? 255))%bool.

(** [Input::KeyDown], [Input::KeyUp], [Input::KeyPress] and
    [Input::KeyRelease]; [&&] evaluates its right operand only when the
    left one holds. *)
Definition KeyDown (key : Z) (s : State) : option bool :=
  if out_of_range key then Some false else
  match kbState s with
  | None => None
  | Some kb => Some (high_bit kb key && negb (keyboardCaptured s))%bool
  end.

Definition KeyUp (key : Z) (s : State) : option bool :=
  if out_of_range key then Some false else
  match kbState s with
  | None => None
  | Some kb => Some (negb (high_bit kb key) && negb (keyboardCaptured s))%bool
  end.

Definition KeyPress (key : Z) (s : State) : option bool :=
  if out_of_range key then Some false else
  match kbState s with
  | None => None
  | Some kb =>
      if high_bit kb key then
        match prevKbState s with
        | None => None
        | Some prev =>
            Some (negb (high_bit prev key) && negb (keyboardCaptured s))%bool
        end
      else Some false
  end.

Definition KeyRelease (key : Z) (s : State) : option bool :=
  if out_of_range key then Some false else
  match kbState s with
  | None => None
  | Some kb =>
      if negb (high_bit kb key) then
        match prevKbState s with
        | None => None
        | Some prev =>
            Some (high_bit prev key && negb (keyboardCaptured s))%bool
        end
      else Some false
  end.

(** [Input::GetKeyArray(keyArray, size)]: the result and the caller's array
    afterwards (an array of at least [size] entries: the function writes
    that many). *)
Definition GetKeyArray (keyArray : list bool) (size : Z) (s : State)
  : option (bool * list bool) :=
  if ((size <=? 0) || (size >? 256))%bool then Some (false, keyArray) else
  match kbState s with
  | None => None
  | Some kb =>
      let n := Z.to_nat size in
      Some (true,
            map (fun i => high_bit kb (Z.of_nat i)) (seq 0 n)
            ++ skipn n keyArray)
  end.

(** [Input::MouseLeftDown]. *)
Definition MouseLeftDown (s : State) : option bool :=
  match kbState s with
  | None => None
  | Some kb => Some (high_bit kb VK_LBUTTON && negb (mouseCaptured s))%bool
  end.

End Input.

(* ================================================================= *)
(** ** [PathHelpers.cpp], the narrow strings *)

(** The character ['\\'] (code 92). *)
Definition backslash : Ascii.ascii := Ascii.ascii_of_nat 92.

(** [strrchr]: where the last [c] of [s] is. *)
Fixpoint strrchr (s : string) (c : Ascii.ascii) : option nat :=
  match s with
  | EmptyString => None
  | String a s' =>
      match strrchr s' c with
      | Some i => Some (S i)
      | None => if Ascii.eqb a c then Some O else None
      end
  end.

(** [GetExePath]; [currentDir] is the C string [GetModuleFileNameA] leaves
    in the buffer (the characters before its terminating zero). *)
Definition GetExePath (currentDir : string) : string :=
  (* Assume the path is just the current directory for now *)
  let path := ".\"%string in
  (* Find the location of the last slash character *)
  match strrchr currentDir backslash with
  | Some lastSlash =>
      (* End the string at the last slash character *)
      substring 0 lastSlash currentDir
  | None => path
  end.

(** [FixPath(const std::string&)]. *)
Definition FixPath (currentDir relativeFilePath : string) : string :=
  (GetExePath currentDir ++ "\" ++ relativeFilePath)%string.

(* ================================================================= *)
(** ** Sample states for the rest *)

(** The depth buffer [ResizeBuffers] asks of the device, when it is the
    device's resource number [n]. *)
Definition depth_texture (P : Platform) (n : nat) (width height : Z)
  : ID3D12Resource :=
  {| res_id := n;
     GetGPUVirtualAddress := virtualAddressOf P n;
     GetDesc := {| Dimension := D3D12_RESOURCE_DIMENSION_TEXTURE2D;
                   Alignment := 0;
                   Width := width;
                   Height := height;
                   Flags := D3D12_RESOURCE_FLAG_ALLOW_DEPTH_STENCIL |} |}.

(** The rest of [namespace Graphics] on the sample machine after
    [Graphics::Initialize]: two back buffers from the swap chain (resources
    2000 and 2001), the counters of the frame fence still zero. *)
Definition sample_back_buffer (i : Z) : ComPtr ID3D12Resource :=
  Some {| res_id := (2000 + Z.to_nat i)%nat;
          GetGPUVirtualAddress := 0;
          GetDesc := {| Dimension := D3D12_RESOURCE_DIMENSION_TEXTURE2D;
                        Alignment := 0;
                        Width := 1280;
                        Height := 720;
                        Flags := D3D12_RESOURCE_FLAG_NONE |} |}.

Definition sample_rest : Rest :=
  {| supportsTearing := true;
     vsyncDesired := false;
     isFullscreen := false;
     currentBackBufferIndex := 0;
     SwapChain := Some tt;
     BackBuffers := [sample_back_buffer 0; sample_back_buffer 1];
     RTVHeap := Some tt;
     RTVHandles := [16384; 16416];
     DepthBuffer := None;
     DSVHeap := Some tt;
     DSVHandle := 32768;
     FrameSyncFence := Some tt;
     FrameSyncFenceCounters := [0; 0];
     rest_calls := [] |}.

Definition sample_display : Display :=
  {| GetBuffer := sample_back_buffer;
     GetFullscreenState := false;
     GetCompletedValue := fun _ => 0;
     RTVDescriptorHandleIncrementSize := 32;
     RTVHeap_GetCPUDescriptorHandleForHeapStart := 16384;
     DSVHeap_GetCPUDescriptorHandleForHeapStart := 32768 |}.

(** The sample machine with a shader library that cannot be read. *)
Definition sample_platform_unreadable : Platform :=
  {| D3D12_SHADER_IDENTIFIER_SIZE_IN_BYTES :=
       D3D12_SHADER_IDENTIFIER_SIZE_IN_BYTES sample_platform;
     sizeof_D3D12_GPU_DESCRIPTOR_HANDLE :=
       sizeof_D3D12_GPU_DESCRIPTOR_HANDLE sample_platform;
     D3D12_RAYTRACING_SHADER_RECORD_BYTE_ALIGNMENT :=
       D3D12_RAYTRACING_SHADER_RECORD_BYTE_ALIGNMENT sample_platform;
     D3D12_RAYTRACING_SHADER_TABLE_BYTE_ALIGNMENT :=
       D3D12_RAYTRACING_SHADER_TABLE_BYTE_ALIGNMENT sample_platform;
     D3D12_RAYTRACING_ACCELERATION_STRUCTURE_BYTE_ALIGNMENT :=
       D3D12_RAYTRACING_ACCELERATION_STRUCTURE_BYTE_ALIGNMENT sample_platform;
     D3D12_DEFAULT_RESOURCE_PLACEMENT_ALIGNMENT :=
       D3D12_DEFAULT_RESOURCE_PLACEMENT_ALIGNMENT sample_platform;
     D3D12_RAYTRACING_MAX_DECLARABLE_TRACE_RECURSION_DEPTH :=
       D3D12_RAYTRACING_MAX_DECLARABLE_TRACE_RECURSION_DEPTH sample_platform;
     createDeviceResult := createDeviceResult sample_platform;
     createSwapChainResult := createSwapChainResult sample_platform;
     supportResult := supportResult sample_platform;
     RaytracingTier := RaytracingTier sample_platform;
     dxrDeviceResult := dxrDeviceResult sample_platform;
     dxrCommandListResult := dxrCommandListResult sample_platform;
     descriptorHandleIncrementSize :=
       descriptorHandleIncrementSize sample_platform;
     GetCPUDescriptorHandleForHeapStart :=
       GetCPUDescriptorHandleForHeapStart sample_platform;
     GetGPUDescriptorHandleForHeapStart :=
       GetGPUDescriptorHandleForHeapStart sample_platform;
     prebuildInfo := prebuildInfo sample_platform;
     readFileToBlob := fun _ => None;
     shaderIdentifier := shaderIdentifier sample_platform;
     virtualAddressOf := virtualAddressOf sample_platform |}.

(** A material with a texture in slot 0 and one in slot 2. *)
Definition sample_material : Material :=
  add_all [(20480, 0); (20544, 2)] Material_.new.

(** Two keyboard states: no key down, and the key W (code 87) down. *)
Definition no_key_down : list Z := repeat 0 256.
Definition W_down : list Z := update 87 128 (repeat 0 256).

(* ================================================================= *)
(** ** Proof tools *)

Ltac unfold_m :=
  unfold getsG, getsR, getsD, modifyG, modifyR, modifyD, derefG, derefR,
         call, when, memcpy;
  unfold gets, modify, deref, bind, ret.

Lemma bind_Ret {A B} (m : M A) (k : A -> M B) w a w' :
  m w = Ret a w' -> bind m k w = k a w'.
Proof. intros H. unfold bind. rewrite H. reflexivity. Qed.

Lemma bind_Crash {A B} (m : M A) (k : A -> M B) w w' :
  m w = Crash w' -> bind m k w = Crash w'.
Proof. intros H. unfold bind. rewrite H. reflexivity. Qed.

Lemma bind_assoc {A B C} (m : M A) (k1 : A -> M B) (k2 : B -> M C) w :
  bind (bind m k1) k2 w = bind m (fun a => bind (k1 a) k2) w.
Proof. unfold bind. destruct (m w); reflexivity. Qed.

Lemma forM_app {A} (l1 l2 : list A) (body : A -> M unit) w w' :
  forM_ l1 body w = Ret tt w' ->
  forM_ (l1 ++ l2) body w = forM_ l2 body w'.
Proof.
  revert w. induction l1 as [|x l1 IH]; intros w H; cbn in *.
  - unfold ret in H. inversion H. reflexivity.
  - unfold bind in *. destruct (body x w) as [[] w1|w1]; [|discriminate].
    apply IH. exact H.
Qed.

Lemma deref_Some {T} (p : World -> ComPtr T) w x :
  p w = Some x -> deref p w = Ret x w.
Proof. intros H. unfold deref. rewrite H. reflexivity. Qed.

Lemma derefG_Some {T} (f : GraphicsState -> ComPtr T) w x :
  f (graphics w) = Some x -> derefG f w = Ret x w.
Proof. intros H. unfold derefG. apply deref_Some. exact H. Qed.

Lemma derefR_Some {T} (f : RayTracingState -> ComPtr T) w x :
  f (raytracing w) = Some x -> derefR f w = Ret x w.
Proof. intros H. unfold derefR. apply deref_Some. exact H. Qed.

(** Running a program one action at a time: [step] runs the first action of
    a [bind] and [norm] brings the world it leaves back to constructor
    form, so that no proof carries more than one pending update. *)
Ltac unfold_setters :=
  unfold set_apiInitialized, set_Device, set_CommandQueue, set_CommandList,
    set_CBVSRVDescriptorHeap, set_CBUploadHeap, set_WaitFenceCounter,
    set_cbvSrvDescriptorHeapIncrementSize, set_cbvDescriptorOffset,
    set_srvDescriptorOffset, set_cbUploadHeapSizeInBytes,
    set_cbUploadHeapOffsetInBytes, set_dxrAvailable, set_dxrInitialized,
    set_DXRDevice, set_DXRCommandList, set_GlobalRaytracingRootSig,
    set_LocalRaytracingRootSig, set_RaytracingPipelineStateObject,
    set_RaytracingPipelineProperties, set_ShaderTable,
    set_ShaderTableRecordSize, set_TLASScratchBuffer,
    set_BLASScratchBuffer, set_TLASInstanceDescBuffer, set_TLAS, set_BLAS,
    set_RaytracingOutput, set_RaytracingOutputUAV_CPU,
    set_RaytracingOutputUAV_GPU, set_indexBufferSRV, set_vertexBufferSRV,
    set_created, set_memory, set_calls, set_graphics, set_raytracing,
    set_device, set_Window_Width, set_Window_Height.

Ltac norm := cbn -[bind]; unfold_setters; cbn -[bind].

Ltac prim :=
  first [ reflexivity
        | apply derefG_Some; norm; first [reflexivity | eassumption]
        | apply derefR_Some; norm; first [reflexivity | eassumption]
        | apply deref_Some; norm; first [reflexivity | eassumption] ].

Ltac step := rewrite (bind_Ret _ _ _ _ _) by prim; norm.

Ltac run := repeat first [rewrite bind_assoc | step].

Ltac split_all := repeat match goal with |- _ /\ _ => split end.

(** *** Reading back what [memcpy] wrote *)

Lemma read_length m rid off n : List.length (read m rid off n) = n.
Proof. unfold read. rewrite length_map, length_seq. reflexivity. Qed.

Lemma read_write_same m rid off src :
  read (write m rid off src) rid off (List.length src) = src.
Proof.
  unfold read.
  set (f := fun i : nat => write m rid off src rid (off + Z.of_nat i)).
  apply nth_ext with (d := f 0%nat) (d' := Byte.x00).
  - rewrite length_map, length_seq. reflexivity.
  - intros i Hi. rewrite length_map, length_seq in Hi.
    rewrite map_nth, seq_nth by exact Hi. cbn [Nat.add].
    unfold f, write. rewrite Nat.eqb_refl. cbn [andb].
    replace (off <=? off + Z.of_nat i) with true by (symmetry; apply Z.leb_le; lia).
    replace (off + Z.of_nat i <? off + Z.of_nat (List.length src)) with true
      by (symmetry; apply Z.ltb_lt; lia).
    cbn [andb]. f_equal. lia.
Qed.

Lemma read_write_same_length m rid off src n :
  List.length src = n -> read (write m rid off src) rid off n = src.
Proof. intros <-. apply read_write_same. Qed.

Lemma write_other m rid off src r o :
  r <> rid \/ o < off \/ off + Z.of_nat (List.length src) <= o ->
  write m rid off src r o = m r o.
Proof.
  intros H. unfold write.
  destruct (Nat.eqb_spec r rid) as [E|NE]; cbn [andb]; [|reflexivity].
  destruct (Z.leb_spec off o); cbn [andb]; [|reflexivity].
  destruct (Z.ltb_spec o (off + Z.of_nat (List.length src))); [|reflexivity].
  exfalso. destruct H as [H|[H|H]]; [congruence|lia|lia].
Qed.

Lemma read_write_other m rid off src r o n :
  r <> rid \/ o + Z.of_nat n <= off \/ off + Z.of_nat (List.length src) <= o ->
  read (write m rid off src) r o n = read m r o n.
Proof.
  intros H. unfold read. apply map_ext_in. intros i Hi.
  apply in_seq in Hi. apply write_other.
  destruct H as [H|[H|H]]; [left; exact H|right; left; lia|right; right; lia].
Qed.

Lemma length_handle_bytes size ptr :
  List.length (handle_bytes size ptr) = Z.to_nat size.
Proof. unfold handle_bytes. apply length_le_split. Qed.

Lemma firstn_handle_bytes size ptr :
  firstn (Z.to_nat size) (handle_bytes size ptr) = handle_bytes size ptr.
Proof. apply firstn_all2. rewrite length_handle_bytes. apply Nat.le_refl. Qed.

(* ================================================================= *)
(** ** Arithmetic of rounding up *)

Section Rounding.

Lemma u64_small z : is_u64 z -> u64 z = z.
Proof. intros H. unfold u64. apply Z.mod_small. exact H. Qed.

Lemma u32_small z : is_u32 z -> u32 z = z.
Proof. intros H. unfold u32. apply Z.mod_small. exact H. Qed.

Lemma u64_range z : is_u64 (u64 z).
Proof. unfold is_u64, u64. apply Z.mod_pos_bound. lia. Qed.

Lemma u32_range z : is_u32 (u32 z).
Proof. unfold is_u32, u32. apply Z.mod_pos_bound. lia. Qed.

(** [align_up v a] is the least multiple of [a] that is at least [v]. *)
Lemma align_up_bounds v a : 0 < a -> v <= align_up v a < v + a.
Proof.
  intros Ha. unfold align_up.
  pose proof (Z.div_mod (v + a - 1) a) as E.
  pose proof (Z.mod_pos_bound (v + a - 1) a Ha) as B.
  nia.
Qed.

Lemma align_up_divide v a : (a | align_up v a).
Proof. unfold align_up. exists ((v + a - 1) / a). reflexivity. Qed.

Lemma align_up_least v a m :
  0 < a -> (a | m) -> v <= m -> align_up v a <= m.
Proof.
  intros Ha [k ->] Hv.
  pose proof (align_up_bounds v a Ha) as B.
  destruct (align_up_divide v a) as [j Ej]. rewrite Ej in *.
  assert (j < k + 1) by (apply (Z.mul_lt_mono_pos_r a); lia).
  apply Z.mul_le_mono_nonneg_r; lia.
Qed.

Lemma align_up_mono a x y : 0 < a -> x <= y -> align_up x a <= align_up y a.
Proof.
  intros Ha Hxy. unfold align_up.
  apply Z.mul_le_mono_nonneg_r; [lia|].
  apply Z.div_le_mono; lia.
Qed.

Lemma align_up_max a x y :
  0 < a -> Z.max (align_up x a) (align_up y a) = align_up (Z.max x y) a.
Proof.
  intros Ha.
  destruct (Z.le_ge_cases x y) as [H|H].
  - rewrite (Z.max_r x y) by exact H.
    apply Z.max_r. apply align_up_mono; assumption.
  - rewrite (Z.max_l x y) by exact H.
    apply Z.max_l. apply align_up_mono; assumption.
Qed.

Lemma align_up_fixed v a : 0 < a -> (a | v) -> align_up v a = v.
Proof.
  intros Ha Hd.
  pose proof (align_up_bounds v a Ha) as B.
  pose proof (align_up_least v a v Ha Hd (Z.le_refl v)). lia.
Qed.

(** The macro agrees with [align_up] as long as its sum does not wrap. *)
Lemma ALIGN_align_up v a :
  0 <= v -> 0 < a -> v + a <= 2 ^ 64 -> ALIGN v a = align_up v a.
Proof.
  intros Hv Ha Hb.
  pose proof (align_up_bounds v a Ha) as B.
  unfold ALIGN, mul64, sub64, add64.
  destruct (Z.eq_dec (v + a) (2 ^ 64)) as [E|NE].
  - (* the first sum is exactly 2^64: it wraps to 0, and [0 - 1] wraps back *)
    assert (E1 : u64 (u64 (v + a) - 1) = v + a - 1).
    { rewrite E. unfold u64. rewrite Z.mod_same by lia. reflexivity. }
    rewrite E1. fold (align_up v a). apply u64_small. unfold is_u64. lia.
  - rewrite (u64_small (v + a)) by (unfold is_u64; lia).
    rewrite (u64_small (v + a - 1)) by (unfold is_u64; lia).
    fold (align_up v a). apply u64_small. unfold is_u64. lia.
Qed.

Lemma round256_align_up n : 0 <= n -> n + 256 <= 2 ^ 64 ->
  round256 n = align_up n 256.
Proof.
  intros Hn Hb. unfold round256, mul64, add64, align_up.
  rewrite (u64_small (n + 255)) by (unfold is_u64; lia).
  replace (n + 256 - 1) with (n + 255) by lia.
  apply u64_small. unfold is_u64.
  pose proof (Z.div_mod (n + 255) 256).
  pose proof (Z.mod_pos_bound (n + 255) 256). lia.
Qed.

Lemma round256_mod n : 0 <= n -> n + 256 <= 2 ^ 64 -> round256 n mod 256 = 0.
Proof.
  intros Hn Hb. rewrite round256_align_up by assumption.
  unfold align_up. apply Z.mod_mul. lia.
Qed.

End Rounding.

(* ================================================================= *)
(** ** The guards of [Raytrace] and [ResizeOutputUAV] *)

Section Guards.
Variable P : Platform.

Lemma Raytrace_skips sceneData bb w :
  dxrInitialized (raytracing w) = false \/ dxrAvailable (raytracing w) = false ->
  RayTracing.Raytrace P sceneData bb w = Ret tt w.
Proof.
  intros H. unfold RayTracing.Raytrace, RayTracing.not_ready. unfold_m. cbn.
  destruct H as [H|H]; rewrite H; cbn.
  - reflexivity.
  - rewrite orb_true_r. reflexivity.
Qed.

Lemma ResizeOutputUAV_skips width height w :
  dxrInitialized (raytracing w) = false \/ dxrAvailable (raytracing w) = false ->
  RayTracing.ResizeOutputUAV P width height w = Ret tt w.
Proof.
  intros H. unfold RayTracing.ResizeOutputUAV, RayTracing.not_ready.
  unfold_m. cbn.
  destruct H as [H|H]; rewrite H; cbn.
  - reflexivity.
  - rewrite orb_true_r. reflexivity.
Qed.

Lemma enter_all_skips es w :
  dxrInitialized (raytracing w) = false \/ dxrAvailable (raytracing w) = false ->
  enter_all P es w = Ret tt w.
Proof.
  intros H. unfold enter_all. induction es as [|e es IH]; cbn.
  - reflexivity.
  - rewrite (bind_Ret _ _ w tt w).
    + exact IH.
    + destruct e; cbn; [apply Raytrace_skips|apply ResizeOutputUAV_skips];
        exact H.
Qed.

(** What [Initialize] does when it gives up: three queries, one of the
    three results handed back, nothing else touched. *)
Lemma Initialize_gives_up width height file w :
  Device (graphics w) = Some tt ->
  CommandList (graphics w) = Some tt ->
  capability_absent P = true ->
  exists w',
    RayTracing.Initialize P width height file w
    = Ret (if (FAILED (supportResult P)
               || tier_not_supported (RaytracingTier P))%bool
           then supportResult P
           else if FAILED (dxrDeviceResult P) then dxrDeviceResult P
           else dxrCommandListResult P) w'
    /\ dxrAvailable (raytracing w') = dxrAvailable (raytracing w)
    /\ dxrInitialized (raytracing w') = dxrInitialized (raytracing w)
    /\ graphics w' = graphics w
    /\ trace w' = trace w ++ [CheckFeatureSupport_OPTIONS5;
                              QueryInterface_ID3D12Device5;
                              QueryInterface_ID3D12GraphicsCommandList4].
Proof.
  intros HD HC Habs. unfold capability_absent in Habs.
  unfold RayTracing.Initialize. unfold_m. cbn.
  repeat (first [rewrite HD | rewrite HC]; cbn).
  destruct (FAILED (supportResult P) || tier_not_supported (RaytracingTier P))%bool
    eqn:E1; cbn.
  - eexists. split; [reflexivity|]. cbn. unfold trace. cbn.
    rewrite <- !app_assoc. repeat split; reflexivity.
  - cbn in Habs. destruct (FAILED (dxrDeviceResult P)) eqn:E2; cbn.
    + eexists. split; [reflexivity|]. cbn. unfold trace. cbn.
      rewrite <- !app_assoc. repeat split; reflexivity.
    + cbn in Habs. rewrite Habs. cbn.
      eexists. split; [reflexivity|]. cbn. unfold trace. cbn.
      rewrite <- !app_assoc. repeat split; reflexivity.
Qed.

End Guards.

(* ================================================================= *)
(** ** Capability absence *)

(** C3.  When the feature query itself succeeds and reports the tier as not
    supported, [RayTracing::Initialize] hands back the query's own result:
    a success code.  The flags stay as they were and only the three queries
    reach the device, but the status does not say that ray tracing is
    absent. *)
Theorem C3_unsupported_tier_reports_success :
  forall (P : Platform) (width height : Z) (file : string) (w : World),
    Device (graphics w) = Some tt ->
    CommandList (graphics w) = Some tt ->
    FAILED (supportResult P) = false ->
    RaytracingTier P = D3D12_RAYTRACING_TIER_NOT_SUPPORTED ->
    exists w',
      RayTracing.Initialize P width height file w = Ret (supportResult P) w'
      /\ FAILED (supportResult P) = false
      /\ dxrAvailable (raytracing w') = dxrAvailable (raytracing w)
      /\ dxrInitialized (raytracing w') = dxrInitialized (raytracing w)
      /\ trace w' = trace w ++ [CheckFeatureSupport_OPTIONS5;
                                QueryInterface_ID3D12Device5;
                                QueryInterface_ID3D12GraphicsCommandList4].
Proof.
  intros P width height file w HD HC HS HT.
  assert (Habs : capability_absent P = true).
  { unfold capability_absent. rewrite HT. cbn. rewrite orb_true_r. reflexivity. }
  destruct (Initialize_gives_up P width height file w HD HC Habs)
    as (w' & Hrun & Ha & Hi & _ & Ht).
  rewrite HT in Hrun. cbn in Hrun. rewrite orb_true_r in Hrun.
  exists w'. repeat split; assumption.
Qed.

Lemma C3_unsupported_tier_reports_success_witness :
  exists w',
    RayTracing.Initialize sample_platform_without_dxr 1280 720 "Raytracing.cso"
      (world_of (Graphics.Initialize sample_platform_without_dxr 1280 720
                   (initial_world 1280 720)))
    = Ret S_OK w'
    /\ FAILED S_OK = false
    /\ dxrAvailable (raytracing w') = false
    /\ dxrInitialized (raytracing w') = false.
Proof.
  destruct (C3_unsupported_tier_reports_success
              sample_platform_without_dxr 1280 720 "Raytracing.cso"
              (world_of (Graphics.Initialize sample_platform_without_dxr 1280 720
                           (initial_world 1280 720))))
    as (w' & Hrun & Hf & Ha & Hi & _); try reflexivity.
  exists w'. repeat split; assumption.
Defined.

(** C8.  Once [Initialize] has given up in a process whose flags were still
    clear, every later call of [Raytrace] and of [ResizeOutputUAV], in any
    number and order, returns at once: the world, and with it the trace of
    device, command-list and queue calls, is exactly what it was. *)
Theorem C8_disabled_entry_points_make_no_calls :
  forall (P : Platform) (width height : Z) (file : string) (w : World)
         (es : list EntryPoint),
    Device (graphics w) = Some tt ->
    CommandList (graphics w) = Some tt ->
    dxrAvailable (raytracing w) = false ->
    capability_absent P = true ->
    exists hr w',
      RayTracing.Initialize P width height file w = Ret hr w'
      /\ enter_all P es w' = Ret tt w'
      /\ trace (world_of (enter_all P es w')) = trace w'.
Proof.
  intros P width height file w es HD HC Hav Habs.
  destruct (Initialize_gives_up P width height file w HD HC Habs)
    as (w' & Hrun & Ha & _).
  eexists. exists w'. split; [exact Hrun|].
  assert (Hskip : enter_all P es w' = Ret tt w').
  { apply enter_all_skips. right. rewrite Ha. exact Hav. }
  split; [exact Hskip|]. rewrite Hskip. reflexivity.
Qed.

Lemma C8_disabled_entry_points_make_no_calls_witness :
  exists hr w',
    RayTracing.Initialize sample_platform_without_dxr 1280 720 "Raytracing.cso"
      (world_of (Graphics.Initialize sample_platform_without_dxr 1280 720
                   (initial_world 1280 720)))
    = Ret hr w'
    /\ enter_all sample_platform_without_dxr
         [CallRaytrace sample_sceneData None;
          CallResizeOutputUAV 800 600;
          CallRaytrace sample_sceneData None] w' = Ret tt w'.
Proof.
  destruct (C8_disabled_entry_points_make_no_calls
              sample_platform_without_dxr 1280 720 "Raytracing.cso"
              (world_of (Graphics.Initialize sample_platform_without_dxr 1280 720
                           (initial_world 1280 720)))
              [CallRaytrace sample_sceneData None;
               CallResizeOutputUAV 800 600;
               CallRaytrace sample_sceneData None])
    as (hr & w' & Hrun & Hskip & _); try reflexivity.
  exists hr, w'. split; assumption.
Defined.

(* ================================================================= *)
(** ** What [Raytrace] is guarded by *)

Ltac break_match :=
  match goal with
  | |- context [match ?x with Some _ => _ | None => _ end] => destruct x eqn:?
  | |- context [if ?b then _ else _] => destruct b eqn:?
  end.

(** With both flags set [Raytrace] never comes back to the world it started
    from: it stops on a null pointer, or the trace has grown. *)
Lemma Raytrace_runs_when_ready P sceneData bb w :
  dxrInitialized (raytracing w) = true ->
  dxrAvailable (raytracing w) = true ->
  RayTracing.Raytrace P sceneData bb w <> Ret tt w.
Proof.
  intros Hi Ha.
  unfold RayTracing.Raytrace, RayTracing.not_ready,
    Graphics.FillNextConstantBufferAndGetGPUDescriptorHandle.
  unfold_m. cbn. rewrite Hi, Ha. cbn.
  destruct (DXRCommandList (raytracing w)) eqn:E; [|discriminate].
  cbn.
  intros Heq. apply (f_equal ncalls) in Heq. revert Heq.
  repeat (break_match; cbn).
  all: unfold ncalls, trace; cbn; rewrite ?length_app; cbn; lia.
Qed.

(** C4, as the code has it.  [Raytrace] is a no-op exactly when
    [dxrInitialized] or [dxrAvailable] is clear; the TLAS handle is not part
    of the test. *)
Theorem C4_Raytrace_is_guarded_by_the_flags_only :
  forall (P : Platform) (sceneData : list Byte.byte)
         (bb : ComPtr ID3D12Resource) (w : World),
    RayTracing.Raytrace P sceneData bb w = Ret tt w
    <-> (dxrInitialized (raytracing w) = false
         \/ dxrAvailable (raytracing w) = false).
Proof.
  intros P sceneData bb w. split.
  - intros Hrun.
    destruct (dxrInitialized (raytracing w)) eqn:Hi; [|left; reflexivity].
    destruct (dxrAvailable (raytracing w)) eqn:Ha; [|right; reflexivity].
    exfalso. revert Hrun. apply Raytrace_runs_when_ready; assumption.
  - apply Raytrace_skips.
Qed.

(** C4, as the claim has it, fails: after a successful [Initialize] and
    before [CreateTLAS], the TLAS handle is null, and [Raytrace] records a
    barrier, fills a constant buffer, creates its view and binds heap,
    pipeline, root signature and output table before it stops on the null
    handle. *)
Lemma C4_null_TLAS_does_not_stop_Raytrace :
  TLAS (raytracing world_after_startup) = None
  /\ exists w',
       RayTracing.Raytrace sample_platform sample_sceneData None
         world_after_startup = Crash w'
       /\ trace w' =
          trace world_after_startup ++
          [ ResourceBarrier
              [ BARRIER_TRANSITION None D3D12_RESOURCE_STATE_PRESENT
                  D3D12_RESOURCE_STATE_COPY_DEST;
                BARRIER_TRANSITION (Some 3%nat) D3D12_RESOURCE_STATE_COPY_SOURCE
                  D3D12_RESOURCE_STATE_UNORDERED_ACCESS ];
            CreateConstantBufferView 131072 256 4096;
            SetDescriptorHeaps;
            SetPipelineState1;
            SetComputeRootSignature;
            SetComputeRootDescriptorTable 0 40192 ]
       /\ cbUploadHeapOffsetInBytes (graphics w') = 256
       /\ cbUploadHeapOffsetInBytes (graphics world_after_startup) = 0
       /\ RayTracing.Raytrace sample_platform sample_sceneData None
            world_after_startup <> Ret tt world_after_startup.
Proof.
  split; [reflexivity|].
  eexists. split; [vm_compute; reflexivity|].
  split; [vm_compute; reflexivity|].
  split; [vm_compute; reflexivity|].
  split; [vm_compute; reflexivity|].
  apply Raytrace_runs_when_ready; reflexivity.
Qed.

(* ================================================================= *)
(** ** The constant-buffer upload ring and the CBV cursor *)

Section Allocator.
Variable P : Platform.

Lemma reservation_facts n :
  reservation n mod 256 = 0 /\ 0 <= reservation n <= 2 ^ 32.
Proof.
  unfold reservation.
  pose proof (u32_range (Z.of_nat n)) as B. unfold is_u32 in B.
  rewrite (u64_small (u32 (Z.of_nat n))) by (unfold is_u64; lia).
  split.
  - apply round256_mod; lia.
  - rewrite round256_align_up by lia.
    pose proof (align_up_bounds (u32 (Z.of_nat n)) 256 ltac:(lia)) as B1.
    assert (H256 : (256 | 2 ^ 32)) by (exists (2 ^ 24); reflexivity).
    pose proof (align_up_least (u32 (Z.of_nat n)) 256 (2 ^ 32) ltac:(lia) H256
                  ltac:(lia)).
    lia.
Qed.

Lemma reservation_align_up n :
  is_u32 (Z.of_nat n) -> reservation n = align_up (Z.of_nat n) 256.
Proof.
  intros H. unfold reservation. unfold is_u32 in H.
  rewrite (u32_small _ H).
  rewrite u64_small by (unfold is_u64; lia).
  apply round256_align_up; lia.
Qed.

(** The whole effect of one call, the two wrap tests left as they are in
    the source. *)
Lemma Fill_effect data w heap :
  Device (graphics w) = Some tt ->
  CBVSRVDescriptorHeap (graphics w) = Some tt ->
  CBUploadHeap (graphics w) = Some heap ->
  let g := graphics w in
  let r := reservation (List.length data) in
  let o1 := if add64 (cbUploadHeapOffsetInBytes g) r >=? cbUploadHeapSizeInBytes g
            then 0 else cbUploadHeapOffsetInBytes g in
  let o2 := if add64 o1 r >=? cbUploadHeapSizeInBytes g
            then 0 else add64 o1 r in
  let k := cbvDescriptorOffset g in
  let k' := if add32 k 1 >=? Graphics.MaxConstantBuffers then 0 else add32 k 1 in
  exists w',
    Graphics.FillNextConstantBufferAndGetGPUDescriptorHandle P data w
    = Ret (add64 (GetGPUDescriptorHandleForHeapStart P)
                 (mul64 (u64 k) (cbvSrvDescriptorHeapIncrementSize g))) w'
    /\ graphics w' = set_cbvDescriptorOffset k'
                       (set_cbUploadHeapOffsetInBytes o2 g)
    /\ raytracing w' = raytracing w
    /\ memory (device w')
       = write (memory (device w)) (res_id heap) o1
           (firstn (Z.to_nat (u32 (Z.of_nat (List.length data)))) data)
    /\ created (device w') = created (device w)
    /\ trace w' = trace w ++
         [CreateConstantBufferView
            (add64 (GetGPUVirtualAddress heap) o1) (u32 r)
            (add64 (GetCPUDescriptorHandleForHeapStart P)
                   (mul64 (u64 k) (cbvSrvDescriptorHeapIncrementSize g)))].
Proof.
  intros HD HH HU. cbn zeta. unfold reservation.
  unfold Graphics.FillNextConstantBufferAndGetGPUDescriptorHandle.
  unfold_m. cbn.
  repeat (cbn; rewrite ?HU, ?HH, ?HD; cbn;
          match goal with
          | |- context [if ?b then _ else _] => destruct b eqn:?
          end).
  all: cbn; rewrite ?HU, ?HH, ?HD; cbn.
  all: eexists; split; [reflexivity|]; repeat split; reflexivity.
Qed.

End Allocator.

Section AllocatorProperties.
Variable P : Platform.

(** [Graphics::Initialize] always returns; when the status it returns is
    not a failure, the allocator is set up. *)
Lemma Graphics_Initialize_effect width height w :
  exists hr w',
    Graphics.Initialize P width height w = Ret hr w'
    /\ (FAILED hr = false ->
        AllocatorInv w' /\ AllocatorReady w'
        /\ cbvDescriptorOffset (graphics w') = 0
        /\ srvDescriptorOffset (graphics w') = Graphics.MaxConstantBuffers
        /\ cbUploadHeapOffsetInBytes (graphics w') = 0
        /\ CommandList (graphics w') = Some tt
        /\ CommandQueue (graphics w') = Some tt
        /\ raytracing w' = raytracing w).
Proof.
  unfold Graphics.Initialize, Graphics.WaitForGPU, CreateCommittedResource_.
  step.
  destruct (apiInitialized (graphics w)); norm.
  { eexists. eexists. split; [reflexivity|]. intros H. discriminate H. }
  step.
  destruct (FAILED (createDeviceResult P)) eqn:E1; norm.
  { eexists. eexists. split; [reflexivity|]. intros H. congruence. }
  repeat step.
  destruct (FAILED (createSwapChainResult P)) eqn:E2; norm.
  { eexists. eexists. split; [reflexivity|]. intros H. congruence. }
  repeat step.
  eexists. eexists. split; [reflexivity|]. intros _.
  unfold AllocatorInv, AllocatorReady. cbn.
  assert (Hcap : mul64 (u64 Graphics.MaxConstantBuffers) 256 = 256000)
    by (vm_compute; reflexivity).
  rewrite Hcap. unfold Graphics.MaxConstantBuffers.
  split_all; first [reflexivity | lia | discriminate].
Qed.

(** C2.  One reservation of the upload ring.  For [s] bytes of data the
    reservation [r] is [s] rounded up to a multiple of 256; the write goes
    to offset 0 when [o + r >= capacity] and to [o] otherwise, whatever
    else the world holds; the data can be read back there; and the offset
    ends up [r] further, or at 0 when that reaches the capacity. *)
Theorem C2_upload_ring_reserve :
  forall (data : list Byte.byte) (w : World) (heap : ID3D12Resource),
    Device (graphics w) = Some tt ->
    CBVSRVDescriptorHeap (graphics w) = Some tt ->
    CBUploadHeap (graphics w) = Some heap ->
    let s := Z.of_nat (List.length data) in
    let o := cbUploadHeapOffsetInBytes (graphics w) in
    let capacity := cbUploadHeapSizeInBytes (graphics w) in
    let r := align_up s 256 in
    let start := if o + r >=? capacity then 0 else o in
    let next := if start + r >=? capacity then 0 else start + r in
    is_u32 s -> 0 <= o -> o + r < 2 ^ 64 ->
    exists h w',
      Graphics.FillNextConstantBufferAndGetGPUDescriptorHandle P data w
      = Ret h w'
      /\ (256 | r) /\ s <= r < s + 256
      /\ read (memory (device w')) (res_id heap) start (List.length data) = data
      /\ cbUploadHeapOffsetInBytes (graphics w') = next
      /\ exists dest,
           trace w' = trace w ++
             [CreateConstantBufferView
                (add64 (GetGPUVirtualAddress heap) start) (u32 r) dest].
Proof.
  intros data w heap HD HH HU s o capacity r start next Hs Ho Hr.
  destruct (Fill_effect P data w heap HD HH HU)
    as (w' & Hrun & Hg & _ & Hm & _ & Ht).
  pose proof (align_up_bounds s 256 ltac:(lia)) as Hb. fold r in Hb.
  rewrite (reservation_align_up _ Hs) in *. fold s r o capacity in Hg, Hm, Ht.
  unfold is_u32 in Hs.
  assert (E1 : add64 o r = o + r).
  { unfold add64. apply u64_small. unfold is_u64. lia. }
  rewrite E1 in Hg, Hm, Ht. fold start in Hg, Hm, Ht.
  assert (Hstart : 0 <= start <= o).
  { unfold start. destruct (o + r >=? capacity); lia. }
  assert (E2 : add64 start r = start + r).
  { unfold add64. apply u64_small. unfold is_u64. lia. }
  rewrite E2 in Hg. fold next in Hg.
  eexists. exists w'. split; [exact Hrun|].
  split; [apply align_up_divide|]. split; [exact Hb|].
  split.
  - rewrite Hm. unfold s. rewrite (u32_small (Z.of_nat (List.length data)))
      by (unfold is_u32; exact Hs).
    rewrite Nat2Z.id, firstn_all. apply read_write_same.
  - split.
    + rewrite Hg. reflexivity.
    + eexists. exact Ht.
Qed.

(** C10.  [Graphics::Initialize], when it succeeds, establishes the
    allocator invariant, and every call of
    [FillNextConstantBufferAndGetGPUDescriptorHandle] returns and keeps it:
    the upload offset is a multiple of 256 below the capacity
    [MaxConstantBuffers * 256], the CBV cursor is below
    [MaxConstantBuffers], and the view is created in the slot the cursor
    named, below the slot [MaxConstantBuffers] where SRVs and UAVs start. *)
Theorem C10_allocator_invariant :
  (forall (width height : Z) (w : World),
      exists hr w',
        Graphics.Initialize P width height w = Ret hr w'
        /\ (FAILED hr = false -> AllocatorInv w' /\ AllocatorReady w'))
  /\ (forall (data : list Byte.byte) (w : World),
         AllocatorInv w -> AllocatorReady w ->
         exists h w',
           Graphics.FillNextConstantBufferAndGetGPUDescriptorHandle P data w
           = Ret h w'
           /\ AllocatorInv w' /\ AllocatorReady w'
           /\ exists slot location size,
                slot = cbvDescriptorOffset (graphics w)
                /\ 0 <= slot < Graphics.MaxConstantBuffers
                /\ slot < srvDescriptorOffset (graphics w)
                /\ trace w' = trace w ++
                     [CreateConstantBufferView location size
                        (add64 (GetCPUDescriptorHandleForHeapStart P)
                           (mul64 slot
                              (cbvSrvDescriptorHeapIncrementSize (graphics w))))]).
Proof.
  split.
  - intros width height w.
    destruct (Graphics_Initialize_effect width height w)
      as (hr & w' & Hrun & H).
    exists hr, w'. split; [exact Hrun|]. intros Hok.
    destruct (H Hok) as (Hinv & Hready & _). split; assumption.
  - intros data w (Hsize & Hmod & Hoff & Hcbv & Hsrv) (HD & HH & HU).
    destruct (CBUploadHeap (graphics w)) as [heap|] eqn:EU; [|congruence].
    destruct (Fill_effect P data w heap HD HH EU)
      as (w' & Hrun & Hg & _ & _ & _ & Ht).
    destruct (reservation_facts (List.length data)) as (Rmod & Rrange).
    set (r := reservation (List.length data)) in *.
    set (o := cbUploadHeapOffsetInBytes (graphics w)) in *.
    unfold Graphics.MaxConstantBuffers in *. rewrite Hsize in *.
    assert (E1 : add64 o r = o + r).
    { unfold add64. apply u64_small. unfold is_u64. lia. }
    rewrite E1 in Hg, Ht.
    set (o1 := if o + r >=? 1000 * 256 then 0 else o) in *.
    assert (H1 : 0 <= o1 <= o /\ o1 mod 256 = 0).
    { unfold o1. destruct (o + r >=? 1000 * 256); split; try lia.
      reflexivity. }
    assert (E2 : add64 o1 r = o1 + r).
    { unfold add64. apply u64_small. unfold is_u64. lia. }
    rewrite E2 in Hg.
    assert (E3 : add32 (cbvDescriptorOffset (graphics w)) 1
                 = cbvDescriptorOffset (graphics w) + 1).
    { unfold add32. apply u32_small. unfold is_u32. lia. }
    rewrite E3 in Hg.
    assert (E4 : u64 (cbvDescriptorOffset (graphics w))
                 = cbvDescriptorOffset (graphics w)).
    { apply u64_small. unfold is_u64. lia. }
    rewrite E4 in Ht.
    eexists. exists w'. split; [exact Hrun|].
    split; [|split].
    + assert (Hsum : (o1 + r) mod 256 = 0).
      { rewrite Z.add_mod by lia. destruct H1 as [_ ->]. rewrite Rmod.
        reflexivity. }
      unfold AllocatorInv. rewrite Hg. cbn.
      unfold Graphics.MaxConstantBuffers. rewrite Hsize.
      change (1000 * 256) with 256000 in *.
      split; [reflexivity|].
      destruct (Z.geb_spec (o1 + r) 256000) as [G|G];
        destruct (Z.geb_spec (cbvDescriptorOffset (graphics w) + 1) 1000);
        split_all; first [lia | reflexivity | exact Hsum].
    + unfold AllocatorReady. rewrite Hg. cbn.
      rewrite HD, HH, EU. repeat split; congruence.
    + do 3 eexists. split; [reflexivity|].
      split; [lia|]. split; [lia|]. exact Ht.
Qed.

End AllocatorProperties.

(* ================================================================= *)
(** ** The shader table *)

Section ShaderTableSizes.
Variable P : Platform.

Let idSize := D3D12_SHADER_IDENTIFIER_SIZE_IN_BYTES P.
Let h := sizeof_D3D12_GPU_DESCRIPTOR_HANDLE P.
Let rA := D3D12_RAYTRACING_SHADER_RECORD_BYTE_ALIGNMENT P.
Let tA := D3D12_RAYTRACING_SHADER_TABLE_BYTE_ALIGNMENT P.

Ltac open_fit H :=
  unfold sizes_fit in H; cbn zeta in H; fold idSize h rA tA in H;
  destruct H as (Hid & Hh & HrA & HtA & H).

Lemma shaderTableRecordSize_align_up :
  sizes_fit P ->
  RayTracing.shaderTableRecordSize P
  = align_up (Z.max idSize (idSize + 2 * h)) rA.
Proof.
  intros Hfit. open_fit Hfit.
  unfold RayTracing.shaderTableRecordSize. cbn zeta.
  fold idSize h rA.
  rewrite (u64_small idSize) by (unfold is_u64; lia).
  assert (E1 : mul64 h 2 = 2 * h).
  { unfold mul64. rewrite u64_small by (unfold is_u64; lia). lia. }
  rewrite E1.
  assert (E2 : add64 idSize (2 * h) = idSize + 2 * h).
  { unfold add64. apply u64_small. unfold is_u64. lia. }
  rewrite E2.
  rewrite !ALIGN_align_up by lia.
  rewrite align_up_max by lia.
  rewrite (Z.max_r idSize (idSize + 2 * h)) by lia.
  apply Z.max_r. apply align_up_mono; lia.
Qed.

Lemma shaderTableSize_align_up :
  sizes_fit P ->
  RayTracing.shaderTableSize P (RayTracing.shaderTableRecordSize P)
  = align_up (3 * RayTracing.shaderTableRecordSize P) tA.
Proof.
  intros Hfit. rewrite (shaderTableRecordSize_align_up Hfit).
  open_fit Hfit.
  pose proof (align_up_bounds (Z.max idSize (idSize + 2 * h)) rA HrA) as B.
  set (stride := align_up (Z.max idSize (idSize + 2 * h)) rA) in *.
  unfold RayTracing.shaderTableSize. fold tA.
  assert (E : mul64 stride 3 = 3 * stride).
  { unfold mul64. rewrite u64_small by (unfold is_u64; lia). lia. }
  rewrite E. apply ALIGN_align_up; lia.
Qed.

Lemma stride_covers_identifier :
  sizes_fit P -> idSize <= RayTracing.shaderTableRecordSize P.
Proof.
  intros Hfit. rewrite (shaderTableRecordSize_align_up Hfit).
  open_fit Hfit.
  pose proof (align_up_bounds (Z.max idSize (idSize + 2 * h)) rA HrA). lia.
Qed.

(** What [CreateShaderTable] does when it runs. *)
Lemma CreateShaderTable_effect w idRayGen idMiss idHitGroup :
  dxrAvailable (raytracing w) = true ->
  dxrInitialized (raytracing w) = false ->
  Device (graphics w) = Some tt ->
  RaytracingPipelineProperties (raytracing w) = Some tt ->
  shaderIdentifier P "RayGen" = Some idRayGen ->
  shaderIdentifier P "Miss" = Some idMiss ->
  shaderIdentifier P "HitGroup" = Some idHitGroup ->
  let n := created (device w) in
  let stride := RayTracing.shaderTableRecordSize P in
  let table := shader_table_resource P n in
  exists w',
    RayTracing.CreateShaderTable P w = Ret tt w'
    /\ graphics w' = graphics w
    /\ raytracing w'
       = set_ShaderTable (Some table)
           (set_ShaderTableRecordSize stride (raytracing w))
    /\ created (device w') = S n
    /\ memory (device w')
       = write (write (write (memory (device w))
                         n 0 (firstn (Z.to_nat idSize) idRayGen))
                  n stride (firstn (Z.to_nat idSize) idMiss))
           n (stride + stride) (firstn (Z.to_nat idSize) idHitGroup)
    /\ trace w' = trace w ++
         [ CreateCommittedResource D3D12_HEAP_TYPE_UPLOAD (GetDesc table)
             D3D12_RESOURCE_STATE_GENERIC_READ;
           ResourceMap n;
           GetShaderIdentifier "RayGen";
           GetShaderIdentifier "Miss";
           GetShaderIdentifier "HitGroup";
           ResourceUnmap n ].
Proof.
  intros Ha Hi HD HP H1 H2 H3. cbn zeta.
  unfold RayTracing.CreateShaderTable, RayTracing.setup_skipped,
    RayTracing.shader_identifier, Graphics.CreateBuffer, CreateCommittedResource_.
  run. rewrite Hi, Ha. norm. run.
  eexists. split; [reflexivity|].
  unfold trace. norm. rewrite ?Hi, ?Ha, <- ?app_assoc.
  split_all; reflexivity.
Qed.

(** The three records can be read back where the table has them: ray
    generation at 0, miss one stride on, hit group two strides on. *)
Lemma shader_table_records w idRayGen idMiss idHitGroup :
  dxrAvailable (raytracing w) = true ->
  dxrInitialized (raytracing w) = false ->
  Device (graphics w) = Some tt ->
  RaytracingPipelineProperties (raytracing w) = Some tt ->
  shaderIdentifier P "RayGen" = Some idRayGen ->
  shaderIdentifier P "Miss" = Some idMiss ->
  shaderIdentifier P "HitGroup" = Some idHitGroup ->
  sizes_fit P ->
  (Z.to_nat idSize <= List.length idRayGen)%nat ->
  (Z.to_nat idSize <= List.length idMiss)%nat ->
  (Z.to_nat idSize <= List.length idHitGroup)%nat ->
  let stride := RayTracing.shaderTableRecordSize P in
  let record w' t k := read (memory (device w')) (res_id t) (k * stride)
                            (Z.to_nat idSize) in
  exists w' table,
    RayTracing.CreateShaderTable P w = Ret tt w'
    /\ ShaderTable (raytracing w') = Some table
    /\ ShaderTableRecordSize (raytracing w') = stride
    /\ record w' table 0 = firstn (Z.to_nat idSize) idRayGen
    /\ record w' table 1 = firstn (Z.to_nat idSize) idMiss
    /\ record w' table 2 = firstn (Z.to_nat idSize) idHitGroup.
Proof.
  intros Ha Hi HD HP H1 H2 H3 Hfit L1 L2 L3 stride record.
  destruct (CreateShaderTable_effect w _ _ _ Ha Hi HD HP H1 H2 H3)
    as (w' & Hrun & _ & HR & _ & HM & _).
  pose proof (stride_covers_identifier Hfit) as Hcover. fold stride in Hcover.
  open_fit Hfit.
  exists w', (shader_table_resource P (created (device w))).
  split; [exact Hrun|].
  split; [rewrite HR; reflexivity|]. split; [rewrite HR; reflexivity|].
  unfold record. rewrite HM. cbn [res_id shader_table_resource].
  fold stride.
  set (n := created (device w)).
  assert (E1 : List.length (firstn (Z.to_nat idSize) idRayGen) = Z.to_nat idSize)
    by (apply firstn_length_le; exact L1).
  assert (E2 : List.length (firstn (Z.to_nat idSize) idMiss) = Z.to_nat idSize)
    by (apply firstn_length_le; exact L2).
  assert (E3 : List.length (firstn (Z.to_nat idSize) idHitGroup) = Z.to_nat idSize)
    by (apply firstn_length_le; exact L3).
  split_all.
  - rewrite read_write_other by (right; left; lia).
    rewrite read_write_other by (right; left; lia).
    apply read_write_same_length. exact E1.
  - rewrite read_write_other by (right; left; lia).
    replace (1 * stride) with stride by lia.
    apply read_write_same_length. exact E2.
  - replace (2 * stride) with (stride + stride) by lia.
    apply read_write_same_length. exact E3.
Qed.

(** C1.  When [CreateShaderTable] runs, the record stride it stores is
    [align(max(idSize, idSize + 2*h), rA)] and the buffer it creates for the
    table is [align(3 * stride, tA)] bytes long; the maximum of the three
    separately aligned candidates, which is what the source computes, is the
    aligned maximum. *)
Theorem C1_shader_table_stride_and_length :
  forall (w : World) (idRayGen idMiss idHitGroup : list Byte.byte),
    dxrAvailable (raytracing w) = true ->
    dxrInitialized (raytracing w) = false ->
    Device (graphics w) = Some tt ->
    RaytracingPipelineProperties (raytracing w) = Some tt ->
    shaderIdentifier P "RayGen" = Some idRayGen ->
    shaderIdentifier P "Miss" = Some idMiss ->
    shaderIdentifier P "HitGroup" = Some idHitGroup ->
    sizes_fit P ->
    let stride := align_up (Z.max idSize (idSize + 2 * h)) rA in
    exists w' table,
      RayTracing.CreateShaderTable P w = Ret tt w'
      /\ ShaderTableRecordSize (raytracing w') = stride
      /\ ShaderTable (raytracing w') = Some table
      /\ Width (GetDesc table) = align_up (3 * stride) tA
      /\ In (CreateCommittedResource D3D12_HEAP_TYPE_UPLOAD (GetDesc table)
               D3D12_RESOURCE_STATE_GENERIC_READ) (trace w')
      /\ Z.max (ALIGN idSize rA)
               (Z.max (ALIGN idSize rA) (ALIGN (idSize + 2 * h) rA))
         = ALIGN (Z.max idSize (idSize + 2 * h)) rA.
Proof.
  intros w idRayGen idMiss idHitGroup Ha Hi HD HP H1 H2 H3 Hfit stride.
  destruct (CreateShaderTable_effect w _ _ _ Ha Hi HD HP H1 H2 H3)
    as (w' & Hrun & _ & HR & _ & _ & HT).
  pose proof (shaderTableRecordSize_align_up Hfit) as ES.
  pose proof (shaderTableSize_align_up Hfit) as ET.
  exists w', (shader_table_resource P (created (device w))).
  split; [exact Hrun|].
  split; [rewrite HR; exact ES|].
  split; [rewrite HR; reflexivity|].
  split.
  { cbn [shader_table_resource GetDesc Width]. rewrite ET, ES. reflexivity. }
  split.
  { rewrite HT. apply in_or_app. right. left. reflexivity. }
  open_fit Hfit.
  rewrite !ALIGN_align_up by lia.
  rewrite Z.max_r.
  - apply align_up_max. lia.
  - apply Z.le_max_l.
Qed.

End ShaderTableSizes.

Lemma C1_shader_table_stride_and_length_witness :
  exists w' table,
    RayTracing.CreateShaderTable sample_platform world_before_shader_table
    = Ret tt w'
    /\ ShaderTableRecordSize (raytracing w') = 64
    /\ ShaderTable (raytracing w') = Some table
    /\ Width (GetDesc table) = 192.
Proof.
  destruct (C1_shader_table_stride_and_length sample_platform
              world_before_shader_table
              (sample_identifier Byte.x01) (sample_identifier Byte.x02)
              (sample_identifier Byte.x03))
    as (w' & table & Hrun & Hs & Ht & Hw & _); try reflexivity.
  { unfold sizes_fit. cbn. lia. }
  exists w', table. split_all; assumption.
Defined.

(* ================================================================= *)
(** ** One frame *)

Section Frame.
Variable P : Platform.

Lemma Fill_runs data w heap :
  Device (graphics w) = Some tt ->
  CBVSRVDescriptorHeap (graphics w) = Some tt ->
  CBUploadHeap (graphics w) = Some heap ->
  Graphics.FillNextConstantBufferAndGetGPUDescriptorHandle P data w
  = Ret (slot_handle (GetGPUDescriptorHandleForHeapStart P)
           (cbvDescriptorOffset (graphics w))
           (cbvSrvDescriptorHeapIncrementSize (graphics w)))
        (after_Fill P data heap w).
Proof.
  intros HD HH HU. unfold after_Fill, reservation, slot_handle.
  unfold Graphics.FillNextConstantBufferAndGetGPUDescriptorHandle.
  unfold_m. cbn.
  repeat (cbn; rewrite ?HU, ?HH, ?HD; cbn;
          match goal with
          | |- context [if ?b then _ else _] => destruct b eqn:?
          end).
  all: cbn; rewrite ?HU, ?HH, ?HD; cbn; reflexivity.
Qed.

(** What [Raytrace] records when everything it works through exists. *)
Lemma Raytrace_effect sceneData bb w heap tlas table :
  dxrInitialized (raytracing w) = true ->
  dxrAvailable (raytracing w) = true ->
  DXRCommandList (raytracing w) = Some tt ->
  Device (graphics w) = Some tt ->
  CBVSRVDescriptorHeap (graphics w) = Some tt ->
  CBUploadHeap (graphics w) = Some heap ->
  CommandQueue (graphics w) = Some tt ->
  TLAS (raytracing w) = Some tlas ->
  ShaderTable (raytracing w) = Some table ->
  let out := Get (RaytracingOutput (raytracing w)) in
  let g := graphics w in
  let cbuffer := slot_handle (GetGPUDescriptorHandleForHeapStart P)
                   (cbvDescriptorOffset g)
                   (cbvSrvDescriptorHeapIncrementSize g) in
  exists w',
    RayTracing.Raytrace P sceneData bb w = Ret tt w'
    /\ raytracing w' = raytracing w
    /\ graphics w' = graphics (after_Fill P sceneData heap w)
    /\ exists location size dest,
         trace w' = trace w ++
         [ ResourceBarrier
             [ BARRIER_TRANSITION (Get bb) D3D12_RESOURCE_STATE_PRESENT
                 D3D12_RESOURCE_STATE_COPY_DEST;
               BARRIER_TRANSITION out D3D12_RESOURCE_STATE_COPY_SOURCE
                 D3D12_RESOURCE_STATE_UNORDERED_ACCESS ];
           CreateConstantBufferView location size dest;
           SetDescriptorHeaps;
           SetPipelineState1;
           SetComputeRootSignature;
           SetComputeRootDescriptorTable 0
             (RaytracingOutputUAV_GPU (raytracing w));
           SetComputeRootShaderResourceView 1 (GetGPUVirtualAddress tlas);
           SetComputeRootDescriptorTable 2 cbuffer;
           DispatchRays
             (RayTracing.dispatchDesc (GetGPUVirtualAddress table)
                (ShaderTableRecordSize (raytracing w))
                (Window_Width w) (Window_Height w));
           ResourceBarrier
             [ BARRIER_TRANSITION out D3D12_RESOURCE_STATE_UNORDERED_ACCESS
                 D3D12_RESOURCE_STATE_COPY_SOURCE ];
           CopyResource (Get bb) out;
           ResourceBarrier
             [ BARRIER_TRANSITION (Get bb) D3D12_RESOURCE_STATE_COPY_DEST
                 D3D12_RESOURCE_STATE_PRESENT ];
           CommandListClose;
           ExecuteCommandLists ].
Proof.
  intros Hi Ha HL HD HH HU HQ HT HS. cbn zeta.
  unfold RayTracing.Raytrace, RayTracing.not_ready.
  run. rewrite Hi, Ha. norm. run.
  match goal with
  | |- context [bind (Graphics.FillNextConstantBufferAndGetGPUDescriptorHandle
                        P ?d) _ ?W] =>
      rewrite (bind_Ret _ _ _ _ _ (Fill_runs d W heap HD HH HU))
  end.
  unfold after_Fill. norm. run.
  eexists. split; [reflexivity|].
  norm. rewrite ?Hi, ?Ha.
  split; [reflexivity|]. split; [reflexivity|].
  do 3 eexists. unfold trace. norm. rewrite <- !app_assoc. reflexivity.
Qed.

End Frame.

(* ================================================================= *)
(** ** Initialisation that succeeds, and the output image *)

Section Output.
Variable P : Platform.

Let cpuStart := GetCPUDescriptorHandleForHeapStart P.
Let gpuStart := GetGPUDescriptorHandleForHeapStart P.

(** [RayTracing::Initialize] on a machine with ray tracing, in a process
    that has not reserved the output slot yet. *)
Lemma Initialize_succeeds width height file w idRayGen idMiss idHitGroup :
  Device (graphics w) = Some tt ->
  CommandList (graphics w) = Some tt ->
  CBVSRVDescriptorHeap (graphics w) = Some tt ->
  dxrInitialized (raytracing w) = false ->
  RaytracingOutputUAV_GPU (raytracing w) = 0 ->
  capability_absent P = false ->
  readFileToBlob P file = Some tt ->
  shaderIdentifier P "RayGen" = Some idRayGen ->
  shaderIdentifier P "Miss" = Some idMiss ->
  shaderIdentifier P "HitGroup" = Some idHitGroup ->
  let n := created (device w) in
  let slot := srvDescriptorOffset (graphics w) in
  let incr := cbvSrvDescriptorHeapIncrementSize (graphics w) in
  exists w',
    RayTracing.Initialize P width height file w = Ret S_OK w'
    /\ graphics w' = set_srvDescriptorOffset (add32 slot 1) (graphics w)
    /\ dxrAvailable (raytracing w') = true
    /\ dxrInitialized (raytracing w') = true
    /\ DXRDevice (raytracing w') = Some tt
    /\ DXRCommandList (raytracing w') = Some tt
    /\ ShaderTable (raytracing w') = Some (shader_table_resource P n)
    /\ ShaderTableRecordSize (raytracing w') = RayTracing.shaderTableRecordSize P
    /\ RaytracingOutput (raytracing w')
       = Some (output_texture P (S n) width height)
    /\ RaytracingOutputUAV_CPU (raytracing w') = slot_handle cpuStart slot incr
    /\ RaytracingOutputUAV_GPU (raytracing w') = slot_handle gpuStart slot incr
    /\ TLAS (raytracing w') = TLAS (raytracing w)
    /\ BLAS (raytracing w') = BLAS (raytracing w)
    /\ created (device w') = S (S n).
Proof.
  intros HD HC HH Hi Hu Hcap Hblob H1 H2 H3. cbn zeta.
  unfold capability_absent in Hcap.
  apply orb_false_elim in Hcap. destruct Hcap as [Hcap Hc3].
  apply orb_false_elim in Hcap. destruct Hcap as [Hc1 Hc2].
  unfold RayTracing.Initialize.
  run. rewrite Hc1, Hc2, Hc3. norm. run.
  unfold RayTracing.CreateRaytracingRootSignatures, RayTracing.setup_skipped.
  run. rewrite ?Hi. norm. run.
  unfold RayTracing.CreateRaytracingPipelineState, RayTracing.setup_skipped.
  run. rewrite ?Hi. norm. run.
  unfold RayTracing.CreateShaderTable, RayTracing.setup_skipped,
    RayTracing.shader_identifier, Graphics.CreateBuffer, CreateCommittedResource_.
  run. rewrite ?Hi. norm. run.
  unfold RayTracing.CreateRaytracingOutputUAV, CreateCommittedResource_,
    Graphics.ReserveSrvUavDescriptorHeapSlot.
  run. rewrite ?Hu. norm. run.
  eexists. split; [reflexivity|].
  norm. split_all; reflexivity.
Qed.

(** One resize, once the slot is reserved. *)
Lemma ResizeOutputUAV_effect width height w :
  ResizeReady w ->
  RaytracingOutputUAV_GPU (raytracing w) <> 0 ->
  let n := created (device w) in
  exists w',
    RayTracing.ResizeOutputUAV P width height w = Ret tt w'
    /\ raytracing w'
       = set_RaytracingOutput (Some (output_texture P n width height))
           (raytracing w)
    /\ graphics w'
       = set_WaitFenceCounter (add64 (WaitFenceCounter (graphics w)) 1)
           (graphics w)
    /\ created (device w') = S n
    /\ memory (device w') = memory (device w)
    /\ trace w' = trace w ++
         [ QueueSignal (add64 (WaitFenceCounter (graphics w)) 1);
           WaitForFence (add64 (WaitFenceCounter (graphics w)) 1);
           CreateCommittedResource D3D12_HEAP_TYPE_DEFAULT
             (GetDesc (output_texture P n width height))
             D3D12_RESOURCE_STATE_COPY_SOURCE;
           CreateUnorderedAccessView (Some n)
             (RaytracingOutputUAV_CPU (raytracing w)) ].
Proof.
  intros (Hi & Ha & HD & HQ) Hu. cbn zeta.
  apply Z.eqb_neq in Hu.
  unfold RayTracing.ResizeOutputUAV, RayTracing.not_ready, Graphics.WaitForGPU,
    RayTracing.CreateRaytracingOutputUAV, CreateCommittedResource_.
  run. rewrite Hi, Ha. norm. run. rewrite Hu. norm. run.
  eexists. split; [reflexivity|].
  unfold trace. norm. rewrite ?Hi, ?Ha, <- ?app_assoc.
  split_all; reflexivity.
Qed.

Lemma last_cons_default {A} (l : list A) : forall (x d : A),
  last (x :: l) d = last l x.
Proof.
  induction l as [|y l IH]; intros x d; [reflexivity|].
  change (last (x :: y :: l) d) with (last (y :: l) d).
  rewrite (IH y d), (IH y x). reflexivity.
Qed.

(** Any number of resizes. *)
Lemma resize_all_effect sizes : forall w size0,
  ResizeReady w ->
  RaytracingOutputUAV_GPU (raytracing w) <> 0 ->
  output_size w = Some size0 ->
  exists w' new,
    resize_all P sizes w = Ret tt w'
    /\ ResizeReady w'
    /\ RaytracingOutputUAV_GPU (raytracing w')
       = RaytracingOutputUAV_GPU (raytracing w)
    /\ RaytracingOutputUAV_CPU (raytracing w')
       = RaytracingOutputUAV_CPU (raytracing w)
    /\ srvDescriptorOffset (graphics w') = srvDescriptorOffset (graphics w)
    /\ output_size w' = Some (last sizes size0)
    /\ created (device w') = (created (device w) + List.length sizes)%nat
    /\ trace w' = trace w ++ new
    /\ Forall (uav_goes_to (RaytracingOutputUAV_CPU (raytracing w))) new.
Proof.
  induction sizes as [|[width height] sizes IH]; intros w size0 Hready Hu Hsize.
  - exists w, []. unfold resize_all. cbn.
    rewrite Nat.add_0_r, app_nil_r.
    split_all; first [reflexivity | assumption | constructor].
  - destruct (ResizeOutputUAV_effect width height w Hready Hu)
      as (w1 & Hrun & HR & HG & HC & _ & HT).
    destruct Hready as (Hi & Ha & HD & HQ).
    assert (Hready1 : ResizeReady w1).
    { unfold ResizeReady. rewrite HR, HG. cbn. split_all; assumption. }
    assert (Hu1 : RaytracingOutputUAV_GPU (raytracing w1) <> 0).
    { rewrite HR. cbn. exact Hu. }
    assert (Hsize1 : output_size w1 = Some (width, height)).
    { unfold output_size. rewrite HR. reflexivity. }
    destruct (IH w1 (width, height) Hready1 Hu1 Hsize1)
      as (w' & new & Hrun' & Hready' & Hg' & Hc' & Hs' & Ho' & Hcr' & Ht' & Hall).
    exists w'. eexists.
    split.
    { unfold resize_all. cbn [forM_ fst snd].
      rewrite (bind_Ret _ _ _ _ _ Hrun). exact Hrun'. }
    split; [exact Hready'|].
    split; [rewrite Hg', HR; reflexivity|].
    split; [rewrite Hc', HR; reflexivity|].
    split; [rewrite Hs', HG; reflexivity|].
    split; [rewrite Ho', last_cons_default; reflexivity|].
    split; [rewrite Hcr', HC; cbn [List.length]; lia|].
    split.
    { rewrite Ht', HT, <- app_assoc. reflexivity. }
    assert (Ecpu : RaytracingOutputUAV_CPU (raytracing w1)
                   = RaytracingOutputUAV_CPU (raytracing w))
      by (rewrite HR; reflexivity).
    rewrite Ecpu in Hall.
    apply Forall_app. split; [|exact Hall].
    repeat constructor.
Qed.

(** C9.  A successful [Initialize] reserves the output image's descriptor
    slot, the one the SRV/UAV cursor pointed at, and leaves the cursor one
    further.  Whatever resizes follow, each creates a new output texture of
    the size asked for and puts its view at the CPU handle of that same
    slot; the two handles and the cursor stay what they were.  The GPU
    handle the device gives the slot must not be zero, which the code takes
    to mean "no slot yet". *)
Theorem C9_resize_keeps_the_output_slot :
  forall (width height : Z) (file : string) (w : World)
         (idRayGen idMiss idHitGroup : list Byte.byte),
    Device (graphics w) = Some tt ->
    CommandList (graphics w) = Some tt ->
    CommandQueue (graphics w) = Some tt ->
    CBVSRVDescriptorHeap (graphics w) = Some tt ->
    dxrInitialized (raytracing w) = false ->
    RaytracingOutputUAV_GPU (raytracing w) = 0 ->
    capability_absent P = false ->
    readFileToBlob P file = Some tt ->
    shaderIdentifier P "RayGen" = Some idRayGen ->
    shaderIdentifier P "Miss" = Some idMiss ->
    shaderIdentifier P "HitGroup" = Some idHitGroup ->
    let slot := srvDescriptorOffset (graphics w) in
    let incr := cbvSrvDescriptorHeapIncrementSize (graphics w) in
    let cpu := slot_handle cpuStart slot incr in
    let gpu := slot_handle gpuStart slot incr in
    gpu <> 0 ->
    exists w1,
      RayTracing.Initialize P width height file w = Ret S_OK w1
      /\ RaytracingOutputUAV_CPU (raytracing w1) = cpu
      /\ RaytracingOutputUAV_GPU (raytracing w1) = gpu
      /\ srvDescriptorOffset (graphics w1) = add32 slot 1
      /\ forall sizes : list (Z * Z),
           exists w2 new,
             resize_all P sizes w1 = Ret tt w2
             /\ RaytracingOutputUAV_CPU (raytracing w2) = cpu
             /\ RaytracingOutputUAV_GPU (raytracing w2) = gpu
             /\ srvDescriptorOffset (graphics w2) = add32 slot 1
             /\ output_size w2 = Some (last sizes (width, height))
             /\ created (device w2)
                = (created (device w1) + List.length sizes)%nat
             /\ trace w2 = trace w1 ++ new
             /\ Forall (uav_goes_to cpu) new.
Proof.
  intros width height file w idRayGen idMiss idHitGroup
         HD HC HQ HH Hi Hu Hcap Hblob H1 H2 H3 slot incr cpu gpu Hgpu.
  destruct (Initialize_succeeds width height file w _ _ _
              HD HC HH Hi Hu Hcap Hblob H1 H2 H3)
    as (w1 & Hrun & HG & Ha1 & Hi1 & HD1 & _ & _ & _ & Hout & Hcpu & Hg & _).
  fold slot incr in HG, Hcpu, Hg. fold cpu in Hcpu. fold gpu in Hg.
  exists w1. split; [exact Hrun|].
  split; [exact Hcpu|]. split; [exact Hg|].
  split; [rewrite HG; reflexivity|].
  intros sizes.
  assert (Hready : ResizeReady w1).
  { unfold ResizeReady. rewrite HG. cbn. split_all; assumption. }
  assert (Hne : RaytracingOutputUAV_GPU (raytracing w1) <> 0)
    by (rewrite Hg; exact Hgpu).
  assert (Hsize : output_size w1 = Some (width, height)).
  { unfold output_size. rewrite Hout. reflexivity. }
  destruct (resize_all_effect sizes w1 (width, height) Hready Hne Hsize)
    as (w2 & new & Hrun2 & _ & Hg2 & Hc2 & Hs2 & Ho2 & Hcr2 & Ht2 & Hall).
  exists w2, new. split; [exact Hrun2|].
  split; [rewrite Hc2; exact Hcpu|].
  split; [rewrite Hg2; exact Hg|].
  split; [rewrite Hs2, HG; reflexivity|].
  split; [exact Ho2|]. split; [exact Hcr2|]. split; [exact Ht2|].
  rewrite Hcpu in Hall. exact Hall.
Qed.

End Output.

(* ================================================================= *)
(** ** Acceleration structures *)

Section AccelerationStructures.
Variable P : Platform.

Let idSize := D3D12_SHADER_IDENTIFIER_SIZE_IN_BYTES P.
Let h := sizeof_D3D12_GPU_DESCRIPTOR_HANDLE P.
Let A := D3D12_RAYTRACING_ACCELERATION_STRUCTURE_BYTE_ALIGNMENT P.
Let cpuStart := GetCPUDescriptorHandleForHeapStart P.
Let gpuStart := GetGPUDescriptorHandleForHeapStart P.

(** What [CreateBLAS] does when it runs. *)
Lemma CreateBLAS_effect mesh vb ib table w :
  BLASReady mesh vb ib table w ->
  let n := created (device w) in
  let slot := srvDescriptorOffset (graphics w) in
  let incr := cbvSrvDescriptorHeapIncrementSize (graphics w) in
  let stride := ShaderTableRecordSize (raytracing w) in
  let inputs := blas_inputs mesh vb ib in
  let info := RayTracing.aligned_prebuild P (prebuildInfo P inputs) in
  let scratch := accel_buffer P n (ScratchDataSizeInBytes info) in
  let blas := accel_buffer P (S n) (ResultDataMaxSizeInBytes info) in
  exists w',
    RayTracing.CreateBLAS P mesh w = Ret tt w'
    /\ graphics w' = set_srvDescriptorOffset (add32 (add32 slot 1) 1) (graphics w)
    /\ raytracing w'
       = set_vertexBufferSRV (slot_handle gpuStart (add32 slot 1) incr)
           (set_indexBufferSRV (slot_handle gpuStart slot incr)
              (set_BLAS (Some blas)
                 (set_BLASScratchBuffer (Some scratch) (raytracing w))))
    /\ created (device w') = S (S n)
    /\ memory (device w')
       = write (memory (device w)) (res_id table)
           (add64 stride stride + add64 idSize h)
           (firstn (Z.to_nat h)
              (handle_bytes h (slot_handle gpuStart slot incr)))
    /\ trace w' = trace w ++
         [ GetRaytracingAccelerationStructurePrebuildInfo inputs;
           CreateCommittedResource D3D12_HEAP_TYPE_DEFAULT (GetDesc scratch)
             D3D12_RESOURCE_STATE_UNORDERED_ACCESS;
           CreateCommittedResource D3D12_HEAP_TYPE_DEFAULT (GetDesc blas)
             D3D12_RESOURCE_STATE_RAYTRACING_ACCELERATION_STRUCTURE;
           BuildRaytracingAccelerationStructure inputs
             (GetGPUVirtualAddress scratch) (GetGPUVirtualAddress blas);
           ResourceBarrier [BARRIER_UAV (Some (S n))];
           CreateShaderResourceView (Some (res_id ib)) (u32 (numIndices mesh))
             (slot_handle cpuStart slot incr);
           CreateShaderResourceView (Some (res_id vb))
             (u32 (mul64 (u64 (numVertices mesh)) RayTracing.sizeof_Vertex
                   / RayTracing.sizeof_float))
             (slot_handle cpuStart (add32 slot 1) incr);
           ResourceMap (res_id table);
           ResourceUnmap (res_id table) ].
Proof.
  intros (Ha & Hvb & Hib & HD & HH & HX & HL & HS). cbn zeta.
  unfold RayTracing.CreateBLAS, Graphics.CreateBuffer, CreateCommittedResource_,
    Graphics.ReserveSrvUavDescriptorHeapSlot.
  run. rewrite Ha. norm. run.
  eexists. split; [reflexivity|].
  unfold trace. norm. rewrite ?Ha, <- ?app_assoc.
  split_all; reflexivity.
Qed.

(** What [CreateTLAS] does when it runs. *)
Lemma CreateTLAS_effect blas w :
  TLASReady blas w ->
  let n := created (device w) in
  let inputs := tlas_inputs P n in
  let info := RayTracing.aligned_prebuild P (prebuildInfo P inputs) in
  let scratch := accel_buffer P (S n) (ScratchDataSizeInBytes info) in
  let tlas := accel_buffer P (S (S n)) (ResultDataMaxSizeInBytes info) in
  let fence := add64 (WaitFenceCounter (graphics w)) 1 in
  exists w',
    RayTracing.CreateTLAS P w = Ret tt w'
    /\ graphics w' = set_WaitFenceCounter fence (graphics w)
    /\ raytracing w'
       = set_TLAS (Some tlas)
           (set_TLASScratchBuffer (Some scratch)
              (set_TLASInstanceDescBuffer (Some (instance_buffer P n))
                 (raytracing w)))
    /\ created (device w') = S (S (S n))
    /\ memory (device w')
       = write (memory (device w)) n 0
           (firstn (Z.to_nat RayTracing.sizeof_D3D12_RAYTRACING_INSTANCE_DESC)
              (RayTracing.instanceDesc_bytes (GetGPUVirtualAddress blas)))
    /\ trace w' = trace w ++
         [ CreateCommittedResource D3D12_HEAP_TYPE_UPLOAD
             (GetDesc (instance_buffer P n)) D3D12_RESOURCE_STATE_GENERIC_READ;
           ResourceMap n;
           ResourceUnmap n;
           GetRaytracingAccelerationStructurePrebuildInfo inputs;
           CreateCommittedResource D3D12_HEAP_TYPE_DEFAULT (GetDesc scratch)
             D3D12_RESOURCE_STATE_UNORDERED_ACCESS;
           CreateCommittedResource D3D12_HEAP_TYPE_DEFAULT (GetDesc tlas)
             D3D12_RESOURCE_STATE_RAYTRACING_ACCELERATION_STRUCTURE;
           BuildRaytracingAccelerationStructure inputs
             (GetGPUVirtualAddress scratch) (GetGPUVirtualAddress tlas);
           ResourceBarrier [BARRIER_UAV (Some (S (S n)))];
           CommandListClose;
           ExecuteCommandLists;
           QueueSignal fence;
           WaitForFence fence;
           CommandAllocatorReset 0;
           CommandListReset 0 ].
Proof.
  intros (Ha & HB & HD & HQ & HC & HX & HL). cbn zeta.
  unfold RayTracing.CreateTLAS, Graphics.CreateBuffer, CreateCommittedResource_,
    Graphics.WaitForGPU, Graphics.ResetAllocatorAndCommandList.
  run. rewrite Ha. norm. run.
  eexists. split; [reflexivity|].
  unfold trace. norm. rewrite ?Ha, <- ?app_assoc.
  split_all; reflexivity.
Qed.

Lemma aligned_prebuild_sizes inputs :
  prebuild_fits P ->
  let info := RayTracing.aligned_prebuild P (prebuildInfo P inputs) in
  ScratchDataSizeInBytes info
  = align_up (ScratchDataSizeInBytes (prebuildInfo P inputs)) A
  /\ ResultDataMaxSizeInBytes info
     = align_up (ResultDataMaxSizeInBytes (prebuildInfo P inputs)) A.
Proof.
  intros (HA & Hfit). fold A in HA, Hfit.
  destruct (Hfit inputs) as (Hs0 & Hs1 & Hr0 & Hr1).
  unfold RayTracing.aligned_prebuild. cbn zeta.
  cbn [ScratchDataSizeInBytes ResultDataMaxSizeInBytes]. fold A.
  split; apply ALIGN_align_up; assumption.
Qed.

(** C6.  Whatever sizes the device asks for, as long as they stay
    representable once rounded up: [CreateBLAS] and [CreateTLAS] each create
    a scratch buffer of exactly the scratch size rounded up to the
    acceleration-structure alignment, and a result buffer of exactly the
    result size rounded up to it. *)
Theorem C6_acceleration_structure_buffers_are_aligned_sizes :
  prebuild_fits P ->
  (forall (mesh : Mesh) (vb ib table : ID3D12Resource) (w : World),
      BLASReady mesh vb ib table w ->
      let asked := prebuildInfo P (blas_inputs mesh vb ib) in
      exists w' scratch result,
        RayTracing.CreateBLAS P mesh w = Ret tt w'
        /\ BLASScratchBuffer (raytracing w') = Some scratch
        /\ BLAS (raytracing w') = Some result
        /\ Width (GetDesc scratch) = align_up (ScratchDataSizeInBytes asked) A
        /\ Width (GetDesc result) = align_up (ResultDataMaxSizeInBytes asked) A
        /\ exists after,
             trace w' = trace w ++
               GetRaytracingAccelerationStructurePrebuildInfo
                 (blas_inputs mesh vb ib)
               :: CreateCommittedResource D3D12_HEAP_TYPE_DEFAULT
                    (GetDesc scratch) D3D12_RESOURCE_STATE_UNORDERED_ACCESS
               :: CreateCommittedResource D3D12_HEAP_TYPE_DEFAULT
                    (GetDesc result)
                    D3D12_RESOURCE_STATE_RAYTRACING_ACCELERATION_STRUCTURE
               :: after)
  /\ (forall (blas : ID3D12Resource) (w : World),
         TLASReady blas w ->
         let inputs := tlas_inputs P (created (device w)) in
         let asked := prebuildInfo P inputs in
         exists w' scratch result,
           RayTracing.CreateTLAS P w = Ret tt w'
           /\ TLASScratchBuffer (raytracing w') = Some scratch
           /\ TLAS (raytracing w') = Some result
           /\ Width (GetDesc scratch) = align_up (ScratchDataSizeInBytes asked) A
           /\ Width (GetDesc result)
              = align_up (ResultDataMaxSizeInBytes asked) A
           /\ exists before after,
                trace w' = (trace w ++ before) ++
                  GetRaytracingAccelerationStructurePrebuildInfo inputs
                  :: CreateCommittedResource D3D12_HEAP_TYPE_DEFAULT
                       (GetDesc scratch) D3D12_RESOURCE_STATE_UNORDERED_ACCESS
                  :: CreateCommittedResource D3D12_HEAP_TYPE_DEFAULT
                       (GetDesc result)
                       D3D12_RESOURCE_STATE_RAYTRACING_ACCELERATION_STRUCTURE
                  :: after).
Proof.
  intros Hfit. split.
  - intros mesh vb ib table w Hready asked.
    destruct (CreateBLAS_effect mesh vb ib table w Hready)
      as (w' & Hrun & _ & HR & _ & _ & HT).
    destruct (aligned_prebuild_sizes (blas_inputs mesh vb ib) Hfit) as (Es & Er).
    exists w'. do 2 eexists.
    split; [exact Hrun|].
    split; [rewrite HR; reflexivity|].
    split; [rewrite HR; reflexivity|].
    split; [exact Es|]. split; [exact Er|].
    eexists. exact HT.
  - intros blas w Hready inputs asked.
    destruct (CreateTLAS_effect blas w Hready)
      as (w' & Hrun & _ & HR & _ & _ & HT).
    destruct (aligned_prebuild_sizes (tlas_inputs P (created (device w))) Hfit)
      as (Es & Er).
    exists w'. do 2 eexists.
    split; [exact Hrun|].
    split; [rewrite HR; reflexivity|].
    split; [rewrite HR; reflexivity|].
    split; [exact Es|]. split; [exact Er|].
    exists [ CreateCommittedResource D3D12_HEAP_TYPE_UPLOAD
               (GetDesc (instance_buffer P (created (device w))))
               D3D12_RESOURCE_STATE_GENERIC_READ;
             ResourceMap (created (device w));
             ResourceUnmap (created (device w)) ].
    eexists. rewrite HT, <- app_assoc. reflexivity.
Qed.

End AccelerationStructures.

(* ================================================================= *)
(** ** Records, dispatch addresses and the geometry handles *)

Section Scenario.
Variable P : Platform.

Let idSize := D3D12_SHADER_IDENTIFIER_SIZE_IN_BYTES P.
Let h := sizeof_D3D12_GPU_DESCRIPTOR_HANDLE P.
Let cpuStart := GetCPUDescriptorHandleForHeapStart P.
Let gpuStart := GetGPUDescriptorHandleForHeapStart P.

(** C5.  [CreateShaderTable] leaves the identifier of the ray generation
    shader in record 0, of the miss shader in record 1 and of the hit group
    in record 2, record [k] starting [k] strides into the table; and the
    dispatch [Raytrace] records addresses the three as the table's address
    plus 0, 1 and 2 strides, every size and stride in it being the record
    stride. *)
Theorem C5_record_order_matches_dispatch_addresses :
  (forall (w : World) (idRayGen idMiss idHitGroup : list Byte.byte),
      ShaderTableReady P idRayGen idMiss idHitGroup w ->
      sizes_fit P ->
      (Z.to_nat idSize <= List.length idRayGen)%nat ->
      (Z.to_nat idSize <= List.length idMiss)%nat ->
      (Z.to_nat idSize <= List.length idHitGroup)%nat ->
      let stride := RayTracing.shaderTableRecordSize P in
      let record w' t k := read (memory (device w')) (res_id t) (k * stride)
                                (Z.to_nat idSize) in
      exists w' table,
        RayTracing.CreateShaderTable P w = Ret tt w'
        /\ ShaderTable (raytracing w') = Some table
        /\ ShaderTableRecordSize (raytracing w') = stride
        /\ record w' table 0 = firstn (Z.to_nat idSize) idRayGen
        /\ record w' table 1 = firstn (Z.to_nat idSize) idMiss
        /\ record w' table 2 = firstn (Z.to_nat idSize) idHitGroup)
  /\ (forall (sceneData : list Byte.byte) (bb : ComPtr ID3D12Resource)
             (heap tlas table : ID3D12Resource) (w : World),
         FrameReady heap tlas table w ->
         let base := GetGPUVirtualAddress table in
         let stride := ShaderTableRecordSize (raytracing w) in
         0 <= base -> 0 <= stride -> base + 2 * stride < 2 ^ 64 ->
         exists w' d,
           RayTracing.Raytrace P sceneData bb w = Ret tt w'
           /\ In (DispatchRays d) (trace w')
           /\ StartAddress (RayGenerationShaderRecord d) = base + 0 * stride
           /\ TableStartAddress (MissShaderTable d) = base + 1 * stride
           /\ TableStartAddress (HitGroupTable d) = base + 2 * stride
           /\ SizeInBytes (RayGenerationShaderRecord d) = stride
           /\ TableSizeInBytes (MissShaderTable d) = stride
           /\ StrideInBytes (MissShaderTable d) = stride
           /\ TableSizeInBytes (HitGroupTable d) = stride
           /\ StrideInBytes (HitGroupTable d) = stride).
Proof.
  split.
  - intros w idRayGen idMiss idHitGroup (Ha & Hi & HD & HP & H1 & H2 & H3)
           Hfit L1 L2 L3.
    exact (shader_table_records P w idRayGen idMiss idHitGroup
             Ha Hi HD HP H1 H2 H3 Hfit L1 L2 L3).
  - intros sceneData bb heap tlas table w
           (Hi & Ha & HL & HD & HH & HU & HQ & HT & HS) base stride Hb Hs Hfit.
    destruct (Raytrace_effect P sceneData bb w heap tlas table
                Hi Ha HL HD HH HU HQ HT HS)
      as (w' & Hrun & _ & _ & location & size & dest & Htrace).
    exists w'. eexists. split; [exact Hrun|].
    split.
    { rewrite Htrace. apply in_or_app. right.
      do 8 right. left. reflexivity. }
    fold base stride.
    cbn [RayTracing.dispatchDesc RayGenerationShaderRecord MissShaderTable
         HitGroupTable StartAddress SizeInBytes TableStartAddress
         TableSizeInBytes StrideInBytes].
    assert (E2 : mul64 stride 2 = 2 * stride).
    { unfold mul64. rewrite u64_small by (unfold is_u64; lia). lia. }
    rewrite E2.
    assert (E1 : add64 base stride = base + 1 * stride).
    { unfold add64. rewrite u64_small by (unfold is_u64; lia). lia. }
    assert (E3 : add64 base (2 * stride) = base + 2 * stride).
    { unfold add64. apply u64_small. unfold is_u64. lia. }
    rewrite E1, E3.
    split_all; try reflexivity. lia.
Qed.

(** C7, as the code has it.  Building the BLAS of a mesh and then the TLAS
    leaves a TLAS handle that is not null.  The index buffer's view and the
    vertex buffer's view are created in the slot the SRV/UAV cursor pointed
    at and in the next one, in this order.  The GPU handle of the index
    buffer's view is in the hit-group record's second handle-sized slot
    after the shader identifier; the first one, kept for a constant-buffer
    view, holds what it held before. *)
Theorem C7_index_handle_is_in_the_second_slot :
  forall (mesh : Mesh) (vb ib table : ID3D12Resource) (w : World),
    BLASReady mesh vb ib table w ->
    CommandQueue (graphics w) = Some tt ->
    CommandList (graphics w) = Some tt ->
    (res_id table < created (device w))%nat ->
    ShaderTableRecordSize (raytracing w) = RayTracing.shaderTableRecordSize P ->
    sizes_fit P ->
    let stride := RayTracing.shaderTableRecordSize P in
    let slot := srvDescriptorOffset (graphics w) in
    let incr := cbvSrvDescriptorHeapIncrementSize (graphics w) in
    let hit_group := 2 * stride in
    let slot_bytes w' k :=
      read (memory (device w')) (res_id table) (hit_group + idSize + k * h)
           (Z.to_nat h) in
    exists w1 w2 indexCount vertexCount,
      RayTracing.CreateBLAS P mesh w = Ret tt w1
      /\ RayTracing.CreateTLAS P w1 = Ret tt w2
      /\ TLAS (raytracing w2) <> None
      /\ indexBufferSRV (raytracing w2) = slot_handle gpuStart slot incr
      /\ vertexBufferSRV (raytracing w2) = slot_handle gpuStart (add32 slot 1) incr
      /\ In (CreateShaderResourceView (Some (res_id ib)) indexCount
               (slot_handle cpuStart slot incr)) (trace w2)
      /\ In (CreateShaderResourceView (Some (res_id vb)) vertexCount
               (slot_handle cpuStart (add32 slot 1) incr)) (trace w2)
      /\ slot_bytes w2 1 = handle_bytes h (indexBufferSRV (raytracing w2))
      /\ slot_bytes w2 0 = slot_bytes w 0.
Proof.
  intros mesh vb ib table w Hready HQ HC Hold Hstride Hfit
         stride slot incr hit_group slot_bytes.
  destruct (CreateBLAS_effect P mesh vb ib table w Hready)
    as (w1 & Hrun1 & HG1 & HR1 & HC1 & HM1 & HT1).
  destruct Hready as (Ha & Hvb & Hib & HD & HH & HX & HL & HS).
  assert (Hready1 : TLASReady
                      (accel_buffer P (S (created (device w)))
                         (ResultDataMaxSizeInBytes
                            (RayTracing.aligned_prebuild P
                               (prebuildInfo P (blas_inputs mesh vb ib))))) w1).
  { unfold TLASReady. rewrite HR1, HG1. cbn. split_all; try assumption.
    reflexivity. }
  destruct (CreateTLAS_effect P _ w1 Hready1)
    as (w2 & Hrun2 & HG2 & HR2 & HC2 & HM2 & HT2).
  assert (Hsb : 0 <= stride /\ 2 * stride < 2 ^ 64).
  { unfold stride. rewrite (shaderTableRecordSize_align_up P Hfit).
    unfold sizes_fit in Hfit. cbn zeta in Hfit.
    destruct Hfit as (Hid & Hh & HrA & HtA & Hfit).
    match goal with
    | |- context [align_up ?x ?a] => pose proof (align_up_bounds x a HrA)
    end.
    lia. }
  unfold sizes_fit in Hfit. cbn zeta in Hfit. fold idSize h in Hfit.
  destruct Hfit as (Hid & Hh & HrA & HtA & Hfit).
  assert (Eoff : add64 stride stride + add64 idSize h
                 = hit_group + idSize + 1 * h).
  { unfold add64, hit_group.
    rewrite !u64_small by (unfold is_u64; lia). lia. }
  rewrite Hstride in HM1. fold stride idSize h in HM1. rewrite Eoff in HM1.
  rewrite firstn_handle_bytes in HM1.
  exists w1, w2. do 2 eexists.
  split; [exact Hrun1|]. split; [exact Hrun2|].
  split; [rewrite HR2; discriminate|].
  split; [rewrite HR2, HR1; reflexivity|].
  split; [rewrite HR2, HR1; reflexivity|].
  split.
  { rewrite HT2, HT1. apply in_or_app. left. apply in_or_app. right.
    do 5 right. left. reflexivity. }
  split.
  { rewrite HT2, HT1. apply in_or_app. left. apply in_or_app. right.
    do 6 right. left. reflexivity. }
  unfold slot_bytes. rewrite HM2, HM1, HR2, HR1.
  cbn [indexBufferSRV set_TLAS set_TLASScratchBuffer set_TLASInstanceDescBuffer
       set_vertexBufferSRV set_indexBufferSRV].
  rewrite HC1.
  split.
  - rewrite read_write_other by (left; lia).
    apply read_write_same_length. apply length_handle_bytes.
  - rewrite read_write_other by (left; lia).
    apply read_write_other. right. left. rewrite Z2Nat.id by lia. lia.
Qed.

End Scenario.

(** C7, as the claim has it, fails.  On the sample machine, after the whole
    of [Game::Initialize] with the single triangle, the hit-group record
    starts 128 bytes into the table.  Its first eight bytes are the start of
    the shader identifier and the first handle-sized slot after the
    identifier is still zero; the index buffer's handle is in the slot after
    that one. *)
Lemma C7_first_slot_does_not_hold_the_index_handle :
  let table := 2%nat in
  let bytes off := read (memory (device world_after_scene)) table off 8 in
  ShaderTable (raytracing world_after_scene)
  = Some (shader_table_resource sample_platform table)
  /\ ShaderTableRecordSize (raytracing world_after_scene) = 64
  /\ TLAS (raytracing world_after_scene) <> None
  /\ indexBufferSRV (raytracing world_after_scene) = 40224
  /\ bytes 128 = repeat Byte.x03 8
  /\ bytes 160 = repeat Byte.x00 8
  /\ bytes 168 = handle_bytes 8 40224
  /\ bytes 128 <> handle_bytes 8 40224
  /\ bytes 160 <> handle_bytes 8 40224.
Proof.
  cbn zeta. split_all; try (vm_compute; reflexivity).
  - vm_compute. discriminate.
  - vm_compute. discriminate.
  - vm_compute. discriminate.
Qed.

(* ================================================================= *)
(** ** The theorems at work on the sample machine *)

Ltac by_computation :=
  vm_compute; first [reflexivity | discriminate | congruence].

Lemma sample_sizes_fit : sizes_fit sample_platform.
Proof. unfold sizes_fit. cbn. lia. Qed.

Lemma sample_prebuild_fits : prebuild_fits sample_platform.
Proof.
  unfold prebuild_fits. cbn. split; [lia|].
  intros [g|a n]; cbn; lia.
Qed.

Lemma C2_upload_ring_reserve_witness :
  exists h w',
    Graphics.FillNextConstantBufferAndGetGPUDescriptorHandle sample_platform
      sample_sceneData world_ring_almost_full = Ret h w'
    /\ read (memory (device w')) 1 0 76 = sample_sceneData
    /\ cbUploadHeapOffsetInBytes (graphics w') = 256.
Proof.
  destruct (C2_upload_ring_reserve sample_platform sample_sceneData
              world_ring_almost_full sample_upload_heap)
    as (hd & w' & Hrun & _ & _ & Hread & Hnext & _);
    try reflexivity; try (unfold is_u32; cbn; lia).
  exists hd, w'. split; [exact Hrun|]. split; [exact Hread|exact Hnext].
Defined.

Lemma C10_allocator_invariant_witness :
  exists h w',
    Graphics.FillNextConstantBufferAndGetGPUDescriptorHandle sample_platform
      sample_sceneData world_after_startup = Ret h w'
    /\ AllocatorInv w'.
Proof.
  destruct (proj2 (C10_allocator_invariant sample_platform)
              sample_sceneData world_after_startup)
    as (hd & w' & Hrun & Hinv & _).
  - unfold AllocatorInv. cbn zeta. split_all; by_computation.
  - unfold AllocatorReady. cbn zeta. split_all; by_computation.
  - exists hd, w'. split; assumption.
Defined.

Lemma C5_record_order_matches_dispatch_addresses_witness :
  (exists w' table,
      RayTracing.CreateShaderTable sample_platform world_before_shader_table
      = Ret tt w'
      /\ ShaderTable (raytracing w') = Some table
      /\ read (memory (device w')) (res_id table) 0 32
         = sample_identifier Byte.x01
      /\ read (memory (device w')) (res_id table) 64 32
         = sample_identifier Byte.x02
      /\ read (memory (device w')) (res_id table) 128 32
         = sample_identifier Byte.x03)
  /\ (exists w' d,
         RayTracing.Raytrace sample_platform sample_sceneData None
           world_after_scene = Ret tt w'
         /\ In (DispatchRays d) (trace w')
         /\ StartAddress (RayGenerationShaderRecord d) = 196608
         /\ TableStartAddress (MissShaderTable d) = 196608 + 64
         /\ TableStartAddress (HitGroupTable d) = 196608 + 128).
Proof.
  split.
  - destruct (proj1 (C5_record_order_matches_dispatch_addresses sample_platform)
                world_before_shader_table
                (sample_identifier Byte.x01) (sample_identifier Byte.x02)
                (sample_identifier Byte.x03))
      as (w' & table & Hrun & Ht & _ & R0 & R1 & R2).
    + unfold ShaderTableReady. split_all; reflexivity.
    + exact sample_sizes_fit.
    + cbn. lia.
    + cbn. lia.
    + cbn. lia.
    + exists w', table. split_all; assumption.
  - destruct (proj2 (C5_record_order_matches_dispatch_addresses sample_platform)
                sample_sceneData None sample_upload_heap
                (accel_buffer sample_platform 8 512)
                (shader_table_resource sample_platform 2)
                world_after_scene)
      as (w' & d & Hrun & Hin & A0 & A1 & A2 & _).
    + unfold FrameReady. split_all; reflexivity.
    + cbn. lia.
    + by_computation.
    + vm_compute. reflexivity.
    + exists w', d. split_all; assumption.
Defined.

Lemma C6_acceleration_structure_buffers_are_aligned_sizes_witness :
  (exists w' scratch result,
      RayTracing.CreateBLAS sample_platform triangle_mesh world_after_startup
      = Ret tt w'
      /\ BLASScratchBuffer (raytracing w') = Some scratch
      /\ BLAS (raytracing w') = Some result
      /\ Width (GetDesc scratch) = align_up 300 256
      /\ Width (GetDesc result) = align_up 1000 256)
  /\ (exists w' scratch result,
         RayTracing.CreateTLAS sample_platform
           (world_of (RayTracing.CreateBLAS sample_platform triangle_mesh
                        world_after_startup))
         = Ret tt w'
         /\ TLASScratchBuffer (raytracing w') = Some scratch
         /\ TLAS (raytracing w') = Some result
         /\ Width (GetDesc scratch) = align_up 1 256
         /\ Width (GetDesc result) = align_up 512 256).
Proof.
  pose proof (C6_acceleration_structure_buffers_are_aligned_sizes
                sample_platform sample_prebuild_fits) as [HB HT].
  split.
  - destruct (HB triangle_mesh triangle_vertex_buffer triangle_index_buffer
                (shader_table_resource sample_platform 2) world_after_startup)
      as (w' & scratch & result & Hrun & Hs & Hr & Ws & Wr & _).
    + unfold BLASReady. split_all; reflexivity.
    + exists w', scratch, result. split_all; assumption.
  - destruct (HT (accel_buffer sample_platform 5 1024)
                (world_of (RayTracing.CreateBLAS sample_platform triangle_mesh
                             world_after_startup)))
      as (w' & scratch & result & Hrun & Hs & Hr & Ws & Wr & _).
    + unfold TLASReady. split_all; reflexivity.
    + exists w', scratch, result. split_all; assumption.
Defined.

Lemma C7_index_handle_is_in_the_second_slot_witness :
  exists w1 w2,
    RayTracing.CreateBLAS sample_platform triangle_mesh world_after_startup
    = Ret tt w1
    /\ RayTracing.CreateTLAS sample_platform w1 = Ret tt w2
    /\ TLAS (raytracing w2) <> None
    /\ read (memory (device w2)) 2 (2 * 64 + 32 + 1 * 8) 8
       = handle_bytes 8 (indexBufferSRV (raytracing w2)).
Proof.
  destruct (C7_index_handle_is_in_the_second_slot sample_platform triangle_mesh
              triangle_vertex_buffer triangle_index_buffer
              (shader_table_resource sample_platform 2) world_after_startup)
    as (w1 & w2 & ic & vc & Hrun1 & Hrun2 & Htlas & _ & _ & _ & _ & Hslot & _).
  - unfold BLASReady. split_all; reflexivity.
  - reflexivity.
  - reflexivity.
  - vm_compute. lia.
  - reflexivity.
  - exact sample_sizes_fit.
  - exists w1, w2. split_all; assumption.
Defined.

Lemma C9_resize_keeps_the_output_slot_witness :
  exists w1 w2,
    RayTracing.Initialize sample_platform 1280 720 "Raytracing.cso"
      world_after_graphics = Ret S_OK w1
    /\ resize_all sample_platform [(800, 600); (1024, 768)] w1 = Ret tt w2
    /\ RaytracingOutputUAV_GPU (raytracing w1) = 40192
    /\ RaytracingOutputUAV_GPU (raytracing w2) = 40192
    /\ srvDescriptorOffset (graphics w2) = 1001
    /\ output_size w2 = Some (1024, 768).
Proof.
  destruct (C9_resize_keeps_the_output_slot sample_platform 1280 720
              "Raytracing.cso" world_after_graphics
              (sample_identifier Byte.x01) (sample_identifier Byte.x02)
              (sample_identifier Byte.x03))
    as (w1 & Hrun & _ & Hgpu & _ & Hall); try reflexivity.
  - by_computation.
  - destruct (Hall [(800, 600); (1024, 768)])
      as (w2 & new & Hrun2 & _ & Hgpu2 & Hsrv & Hsize & _).
    exists w1, w2. split_all; assumption.
Defined.
(* ================================================================= *)
(** ** [Graphics::Initialize]: its status, and a second call *)

Section GraphicsInitialize.
Variable P : Platform.


End GraphicsInitialize.


(* ================================================================= *)
(** ** The upload ring: where the bytes go *)

(** Blocks of 1 to 256 bytes reserve 256 bytes each. *)
Lemma reservation_small n : (0 < n <= 256)%nat -> reservation n = 256.
Proof.
  intros Hn. rewrite reservation_align_up by (unfold is_u32; lia).
  unfold align_up.
  replace (Z.of_nat n + 256 - 1) with (1 * 256 + (Z.of_nat n - 1)) by lia.
  rewrite Z.div_add_l by lia. rewrite Z.div_small by lia. reflexivity.
Qed.

Section UploadRing.
Variable P : Platform.

Let cpuStart := GetCPUDescriptorHandleForHeapStart P.

(** X2.  One reservation writes the data, and nothing else: every byte of
    every resource outside the [len] bytes at the start offset is what it
    was.  The start offset is a multiple of 256; the bytes stay inside the
    capacity of the heap whenever the data is no longer than the capacity,
    and a longer block is copied to offset 0 all the same. *)
Theorem X2_upload_writes_only_the_reservation :
  forall (data : list Byte.byte) (w : World) (heap : ID3D12Resource),
    AllocatorInv w ->
    Device (graphics w) = Some tt ->
    CBVSRVDescriptorHeap (graphics w) = Some tt ->
    CBUploadHeap (graphics w) = Some heap ->
    let len := Z.of_nat (List.length data) in
    let capacity := cbUploadHeapSizeInBytes (graphics w) in
    is_u32 len ->
    exists h w' start,
      Graphics.FillNextConstantBufferAndGetGPUDescriptorHandle P data w
      = Ret h w'
      /\ read (memory (device w')) (res_id heap) start (List.length data) = data
      /\ (forall r o,
             r <> res_id heap \/ o < start \/ start + len <= o ->
             memory (device w') r o = memory (device w) r o)
      /\ 0 <= start /\ start mod 256 = 0
      /\ (len <= capacity -> start + len <= capacity)
      /\ (capacity < len -> start = 0).
Proof.
  intros data w heap Hinv HD HH HU len capacity Hlen.
  destruct Hinv as (Hcap & Hmod & Hoff & _ & _).
  destruct (Fill_effect P data w heap HD HH HU)
    as (w' & Hrun & _ & _ & Hm & _ & _).
  rewrite (reservation_align_up _ Hlen) in Hm. fold len in Hm.
  unfold is_u32 in Hlen.
  pose proof (align_up_bounds len 256 ltac:(lia)) as Hr.
  set (r := align_up len 256) in *.
  set (o := cbUploadHeapOffsetInBytes (graphics w)) in *.
  fold capacity in Hm, Hoff, Hcap.
  unfold Graphics.MaxConstantBuffers in Hcap.
  assert (E1 : add64 o r = o + r).
  { unfold add64. apply u64_small. unfold is_u64. lia. }
  rewrite E1 in Hm.
  rewrite (u32_small len) in Hm by (unfold is_u32; exact Hlen).
  replace (Z.to_nat len) with (List.length data) in Hm
    by (unfold len; symmetry; apply Nat2Z.id).
  rewrite firstn_all in Hm.
  set (start := if o + r >=? capacity then 0 else o) in *.
  assert (Hstart : (start = 0 /\ capacity <= o + r)
                   \/ (start = o /\ o + r < capacity)).
  { unfold start. destruct (Z.geb_spec (o + r) capacity); [left|right]; lia. }
  eexists. exists w', start. split; [exact Hrun|].
  split; [rewrite Hm; apply read_write_same|].
  split; [intros r0 o0 H; rewrite Hm; apply write_other; exact H|].
  split; [lia|].
  split; [destruct Hstart as [[-> _]|[-> _]]; [reflexivity|exact Hmod]|].
  split; [intros Hle; lia|intros Hgt; lia].
Qed.

Lemma fill_all_small blocks : forall (w : World) (heap : ID3D12Resource) (a c : Z),
  Device (graphics w) = Some tt ->
  CBVSRVDescriptorHeap (graphics w) = Some tt ->
  CBUploadHeap (graphics w) = Some heap ->
  cbUploadHeapSizeInBytes (graphics w) = 256000 ->
  cbUploadHeapOffsetInBytes (graphics w) = 256 * a -> 0 <= a <= 999 ->
  cbvDescriptorOffset (graphics w) = c -> 0 <= c < 1000 ->
  Forall (fun data => (0 < List.length data <= 256)%nat) blocks ->
  let n := Z.of_nat (List.length blocks) in
  let incr := cbvSrvDescriptorHeapIncrementSize (graphics w) in
  exists w' a',
    fill_all P blocks w = Ret tt w'
    /\ cbUploadHeapOffsetInBytes (graphics w') = 256 * a'
    /\ 0 <= a' <= 999
    /\ a' mod 999 = (a + n) mod 999
    /\ cbvDescriptorOffset (graphics w') = (c + n) mod 1000
    /\ trace w' = trace w ++
         map (fun k =>
                CreateConstantBufferView
                  (add64 (GetGPUVirtualAddress heap)
                         (256 * ((a + Z.of_nat k) mod 999)))
                  256
                  (slot_handle cpuStart ((c + Z.of_nat k) mod 1000) incr))
             (seq 0 (List.length blocks)).
Proof.
  induction blocks as [|data blocks IH];
    intros w heap a c HD HH HU Hcap Hoff Ha Hc Hcr Hall; cbn zeta.
  - exists w, a. cbn. rewrite app_nil_r, !Z.add_0_r.
    rewrite (Z.mod_small c) by lia.
    split_all; first [reflexivity | assumption | lia].
  - inversion Hall as [|? ? Hd Hrest]; subst.
    destruct (Fill_effect P data w heap HD HH HU)
      as (w1 & Hrun & Hg & _ & _ & _ & Ht).
    rewrite (reservation_small _ Hd), Hoff, Hcap in Hg, Ht.
    assert (E1 : add64 (256 * a) 256 = 256 * a + 256).
    { unfold add64. apply u64_small. unfold is_u64. lia. }
    rewrite E1 in Hg, Ht.
    assert (Eo1 : (if 256 * a + 256 >=? 256000 then 0 else 256 * a)
                  = 256 * (a mod 999)).
    { destruct (Z.geb_spec (256 * a + 256) 256000).
      - replace a with 999 by lia. reflexivity.
      - rewrite Z.mod_small by lia. reflexivity. }
    rewrite Eo1 in Hg, Ht.
    pose proof (Z.mod_pos_bound a 999 ltac:(lia)) as Hb.
    assert (E2 : add64 (256 * (a mod 999)) 256 = 256 * (a mod 999 + 1)).
    { unfold add64. rewrite u64_small by (unfold is_u64; lia). lia. }
    rewrite E2 in Hg.
    assert (Eo2 : (if 256 * (a mod 999 + 1) >=? 256000 then 0
                   else 256 * (a mod 999 + 1)) = 256 * (a mod 999 + 1)).
    { destruct (Z.geb_spec (256 * (a mod 999 + 1)) 256000); [lia|reflexivity]. }
    rewrite Eo2 in Hg.
    assert (E3 : add32 (cbvDescriptorOffset (graphics w)) 1
                 = cbvDescriptorOffset (graphics w) + 1).
    { unfold add32. apply u32_small. unfold is_u32. lia. }
    rewrite E3 in Hg. unfold Graphics.MaxConstantBuffers in Hg.
    assert (Ek : (if cbvDescriptorOffset (graphics w) + 1 >=? 1000 then 0
                  else cbvDescriptorOffset (graphics w) + 1)
                 = (cbvDescriptorOffset (graphics w) + 1) mod 1000).
    { destruct (Z.geb_spec (cbvDescriptorOffset (graphics w) + 1) 1000).
      - replace (cbvDescriptorOffset (graphics w) + 1) with 1000 by lia.
        reflexivity.
      - rewrite Z.mod_small by lia. reflexivity. }
    rewrite Ek in Hg.
    pose proof (Z.mod_pos_bound (cbvDescriptorOffset (graphics w) + 1) 1000
                  ltac:(lia)) as Hb2.
    destruct (IH w1 heap (a mod 999 + 1)
                ((cbvDescriptorOffset (graphics w) + 1) mod 1000))
      as (w' & a' & Hrun' & Hoff' & Ha' & Hmod' & Hc' & Ht');
      try (rewrite Hg; cbn; first [assumption | reflexivity | lia]);
      try lia; try assumption.
    exists w', a'. split.
    { unfold fill_all in *. cbn [forM_].
      rewrite (bind_Ret _ _ w tt w1); [exact Hrun'|].
      rewrite (bind_Ret _ _ _ _ _ Hrun). reflexivity. }
    split; [exact Hoff'|]. split; [exact Ha'|].
    split.
    { rewrite Hmod'. cbn [List.length]. rewrite Nat2Z.inj_succ.
      rewrite <- Z.add_assoc, Z.add_mod_idemp_l by lia.
      f_equal. lia. }
    split.
    { rewrite Hc'. cbn [List.length]. rewrite Nat2Z.inj_succ.
      rewrite Z.add_mod_idemp_l by lia. f_equal. lia. }
    rewrite Ht', Ht, <- app_assoc. f_equal.
    cbn [List.length seq map app]. f_equal.
    + rewrite !Z.add_0_r. unfold slot_handle, cpuStart.
      rewrite (Z.mod_small (cbvDescriptorOffset (graphics w))) by lia.
      reflexivity.
    + rewrite <- seq_shift, map_map. apply map_ext. intros k.
      rewrite Hg. cbn [cbvSrvDescriptorHeapIncrementSize set_cbvDescriptorOffset
                         set_cbUploadHeapOffsetInBytes].
      rewrite !Nat2Z.inj_succ.
      replace ((a mod 999 + 1 + Z.of_nat k) mod 999)
        with ((a + Z.succ (Z.of_nat k)) mod 999)
        by (rewrite <- (Z.add_assoc (a mod 999)), Z.add_mod_idemp_l by lia;
            f_equal; lia).
      replace (((cbvDescriptorOffset (graphics w) + 1) mod 1000 + Z.of_nat k)
               mod 1000)
        with ((cbvDescriptorOffset (graphics w) + Z.succ (Z.of_nat k)) mod 1000)
        by (rewrite Z.add_mod_idemp_l by lia; f_equal; lia).
      reflexivity.
Qed.

(** X3.  With the ring at offset 0 and the CBV cursor at slot 0, as
    [Graphics::Initialize] leaves them, block number [k] of a run of blocks
    of 1 to 256 bytes goes to offset [256 * (k mod 999)] of the upload heap
    and gets its view in slot [k mod 1000]: the ring of data comes round
    after 999 blocks, its last 256 bytes never used, the ring of views
    after 1000. *)
Theorem X3_small_blocks_cycle :
  forall (blocks : list (list Byte.byte)) (w : World) (heap : ID3D12Resource),
    Device (graphics w) = Some tt ->
    CBVSRVDescriptorHeap (graphics w) = Some tt ->
    CBUploadHeap (graphics w) = Some heap ->
    cbUploadHeapSizeInBytes (graphics w) = Graphics.MaxConstantBuffers * 256 ->
    cbUploadHeapOffsetInBytes (graphics w) = 0 ->
    cbvDescriptorOffset (graphics w) = 0 ->
    Forall (fun data => (0 < List.length data <= 256)%nat) blocks ->
    let n := Z.of_nat (List.length blocks) in
    let incr := cbvSrvDescriptorHeapIncrementSize (graphics w) in
    exists w',
      fill_all P blocks w = Ret tt w'
      /\ cbvDescriptorOffset (graphics w') = n mod 1000
      /\ cbUploadHeapOffsetInBytes (graphics w') mod (999 * 256)
         = 256 * (n mod 999)
      /\ trace w' = trace w ++
           map (fun k =>
                  CreateConstantBufferView
                    (add64 (GetGPUVirtualAddress heap)
                           (256 * (Z.of_nat k mod 999)))
                    256
                    (slot_handle cpuStart (Z.of_nat k mod 1000) incr))
               (seq 0 (List.length blocks)).
Proof.
  intros blocks w heap HD HH HU Hcap Hoff Hc Hall n incr.
  destruct (fill_all_small blocks w heap 0 0 HD HH HU Hcap Hoff
              ltac:(lia) Hc ltac:(lia) Hall)
    as (w' & a' & Hrun & Hoff' & Ha' & Hmod' & Hc' & Ht').
  exists w'. split; [exact Hrun|]. split; [exact Hc'|].
  split.
  - rewrite Hoff'. fold n in Hmod'. rewrite Z.add_0_l in Hmod'.
    rewrite <- Hmod'. rewrite (Z.mul_comm 999 256).
    rewrite Z.mul_mod_distr_l by lia. reflexivity.
  - exact Ht'.
Qed.

End UploadRing.

(* ================================================================= *)
(** ** The wait fence and the SRV/UAV cursor *)

Lemma signalled_app t1 t2 : signalled (t1 ++ t2) = signalled t1 ++ signalled t2.
Proof. unfold signalled. apply flat_map_app. Qed.

Lemma WaitForGPU_effect w :
  CommandQueue (graphics w) = Some tt ->
  let c := add64 (WaitFenceCounter (graphics w)) 1 in
  Graphics.WaitForGPU w
  = Ret tt (set_device (set_calls (trace w ++ [QueueSignal c; WaitForFence c])
                          (device w))
              (set_graphics (set_WaitFenceCounter c (graphics w)) w)).
Proof.
  intros HQ. cbn zeta. unfold Graphics.WaitForGPU. run.
  unfold call, modifyD, modify, trace. norm. rewrite <- app_assoc. reflexivity.
Qed.

(** X4.  Every [Graphics::WaitForGPU] signals the fence value after the
    last one: [n] calls in a row signal [c + 1], ..., [c + n], in this
    order, where [c] is the counter they start from, and leave the counter
    at [c + n].  No value is signalled twice as long as the counter does not
    wrap. *)
Theorem X4_WaitForGPU_signals_fresh_values :
  forall (n : nat) (w : World),
    CommandQueue (graphics w) = Some tt ->
    let c := WaitFenceCounter (graphics w) in
    0 <= c -> c + Z.of_nat n < 2 ^ 64 ->
    exists w',
      wait_n n w = Ret tt w'
      /\ WaitFenceCounter (graphics w') = c + Z.of_nat n
      /\ signalled (trace w')
         = signalled (trace w) ++ map (fun k => c + 1 + Z.of_nat k) (seq 0 n)
      /\ NoDup (map (fun k => c + 1 + Z.of_nat k) (seq 0 n)).
Proof.
  induction n as [|n IH]; intros w HQ c Hc Hn.
  - exists w. cbn. rewrite Z.add_0_r, app_nil_r.
    split_all; first [reflexivity | constructor].
  - pose proof (WaitForGPU_effect w HQ) as Hrun. cbn zeta in Hrun.
    fold c in Hrun.
    assert (E : add64 c 1 = c + 1).
    { unfold add64. apply u64_small. unfold is_u64. lia. }
    rewrite E in Hrun.
    match type of Hrun with _ = Ret tt ?W => set (w1 := W) in * end.
    destruct (IH w1) as (w' & Hrun' & Hc' & Hs' & _);
      [exact HQ | cbn; lia | cbn; lia |].
    exists w'. split.
    { unfold wait_n in *. cbn [repeat forM_].
      rewrite (bind_Ret _ _ _ _ _ Hrun). exact Hrun'. }
    split; [rewrite Hc'; cbn; lia|].
    split.
    { rewrite Hs'. unfold w1, trace. cbn.
      rewrite signalled_app. cbn. rewrite <- app_assoc. f_equal.
      cbn. rewrite Z.add_0_r. f_equal.
      rewrite <- seq_shift, map_map. apply map_ext. intros k. lia. }
    apply NoDup_map_NoDup_ForallPairs; [|apply seq_NoDup].
    intros x y _ _ Hxy. lia.
Qed.

Lemma slot_handle_exact start slot incr :
  0 <= start -> 0 <= slot < 2 ^ 64 -> 0 <= incr ->
  start + slot * incr < 2 ^ 64 ->
  slot_handle start slot incr = start + slot * incr.
Proof.
  intros H1 H2 H3 H4. unfold slot_handle, add64, mul64.
  assert (H0 : 0 <= slot * incr) by (apply Z.mul_nonneg_nonneg; lia).
  rewrite (u64_small slot) by (unfold is_u64; lia).
  rewrite (u64_small (slot * incr)) by (unfold is_u64; lia).
  apply u64_small. unfold is_u64. lia.
Qed.

Section Cursors.
Variable P : Platform.

Let cpuStart := GetCPUDescriptorHandleForHeapStart P.
Let gpuStart := GetGPUDescriptorHandleForHeapStart P.

Lemma Reserve_effect w :
  CBVSRVDescriptorHeap (graphics w) = Some tt ->
  let s := srvDescriptorOffset (graphics w) in
  let incr := cbvSrvDescriptorHeapIncrementSize (graphics w) in
  Graphics.ReserveSrvUavDescriptorHeapSlot P w
  = Ret (slot_handle cpuStart s incr, slot_handle gpuStart s incr)
        (set_graphics (set_srvDescriptorOffset (add32 s 1) (graphics w)) w).
Proof.
  intros HH. cbn zeta. unfold Graphics.ReserveSrvUavDescriptorHeapSlot. run.
  reflexivity.
Qed.

Lemma reserve_n_effect n : forall (w : World),
  CBVSRVDescriptorHeap (graphics w) = Some tt ->
  let s := srvDescriptorOffset (graphics w) in
  let incr := cbvSrvDescriptorHeapIncrementSize (graphics w) in
  0 <= s -> s + Z.of_nat n < 2 ^ 32 ->
  exists w',
    reserve_n P n w
    = Ret (map (fun k => (slot_handle cpuStart (s + Z.of_nat k) incr,
                          slot_handle gpuStart (s + Z.of_nat k) incr))
               (seq 0 n)) w'
    /\ srvDescriptorOffset (graphics w') = s + Z.of_nat n
    /\ cbvDescriptorOffset (graphics w') = cbvDescriptorOffset (graphics w)
    /\ raytracing w' = raytracing w
    /\ device w' = device w.
Proof.
  induction n as [|n IH]; intros w HH s incr Hs Hn.
  - exists w. cbn. rewrite Z.add_0_r. split_all; reflexivity.
  - pose proof (Reserve_effect w HH) as Hrun. cbn zeta in Hrun.
    fold s incr in Hrun.
    assert (E : add32 s 1 = s + 1).
    { unfold add32. apply u32_small. unfold is_u32. lia. }
    rewrite E in Hrun.
    match type of Hrun with _ = Ret _ ?W => set (w1 := W) in * end.
    destruct (IH w1) as (w' & Hrun' & Hs' & Hc' & Hr' & Hd');
      [exact HH | cbn; lia | cbn; lia |].
    exists w'. split.
    { cbn [reserve_n]. rewrite (bind_Ret _ _ _ _ _ Hrun).
      rewrite (bind_Ret _ _ _ _ _ Hrun'). unfold ret. f_equal.
      cbn [seq map]. rewrite Z.add_0_r. f_equal.
      rewrite <- seq_shift, map_map. apply map_ext. intros k.
      unfold w1. cbn. replace (s + 1 + Z.of_nat k) with (s + Z.of_nat (S k)) by lia.
      reflexivity. }
    split; [rewrite Hs'; cbn; lia|].
    split; [rewrite Hc'; reflexivity|].
    split; [rewrite Hr'; reflexivity|rewrite Hd'; reflexivity].
Qed.

(** X5.  [Graphics::ReserveSrvUavDescriptorHeapSlot] hands out the slot the
    cursor points at and moves the cursor on by one, without a call to the
    device and without an upper limit: [n] reservations in a row give the
    slots [s], ..., [s + n - 1], and their handles are pairwise different
    as long as the handle arithmetic does not wrap. *)
Theorem X5_reserved_slots_are_consecutive_and_distinct :
  forall (n : nat) (w : World),
    CBVSRVDescriptorHeap (graphics w) = Some tt ->
    let s := srvDescriptorOffset (graphics w) in
    let incr := cbvSrvDescriptorHeapIncrementSize (graphics w) in
    0 <= s -> s + Z.of_nat n < 2 ^ 32 ->
    0 < incr -> 0 <= cpuStart -> 0 <= gpuStart ->
    cpuStart + (s + Z.of_nat n) * incr < 2 ^ 64 ->
    gpuStart + (s + Z.of_nat n) * incr < 2 ^ 64 ->
    exists w' slots,
      reserve_n P n w = Ret slots w'
      /\ slots = map (fun k => (cpuStart + (s + Z.of_nat k) * incr,
                                gpuStart + (s + Z.of_nat k) * incr))
                     (seq 0 n)
      /\ NoDup (map fst slots) /\ NoDup (map snd slots)
      /\ srvDescriptorOffset (graphics w') = s + Z.of_nat n
      /\ trace w' = trace w.
Proof.
  intros n w HH s incr Hs Hn Hi Hc Hg Hcb Hgb.
  destruct (reserve_n_effect n w HH Hs Hn)
    as (w' & Hrun & Hs' & _ & _ & Hd').
  fold s incr in Hrun, Hs'.
  assert (Hslots :
    map (fun k => (slot_handle cpuStart (s + Z.of_nat k) incr,
                   slot_handle gpuStart (s + Z.of_nat k) incr)) (seq 0 n)
    = map (fun k => (cpuStart + (s + Z.of_nat k) * incr,
                     gpuStart + (s + Z.of_nat k) * incr)) (seq 0 n)).
  { apply map_ext_in. intros k Hk. apply in_seq in Hk.
    assert (Hm : (s + Z.of_nat k) * incr <= (s + Z.of_nat n) * incr)
      by (apply Z.mul_le_mono_nonneg_r; lia).
    assert (H0 : 0 <= (s + Z.of_nat k) * incr)
      by (apply Z.mul_nonneg_nonneg; lia).
    rewrite !slot_handle_exact by lia. reflexivity. }
  rewrite Hslots in Hrun.
  exists w'. eexists. split; [exact Hrun|]. split; [reflexivity|].
  split; [|split; [|split; [exact Hs'|unfold trace; rewrite Hd'; reflexivity]]].
  - rewrite map_map. cbn [fst].
    apply NoDup_map_NoDup_ForallPairs; [|apply seq_NoDup].
    intros x y _ _ Hxy.
    assert (E : (s + Z.of_nat x) * incr = (s + Z.of_nat y) * incr) by lia.
    apply Z.mul_reg_r in E; lia.
  - rewrite map_map. cbn [snd].
    apply NoDup_map_NoDup_ForallPairs; [|apply seq_NoDup].
    intros x y _ _ Hxy.
    assert (E : (s + Z.of_nat x) * incr = (s + Z.of_nat y) * incr) by lia.
    apply Z.mul_reg_r in E; lia.
Qed.

End Cursors.

(* ================================================================= *)
(** ** Initialising twice, and initialising without ray tracing *)

Section Initialisation.
Variable P : Platform.

Let cpuStart := GetCPUDescriptorHandleForHeapStart P.
Let gpuStart := GetGPUDescriptorHandleForHeapStart P.

(** [RayTracing::Initialize] in a process that is initialised already. *)
Lemma Initialize_again width height file w :
  Device (graphics w) = Some tt ->
  CommandList (graphics w) = Some tt ->
  dxrInitialized (raytracing w) = true ->
  RaytracingOutputUAV_GPU (raytracing w) <> 0 ->
  capability_absent P = false ->
  let n := created (device w) in
  let r := raytracing w in
  exists w',
    RayTracing.Initialize P width height file w = Ret S_OK w'
    /\ graphics w' = graphics w
    /\ RaytracingOutput (raytracing w')
       = Some (output_texture P n width height)
    /\ ShaderTable (raytracing w') = ShaderTable r
    /\ ShaderTableRecordSize (raytracing w') = ShaderTableRecordSize r
    /\ GlobalRaytracingRootSig (raytracing w') = GlobalRaytracingRootSig r
    /\ LocalRaytracingRootSig (raytracing w') = LocalRaytracingRootSig r
    /\ RaytracingPipelineStateObject (raytracing w')
       = RaytracingPipelineStateObject r
    /\ RaytracingOutputUAV_CPU (raytracing w') = RaytracingOutputUAV_CPU r
    /\ RaytracingOutputUAV_GPU (raytracing w') = RaytracingOutputUAV_GPU r
    /\ created (device w') = S n
    /\ memory (device w') = memory (device w)
    /\ trace w' = trace w ++
         [ CheckFeatureSupport_OPTIONS5;
           QueryInterface_ID3D12Device5;
           QueryInterface_ID3D12GraphicsCommandList4;
           CreateCommittedResource D3D12_HEAP_TYPE_DEFAULT
             (GetDesc (output_texture P n width height))
             D3D12_RESOURCE_STATE_COPY_SOURCE;
           CreateUnorderedAccessView (Some n)
             (RaytracingOutputUAV_CPU (raytracing w)) ].
Proof.
  intros HD HC Hi Hu Hcap. cbn zeta.
  apply Z.eqb_neq in Hu.
  unfold capability_absent in Hcap.
  apply orb_false_elim in Hcap. destruct Hcap as [Hcap Hc3].
  apply orb_false_elim in Hcap. destruct Hcap as [Hc1 Hc2].
  unfold RayTracing.Initialize.
  run. rewrite Hc1, Hc2, Hc3. norm. run.
  unfold RayTracing.CreateRaytracingRootSignatures, RayTracing.setup_skipped.
  run. rewrite ?Hi. norm. run.
  unfold RayTracing.CreateRaytracingPipelineState, RayTracing.setup_skipped.
  run. rewrite ?Hi. norm. run.
  unfold RayTracing.CreateShaderTable, RayTracing.setup_skipped.
  run. rewrite ?Hi. norm. run.
  unfold RayTracing.CreateRaytracingOutputUAV, CreateCommittedResource_.
  run. rewrite ?Hu. norm. run.
  eexists. split; [reflexivity|].
  unfold trace. norm. rewrite <- ?app_assoc.
  split_all; reflexivity.
Qed.

(** X6.  A second [RayTracing::Initialize] after a successful one succeeds
    again and rebuilds nothing but the output image: the queries are made
    again, a new output texture of the size now asked for is created and its
    view is put in the slot reserved the first time; root signatures,
    pipeline state, shader table and the descriptor cursor stay as they
    were, and the shader library is not read again. *)
Theorem X6_second_Initialize_rebuilds_only_the_output :
  forall (width height width' height' : Z) (file file' : string) (w : World)
         (idRayGen idMiss idHitGroup : list Byte.byte),
    Device (graphics w) = Some tt ->
    CommandList (graphics w) = Some tt ->
    CBVSRVDescriptorHeap (graphics w) = Some tt ->
    dxrInitialized (raytracing w) = false ->
    RaytracingOutputUAV_GPU (raytracing w) = 0 ->
    capability_absent P = false ->
    readFileToBlob P file = Some tt ->
    shaderIdentifier P "RayGen" = Some idRayGen ->
    shaderIdentifier P "Miss" = Some idMiss ->
    shaderIdentifier P "HitGroup" = Some idHitGroup ->
    slot_handle gpuStart (srvDescriptorOffset (graphics w))
      (cbvSrvDescriptorHeapIncrementSize (graphics w)) <> 0 ->
    exists w1 w2,
      RayTracing.Initialize P width height file w = Ret S_OK w1
      /\ RayTracing.Initialize P width' height' file' w1 = Ret S_OK w2
      /\ graphics w2 = graphics w1
      /\ ShaderTable (raytracing w2) = ShaderTable (raytracing w1)
      /\ ShaderTable (raytracing w1) <> None
      /\ GlobalRaytracingRootSig (raytracing w2)
         = GlobalRaytracingRootSig (raytracing w1)
      /\ LocalRaytracingRootSig (raytracing w2)
         = LocalRaytracingRootSig (raytracing w1)
      /\ RaytracingPipelineStateObject (raytracing w2)
         = RaytracingPipelineStateObject (raytracing w1)
      /\ RaytracingOutputUAV_CPU (raytracing w2)
         = RaytracingOutputUAV_CPU (raytracing w1)
      /\ RaytracingOutputUAV_GPU (raytracing w2)
         = RaytracingOutputUAV_GPU (raytracing w1)
      /\ output_size w2 = Some (width', height')
      /\ memory (device w2) = memory (device w1)
      /\ trace w2 = trace w1 ++
           [ CheckFeatureSupport_OPTIONS5;
             QueryInterface_ID3D12Device5;
             QueryInterface_ID3D12GraphicsCommandList4;
             CreateCommittedResource D3D12_HEAP_TYPE_DEFAULT
               (GetDesc (output_texture P (created (device w1)) width' height'))
               D3D12_RESOURCE_STATE_COPY_SOURCE;
             CreateUnorderedAccessView (Some (created (device w1)))
               (RaytracingOutputUAV_CPU (raytracing w1)) ].
Proof.
  intros width height width' height' file file' w idRayGen idMiss idHitGroup
         HD HC HH Hi Hu Hcap Hblob H1 H2 H3 Hgpu.
  destruct (Initialize_succeeds P width height file w _ _ _
              HD HC HH Hi Hu Hcap Hblob H1 H2 H3)
    as (w1 & Hrun & HG & _ & Hi1 & _ & _ & Htab & _ & _ & _ & Hg & _).
  assert (HD1 : Device (graphics w1) = Some tt) by (rewrite HG; exact HD).
  assert (HC1 : CommandList (graphics w1) = Some tt) by (rewrite HG; exact HC).
  assert (Hne : RaytracingOutputUAV_GPU (raytracing w1) <> 0)
    by (rewrite Hg; exact Hgpu).
  destruct (Initialize_again width' height' file' w1 HD1 HC1 Hi1 Hne Hcap)
    as (w2 & Hrun2 & HG2 & Hout & Hst & _ & Hgl & Hlo & Hpso & Hcpu & Hgp
        & _ & HM2 & HT2).
  exists w1, w2. split; [exact Hrun|]. split; [exact Hrun2|].
  split; [exact HG2|]. split; [exact Hst|].
  split; [rewrite Htab; discriminate|].
  unfold output_size. rewrite Hout. cbn.
  split_all; first [reflexivity | assumption].
Qed.



(** X12.  When the shader library cannot be read, [RayTracing::Initialize]
    does not return a status at all: [CreateRaytracingPipelineState] goes
    on to read the size of the blob it did not get.  The program stops
    there, after the root signatures were created, with [dxrAvailable] set,
    [dxrInitialized] clear and no pipeline state and no shader table. *)
Theorem X12_unreadable_shader_library_stops_Initialize :
  forall (width height : Z) (file : string) (w : World),
    Device (graphics w) = Some tt ->
    CommandList (graphics w) = Some tt ->
    dxrInitialized (raytracing w) = false ->
    capability_absent P = false ->
    readFileToBlob P file = None ->
    exists w',
      RayTracing.Initialize P width height file w = Crash w'
      /\ dxrAvailable (raytracing w') = true
      /\ dxrInitialized (raytracing w') = false
      /\ GlobalRaytracingRootSig (raytracing w') = Some tt
      /\ LocalRaytracingRootSig (raytracing w') = Some tt
      /\ RaytracingPipelineStateObject (raytracing w')
         = RaytracingPipelineStateObject (raytracing w)
      /\ ShaderTable (raytracing w') = ShaderTable (raytracing w)
      /\ created (device w') = created (device w)
      /\ trace w' = trace w ++
           [ CheckFeatureSupport_OPTIONS5;
             QueryInterface_ID3D12Device5;
             QueryInterface_ID3D12GraphicsCommandList4;
             D3D12SerializeRootSignature RayTracing.globalRootSigDesc;
             CreateRootSignature;
             D3D12SerializeRootSignature RayTracing.localRootSigDesc;
             CreateRootSignature;
             D3DReadFileToBlob file ].
Proof.
  intros width height file w HD HC Hi Hcap Hblob.
  unfold capability_absent in Hcap.
  apply orb_false_elim in Hcap. destruct Hcap as [Hcap Hc3].
  apply orb_false_elim in Hcap. destruct Hcap as [Hc1 Hc2].
  unfold RayTracing.Initialize.
  run. rewrite Hc1, Hc2, Hc3. norm. run.
  unfold RayTracing.CreateRaytracingRootSignatures, RayTracing.setup_skipped.
  run. rewrite ?Hi. norm. run.
  unfold RayTracing.CreateRaytracingPipelineState, RayTracing.setup_skipped.
  run. rewrite ?Hi. norm. run.
  match goal with
  | |- context [bind (deref ?p) ?k ?W] =>
      rewrite (bind_Crash (deref p) k W W)
        by (unfold deref; rewrite Hblob; reflexivity)
  end.
  eexists. split; [reflexivity|].
  unfold trace. norm. rewrite <- ?app_assoc. rewrite ?Hi.
  split_all; reflexivity.
Qed.

End Initialisation.

(* ================================================================= *)
(** ** From [Game::Initialize] to the frames *)

(** ** What the two builders build *)

Lemma read_write_inside m rid off src o n :
  off <= o -> o + Z.of_nat n <= off + Z.of_nat (List.length src) ->
  read (write m rid off src) rid o n
  = firstn n (skipn (Z.to_nat (o - off)) src).
Proof.
  intros H1 H2. unfold read.
  apply nth_ext with (d := Byte.x00) (d' := Byte.x00).
  - rewrite length_map, length_seq, length_firstn, length_skipn. lia.
  - intros i Hi. rewrite length_map, length_seq in Hi.
    rewrite (nth_indep _ _ (write m rid off src rid (o + Z.of_nat 0)))
      by (rewrite length_map, length_seq; exact Hi).
    rewrite (map_nth (fun i => write m rid off src rid (o + Z.of_nat i))).
    rewrite seq_nth by exact Hi. cbn [Nat.add].
    unfold write. rewrite Nat.eqb_refl. cbn [andb].
    replace (off <=? o + Z.of_nat i) with true by (symmetry; apply Z.leb_le; lia).
    replace (o + Z.of_nat i <? off + Z.of_nat (List.length src)) with true
      by (symmetry; apply Z.ltb_lt; lia).
    cbn [andb]. rewrite nth_firstn.
    replace (i <? n)%nat with true by (symmetry; apply Nat.ltb_lt; exact Hi).
    rewrite nth_skipn. f_equal. lia.
Qed.

Section Frames.
Variable P : Platform.

Let cpuStart := GetCPUDescriptorHandleForHeapStart P.
Let gpuStart := GetGPUDescriptorHandleForHeapStart P.

(** One frame, with what it leaves of the world besides the trace. *)
Lemma Raytrace_frame sceneData bb w heap tlas table :
  FrameReady heap tlas table w ->
  let out := Get (RaytracingOutput (raytracing w)) in
  exists w' location size dest cbuffer,
    RayTracing.Raytrace P sceneData bb w = Ret tt w'
    /\ FrameReady heap tlas table w'
    /\ raytracing w' = raytracing w
    /\ Window_Width w' = Window_Width w
    /\ Window_Height w' = Window_Height w
    /\ trace w' = trace w ++
         [ ResourceBarrier
             [ BARRIER_TRANSITION (Get bb) D3D12_RESOURCE_STATE_PRESENT
                 D3D12_RESOURCE_STATE_COPY_DEST;
               BARRIER_TRANSITION out D3D12_RESOURCE_STATE_COPY_SOURCE
                 D3D12_RESOURCE_STATE_UNORDERED_ACCESS ];
           CreateConstantBufferView location size dest;
           SetDescriptorHeaps;
           SetPipelineState1;
           SetComputeRootSignature;
           SetComputeRootDescriptorTable 0
             (RaytracingOutputUAV_GPU (raytracing w));
           SetComputeRootShaderResourceView 1 (GetGPUVirtualAddress tlas);
           SetComputeRootDescriptorTable 2 cbuffer;
           DispatchRays
             (RayTracing.dispatchDesc (GetGPUVirtualAddress table)
                (ShaderTableRecordSize (raytracing w))
                (Window_Width w) (Window_Height w));
           ResourceBarrier
             [ BARRIER_TRANSITION out D3D12_RESOURCE_STATE_UNORDERED_ACCESS
                 D3D12_RESOURCE_STATE_COPY_SOURCE ];
           CopyResource (Get bb) out;
           ResourceBarrier
             [ BARRIER_TRANSITION (Get bb) D3D12_RESOURCE_STATE_COPY_DEST
                 D3D12_RESOURCE_STATE_PRESENT ];
           CommandListClose;
           ExecuteCommandLists ].
Proof.
  intros (Hi & Ha & HL & HD & HH & HU & HQ & HT & HS). cbn zeta.
  unfold RayTracing.Raytrace, RayTracing.not_ready.
  run. rewrite Hi, Ha. norm. run.
  match goal with
  | |- context [bind (Graphics.FillNextConstantBufferAndGetGPUDescriptorHandle
                        P ?d) _ ?W] =>
      rewrite (bind_Ret _ _ _ _ _ (Fill_runs P d W heap HD HH HU))
  end.
  unfold after_Fill. norm. run.
  eexists. do 4 eexists. split; [reflexivity|].
  unfold FrameReady, trace. norm. rewrite ?Hi, ?Ha, <- ?app_assoc.
  split_all; first [reflexivity | assumption].
Qed.

Lemma dispatched_app t1 t2 :
  dispatched (t1 ++ t2) = dispatched t1 ++ dispatched t2.
Proof. unfold dispatched. apply flat_map_app. Qed.

Lemma raytrace_all_runs frames : forall w heap tlas table,
  FrameReady heap tlas table w ->
  exists w',
    raytrace_all P frames w = Ret tt w'
    /\ FrameReady heap tlas table w'
    /\ raytracing w' = raytracing w
    /\ dispatched (trace w')
       = dispatched (trace w) ++
         repeat (RayTracing.dispatchDesc (GetGPUVirtualAddress table)
                   (ShaderTableRecordSize (raytracing w))
                   (Window_Width w) (Window_Height w))
                (List.length frames).
Proof.
  induction frames as [|[sceneData bb] frames IH]; intros w heap tlas table Hready.
  - exists w. cbn. rewrite app_nil_r. split_all; first [reflexivity | assumption].
  - destruct (Raytrace_frame sceneData bb w heap tlas table Hready)
      as (w1 & loc & size & dest & cb & Hrun & Hready1 & HR & HW & HH & HT).
    destruct (IH w1 heap tlas table Hready1) as (w' & Hrun' & Hready' & HR' & HT').
    exists w'. split.
    { unfold raytrace_all in *. cbn [forM_ fst snd].
      rewrite (bind_Ret _ _ _ _ _ Hrun). exact Hrun'. }
    split; [exact Hready'|]. split; [rewrite HR'; exact HR|].
    rewrite HT', HT, HR, HW, HH, dispatched_app, <- app_assoc.
    reflexivity.
Qed.

(** The end of [Game::Initialize]: the list is closed and executed, and the
    CPU waits. *)
Lemma close_and_wait w :
  CommandList (graphics w) = Some tt ->
  CommandQueue (graphics w) = Some tt ->
  let fence := add64 (WaitFenceCounter (graphics w)) 1 in
  exists w',
    (Graphics.CloseAndExecuteCommandList ;; Graphics.WaitForGPU) w = Ret tt w'
    /\ raytracing w' = raytracing w
    /\ graphics w' = set_WaitFenceCounter fence (graphics w)
    /\ Window_Width w' = Window_Width w
    /\ Window_Height w' = Window_Height w
    /\ created (device w') = created (device w)
    /\ memory (device w') = memory (device w)
    /\ trace w' = trace w ++
         [CommandListClose; ExecuteCommandLists;
          QueueSignal fence; WaitForFence fence].
Proof.
  intros HC HQ. cbn zeta.
  unfold Graphics.CloseAndExecuteCommandList, Graphics.WaitForGPU. run.
  eexists. split; [reflexivity|].
  unfold trace. norm. rewrite <- ?app_assoc.
  split_all; reflexivity.
Qed.

(** [Game::Initialize] on a machine with ray tracing. *)
Lemma Game_Initialize_succeeds file mesh vb ib heap w idRayGen idMiss idHitGroup :
  Device (graphics w) = Some tt ->
  CommandList (graphics w) = Some tt ->
  CommandQueue (graphics w) = Some tt ->
  CBVSRVDescriptorHeap (graphics w) = Some tt ->
  CBUploadHeap (graphics w) = Some heap ->
  dxrInitialized (raytracing w) = false ->
  RaytracingOutputUAV_GPU (raytracing w) = 0 ->
  capability_absent P = false ->
  readFileToBlob P file = Some tt ->
  shaderIdentifier P "RayGen" = Some idRayGen ->
  shaderIdentifier P "Miss" = Some idMiss ->
  shaderIdentifier P "HitGroup" = Some idHitGroup ->
  vertexBuffer mesh = Some vb ->
  indexBuffer mesh = Some ib ->
  let n := created (device w) in
  exists w' tlas,
    Game_Initialize P file mesh w = Ret tt w'
    /\ FrameReady heap tlas (shader_table_resource P n) w'
    /\ res_id tlas = (6 + n)%nat
    /\ ShaderTableRecordSize (raytracing w') = RayTracing.shaderTableRecordSize P
    /\ output_size w' = Some (Window_Width w, Window_Height w)
    /\ RaytracingOutput (raytracing w')
       = Some (output_texture P (S n) (Window_Width w) (Window_Height w))
    /\ BLAS (raytracing w') <> None
    /\ Window_Width w' = Window_Width w
    /\ Window_Height w' = Window_Height w
    /\ created (device w') = (7 + n)%nat
    /\ dispatched (trace w') = dispatched (trace w).
Proof.
  intros HD HC HQ HH HU Hi Hu Hcap Hblob H1 H2 H3 Hvb Hib. cbn zeta.
  unfold capability_absent in Hcap.
  apply orb_false_elim in Hcap. destruct Hcap as [Hcap Hc3].
  apply orb_false_elim in Hcap. destruct Hcap as [Hc1 Hc2].
  unfold Game_Initialize, RayTracing.Initialize.
  run. rewrite Hc1, Hc2, Hc3. norm. run.
  unfold RayTracing.CreateRaytracingRootSignatures, RayTracing.setup_skipped.
  run. rewrite ?Hi. norm. run.
  unfold RayTracing.CreateRaytracingPipelineState, RayTracing.setup_skipped.
  run. rewrite ?Hi. norm. run.
  unfold RayTracing.CreateShaderTable, RayTracing.setup_skipped,
    RayTracing.shader_identifier, Graphics.CreateBuffer,
    CreateCommittedResource_.
  run. rewrite ?Hi. norm. run.
  unfold RayTracing.CreateRaytracingOutputUAV, CreateCommittedResource_,
    Graphics.ReserveSrvUavDescriptorHeapSlot.
  run. rewrite ?Hu. norm. run.
  unfold RayTracing.CreateBLAS, Graphics.CreateBuffer, CreateCommittedResource_,
    Graphics.ReserveSrvUavDescriptorHeapSlot.
  run.
  unfold RayTracing.CreateTLAS, Graphics.CreateBuffer, CreateCommittedResource_,
    Graphics.WaitForGPU, Graphics.ResetAllocatorAndCommandList.
  run.
  unfold Graphics.CloseAndExecuteCommandList. run.
  eexists. eexists. split; [reflexivity|].
  unfold FrameReady, output_size, trace. norm.
  rewrite ?dispatched_app. cbn [dispatched flat_map app]. rewrite ?app_nil_r.
  split_all; first [reflexivity | assumption | discriminate].
Qed.

(** X8.  On a machine with ray tracing [Game::Initialize] leaves
    everything a frame works through in place (the flags set, the shader
    table, the TLAS, the output image of the window's size), and frames keep
    it so: any number of calls of [Raytrace] afterwards run to their end,
    each dispatching the window's width times height rays against the same
    shader table, and none changes a variable of the ray tracer. *)
Theorem X8_frames_run_after_Game_Initialize :
  forall (file : string) (mesh : Mesh) (vb ib heap : ID3D12Resource)
         (w : World) (idRayGen idMiss idHitGroup : list Byte.byte),
    Device (graphics w) = Some tt ->
    CommandList (graphics w) = Some tt ->
    CommandQueue (graphics w) = Some tt ->
    CBVSRVDescriptorHeap (graphics w) = Some tt ->
    CBUploadHeap (graphics w) = Some heap ->
    dxrInitialized (raytracing w) = false ->
    RaytracingOutputUAV_GPU (raytracing w) = 0 ->
    capability_absent P = false ->
    readFileToBlob P file = Some tt ->
    shaderIdentifier P "RayGen" = Some idRayGen ->
    shaderIdentifier P "Miss" = Some idMiss ->
    shaderIdentifier P "HitGroup" = Some idHitGroup ->
    vertexBuffer mesh = Some vb ->
    indexBuffer mesh = Some ib ->
    exists w1 table tlas,
      Game_Initialize P file mesh w = Ret tt w1
      /\ dxrInitialized (raytracing w1) = true
      /\ ShaderTable (raytracing w1) = Some table
      /\ TLAS (raytracing w1) = Some tlas
      /\ output_size w1 = Some (Window_Width w, Window_Height w)
      /\ forall frames : list (list Byte.byte * ComPtr ID3D12Resource),
           exists w2,
             raytrace_all P frames w1 = Ret tt w2
             /\ raytracing w2 = raytracing w1
             /\ dispatched (trace w2)
                = dispatched (trace w) ++
                  repeat (RayTracing.dispatchDesc (GetGPUVirtualAddress table)
                            (RayTracing.shaderTableRecordSize P)
                            (Window_Width w) (Window_Height w))
                         (List.length frames).
Proof.
  intros file mesh vb ib heap w idRayGen idMiss idHitGroup
         HD HC HQ HH HU Hi Hu Hcap Hblob H1 H2 H3 Hvb Hib.
  destruct (Game_Initialize_succeeds file mesh vb ib heap w _ _ _
              HD HC HQ HH HU Hi Hu Hcap Hblob H1 H2 H3 Hvb Hib)
    as (w1 & tlas & Hrun & Hready & _ & Hrs & Hout & _ & _ & Hww & Hwh & _ & Hd).
  exists w1. do 2 eexists. split; [exact Hrun|].
  pose proof Hready as (Hi1 & _ & _ & _ & _ & _ & _ & HT & HS).
  split; [exact Hi1|]. split; [exact HS|]. split; [exact HT|].
  split; [exact Hout|].
  intros frames.
  destruct (raytrace_all_runs frames w1 _ _ _ Hready)
    as (w2 & Hrun2 & _ & HR2 & HT2).
  exists w2. split; [exact Hrun2|]. split; [exact HR2|].
  rewrite HT2, Hd, Hrs, Hww, Hwh. reflexivity.
Qed.

(* ================================================================= *)
Lemma length_instanceDesc_bytes a :
  List.length (RayTracing.instanceDesc_bytes a) = 64%nat.
Proof.
  unfold RayTracing.instanceDesc_bytes. cbn [flat_map].
  rewrite !length_app, !length_le_split. reflexivity.
Qed.

(** X9.  [CreateBLAS] has the device build the structure from the very
    inputs it asked the sizes for, with the scratch buffer and the result
    buffer it created in between, two different resources, and follows the
    build with a UAV barrier on the result. *)
Theorem X9_BLAS_is_built_as_it_was_sized :
  forall (mesh : Mesh) (vb ib table : ID3D12Resource) (w : World),
    BLASReady mesh vb ib table w ->
    exists w' scratch blas inputs after,
      RayTracing.CreateBLAS P mesh w = Ret tt w'
      /\ BLASScratchBuffer (raytracing w') = Some scratch
      /\ BLAS (raytracing w') = Some blas
      /\ res_id scratch <> res_id blas
      /\ inputs = blas_inputs mesh vb ib
      /\ trace w' = trace w ++
           GetRaytracingAccelerationStructurePrebuildInfo inputs
           :: CreateCommittedResource D3D12_HEAP_TYPE_DEFAULT (GetDesc scratch)
                D3D12_RESOURCE_STATE_UNORDERED_ACCESS
           :: CreateCommittedResource D3D12_HEAP_TYPE_DEFAULT (GetDesc blas)
                D3D12_RESOURCE_STATE_RAYTRACING_ACCELERATION_STRUCTURE
           :: BuildRaytracingAccelerationStructure inputs
                (GetGPUVirtualAddress scratch) (GetGPUVirtualAddress blas)
           :: ResourceBarrier [BARRIER_UAV (Some (res_id blas))]
           :: after.
Proof.
  intros mesh vb ib table w Hready.
  destruct (CreateBLAS_effect P mesh vb ib table w Hready)
    as (w' & Hrun & _ & HR & _ & _ & HT).
  exists w'. do 4 eexists.
  split; [exact Hrun|].
  split; [rewrite HR; reflexivity|].
  split; [rewrite HR; reflexivity|].
  split; [cbn; lia|]. split; [reflexivity|].
  exact HT.
Qed.

(** X10.  [CreateTLAS] describes one instance, and that instance is the
    bottom-level structure: the 64 bytes it puts at the start of the
    instance buffer end with the address of [BLAS], after the identity
    transform and the word that holds instance id 0 and mask 0xFF.  The
    sizes are asked for, and the structure is built, from that buffer's
    address with one description, into the TLAS buffer. *)
Theorem X10_TLAS_instance_is_the_BLAS :
  forall (blas : ID3D12Resource) (w : World),
    TLASReady blas w ->
    0 <= GetGPUVirtualAddress blas < 2 ^ 64 ->
    exists w' instances scratch tlas before after,
      RayTracing.CreateTLAS P w = Ret tt w'
      /\ TLASInstanceDescBuffer (raytracing w') = Some instances
      /\ TLASScratchBuffer (raytracing w') = Some scratch
      /\ TLAS (raytracing w') = Some tlas
      /\ Width (GetDesc instances) = 64
      /\ (let bytes o n := read (memory (device w')) (res_id instances) o n in
          le_combine (bytes 56 8%nat) = GetGPUVirtualAddress blas
          /\ map (fun k => le_combine (bytes (4 * Z.of_nat k) 4%nat)) (seq 0 12)
             = [ RayTracing.float_one; 0; 0; 0;
                 0; RayTracing.float_one; 0; 0;
                 0; 0; RayTracing.float_one; 0 ]
          /\ le_combine (bytes 48 4%nat) = 255 * 2 ^ 24
          /\ le_combine (bytes 52 4%nat) = 0)
      /\ trace w' = (trace w ++ before) ++
           GetRaytracingAccelerationStructurePrebuildInfo
             (INPUTS_TOP_LEVEL (GetGPUVirtualAddress instances) 1)
           :: CreateCommittedResource D3D12_HEAP_TYPE_DEFAULT (GetDesc scratch)
                D3D12_RESOURCE_STATE_UNORDERED_ACCESS
           :: CreateCommittedResource D3D12_HEAP_TYPE_DEFAULT (GetDesc tlas)
                D3D12_RESOURCE_STATE_RAYTRACING_ACCELERATION_STRUCTURE
           :: BuildRaytracingAccelerationStructure
                (INPUTS_TOP_LEVEL (GetGPUVirtualAddress instances) 1)
                (GetGPUVirtualAddress scratch) (GetGPUVirtualAddress tlas)
           :: ResourceBarrier [BARRIER_UAV (Some (res_id tlas))]
           :: after.
Proof.
  intros blas w Hready Haddr.
  destruct (CreateTLAS_effect P blas w Hready)
    as (w' & Hrun & _ & HR & _ & HM & HT).
  exists w'. do 3 eexists.
  exists [ CreateCommittedResource D3D12_HEAP_TYPE_UPLOAD
             (GetDesc (instance_buffer P (created (device w))))
             D3D12_RESOURCE_STATE_GENERIC_READ;
           ResourceMap (created (device w));
           ResourceUnmap (created (device w)) ].
  eexists.
  split; [exact Hrun|].
  split; [rewrite HR; reflexivity|].
  split; [rewrite HR; reflexivity|].
  split; [rewrite HR; reflexivity|].
  split; [reflexivity|].
  split.
  { cbn zeta. cbn [res_id instance_buffer]. rewrite HM.
    rewrite firstn_all2
      by (rewrite length_instanceDesc_bytes; cbn; lia).
    assert (Hrd : forall o n,
               0 <= o -> o + Z.of_nat n <= 64 ->
               read (write (memory (device w)) (created (device w)) 0
                       (RayTracing.instanceDesc_bytes (GetGPUVirtualAddress blas)))
                    (created (device w)) o n
               = firstn n (skipn (Z.to_nat o)
                             (RayTracing.instanceDesc_bytes
                                (GetGPUVirtualAddress blas)))).
    { intros o n Ho Hn. rewrite read_write_inside
        by (rewrite ?length_instanceDesc_bytes; lia).
      rewrite Z.sub_0_r. reflexivity. }
    cbn [seq map]. rewrite !Hrd by (cbn; lia).
    unfold RayTracing.instanceDesc_bytes. cbn [flat_map].
    assert (Hfn : forall n z (rest : list Byte.byte),
               firstn n (le_split n z ++ rest) = le_split n z).
    { intros n z rest. rewrite firstn_app, length_le_split, Nat.sub_diag.
      cbn [firstn]. rewrite app_nil_r. apply firstn_all2.
      rewrite length_le_split. apply Nat.le_refl. }
    assert (Hsk : forall n z (rest : list Byte.byte) k,
               skipn (n + k) (le_split n z ++ rest) = skipn k rest).
    { intros n z rest k. rewrite skipn_app, length_le_split.
      rewrite skipn_all2 by (rewrite length_le_split; lia).
      replace (n + k - n)%nat with k by lia. reflexivity. }
    rewrite <- !app_assoc. cbn [app].
    change (Z.to_nat 56) with (4+(4+(4+(4+(4+(4+(4+(4+(4+(4+(4+(4+(4+(4+0))))))))))))))%nat.
    change (Z.to_nat 52) with (4+(4+(4+(4+(4+(4+(4+(4+(4+(4+(4+(4+(4+0)))))))))))))%nat.
    change (Z.to_nat 48) with (4+(4+(4+(4+(4+(4+(4+(4+(4+(4+(4+(4+0))))))))))))%nat.
    change (Z.to_nat (4 * Z.of_nat 0)) with 0%nat.
    change (Z.to_nat (4 * Z.of_nat 1)) with (4+0)%nat.
    change (Z.to_nat (4 * Z.of_nat 2)) with (4+(4+0))%nat.
    change (Z.to_nat (4 * Z.of_nat 3)) with (4+(4+(4+0)))%nat.
    change (Z.to_nat (4 * Z.of_nat 4)) with (4+(4+(4+(4+0))))%nat.
    change (Z.to_nat (4 * Z.of_nat 5)) with (4+(4+(4+(4+(4+0)))))%nat.
    change (Z.to_nat (4 * Z.of_nat 6)) with (4+(4+(4+(4+(4+(4+0))))))%nat.
    change (Z.to_nat (4 * Z.of_nat 7)) with (4+(4+(4+(4+(4+(4+(4+0)))))))%nat.
    change (Z.to_nat (4 * Z.of_nat 8)) with (4+(4+(4+(4+(4+(4+(4+(4+0))))))))%nat.
    change (Z.to_nat (4 * Z.of_nat 9)) with (4+(4+(4+(4+(4+(4+(4+(4+(4+0)))))))))%nat.
    change (Z.to_nat (4 * Z.of_nat 10)) with (4+(4+(4+(4+(4+(4+(4+(4+(4+(4+0))))))))))%nat.
    change (Z.to_nat (4 * Z.of_nat 11)) with (4+(4+(4+(4+(4+(4+(4+(4+(4+(4+(4+0)))))))))))%nat.
    rewrite !Hsk. cbn [skipn].
    rewrite !Hfn.
    rewrite (firstn_all2 (n := 8)) by (rewrite length_le_split; lia).
    rewrite !le_combine_split.
    split; [apply Z.mod_small; exact Haddr|].
    split; [reflexivity|]. split; reflexivity. }
  rewrite HT, <- app_assoc. reflexivity.
Qed.

(* ================================================================= *)
(** ** The resource states of a frame *)

Lemma same_resource_refl r : same_resource r r = true.
Proof. destruct r; cbn; [apply Nat.eqb_refl|reflexivity]. Qed.

Lemma same_resource_eq a b : same_resource a b = true -> a = b.
Proof.
  destruct a, b; cbn; intros H; try discriminate; [|reflexivity].
  apply Nat.eqb_eq in H. subst. reflexivity.
Qed.

Lemma same_resource_sym a b : same_resource a b = same_resource b a.
Proof. destruct a, b; cbn; try reflexivity. apply Nat.eqb_sym. Qed.

Lemma state_eqb_refl s : state_eqb s s = true.
Proof. destruct s; reflexivity. Qed.

(** X11.  A frame leaves every resource in the state it found it in, and
    asks for no transition or copy out of turn.  With the back buffer in
    [PRESENT] and the output image, another resource, in [COPY_SOURCE]: the
    barriers [Raytrace] records each find their resource in the state they
    name, the copy finds the back buffer in [COPY_DEST] and the output in
    [COPY_SOURCE], and at the end all states are what they were. *)
Theorem X11_frame_restores_resource_states :
  forall (sceneData : list Byte.byte) (bb : ComPtr ID3D12Resource)
         (heap tlas table : ID3D12Resource) (w : World) (st : ResourceStates),
    FrameReady heap tlas table w ->
    let out := Get (RaytracingOutput (raytracing w)) in
    Get bb <> out ->
    st (Get bb) = D3D12_RESOURCE_STATE_PRESENT ->
    st out = D3D12_RESOURCE_STATE_COPY_SOURCE ->
    exists w' new st',
      RayTracing.Raytrace P sceneData bb w = Ret tt w'
      /\ trace w' = trace w ++ new
      /\ follow new st = Some st'
      /\ forall r, st' r = st r.
Proof.
  intros sceneData bb heap tlas table w st Hready out Hne Hbb Hout.
  destruct (Raytrace_frame sceneData bb w heap tlas table Hready)
    as (w' & loc & size & dest & cb & Hrun & _ & _ & _ & _ & HT).
  fold out in HT.
  assert (Hdiff : same_resource out (Get bb) = false).
  { destruct (same_resource out (Get bb)) eqn:E; [|reflexivity].
    apply same_resource_eq in E. congruence. }
  assert (Hdiff' : same_resource (Get bb) out = false)
    by (rewrite same_resource_sym; exact Hdiff).
  exists w'. eexists. eexists. split; [exact Hrun|]. split; [exact HT|].
  split.
  - cbn [follow apply_barriers apply_barrier].
    rewrite Hbb. cbn [state_eqb].
    rewrite Hdiff, Hout. cbn [state_eqb].
    rewrite !same_resource_refl. cbn [state_eqb].
    rewrite ?Hdiff, ?Hdiff', ?same_resource_refl. cbn [state_eqb andb].
    rewrite ?Hdiff, ?Hdiff', ?same_resource_refl. cbn [state_eqb andb].
    reflexivity.
  - intros r. cbn beta.
    destruct (same_resource r (Get bb)) eqn:E1.
    + apply same_resource_eq in E1. subst r. symmetry. exact Hbb.
    + destruct (same_resource r out) eqn:E2.
      * apply same_resource_eq in E2. subst r. symmetry. exact Hout.
      * reflexivity.
Qed.

End Frames.

(* ================================================================= *)
(** ** The swap chain: frames in flight, resizing, presenting *)

(** The updates of a [Rest] are evaluated innermost first, which keeps a
    chain of them linear. *)
Ltac unfold_rest_setters :=
  cbv beta iota delta
    [log set_supportsTearing set_vsyncDesired set_isFullscreen
     set_currentBackBufferIndex set_SwapChain set_BackBuffers
     set_RTVHeap set_RTVHandles set_DepthBuffer set_DSVHeap
     set_DSVHandle set_FrameSyncFence set_FrameSyncFenceCounters
     set_rest_calls
     supportsTearing vsyncDesired isFullscreen currentBackBufferIndex
     SwapChain BackBuffers RTVHeap RTVHandles DepthBuffer DSVHeap DSVHandle
     FrameSyncFence FrameSyncFenceCounters rest_calls].

Ltac norm_rest := unfold_rest_setters; cbn -[bind].

Lemma index_Some {A} (a : list A) (i : Z) (x : A) (w : World) :
  0 <= i -> nth_error a (Z.to_nat i) = Some x -> index a i w = Ret x w.
Proof.
  intros Hi Hx. unfold index, deref.
  destruct (Z.ltb_spec i 0); [lia|]. rewrite Hx. reflexivity.
Qed.

Section SwapChain.
Variable P : Platform.

(** The counters of the frame fence after [k] calls from the start: the
    current buffer's is [k], the other one's is [k - 1] (0 at the start). *)
Lemma AdvanceSwapChainIndex_from (k v : Z) (r : Rest) (w : World) :
  0 <= k -> k + 1 < 2 ^ 64 ->
  CommandQueue (graphics w) = Some tt ->
  FrameSyncFence r = Some tt ->
  currentBackBufferIndex r = k mod 2 ->
  FrameSyncFenceCounters r
  = (if k mod 2 =? 0 then [k; Z.max 0 (k - 1)] else [Z.max 0 (k - 1); k]) ->
  exists r',
    Graphics'.AdvanceSwapChainIndex v r w = Ret r' w
    /\ FrameSyncFence r' = Some tt
    /\ currentBackBufferIndex r' = (k + 1) mod 2
    /\ FrameSyncFenceCounters r'
       = (if (k + 1) mod 2 =? 0 then [k + 1; k] else [k; k + 1])
    /\ rest_calls r'
       = rest_calls r ++
         FrameSyncFence_Signal k ::
         (if v <? Z.max 0 (k - 1)
          then [FrameSyncFence_Wait (Z.max 0 (k - 1))] else [])
    /\ supportsTearing r' = supportsTearing r
    /\ vsyncDesired r' = vsyncDesired r
    /\ isFullscreen r' = isFullscreen r
    /\ SwapChain r' = SwapChain r
    /\ BackBuffers r' = BackBuffers r
    /\ RTVHeap r' = RTVHeap r
    /\ RTVHandles r' = RTVHandles r
    /\ DepthBuffer r' = DepthBuffer r
    /\ DSVHeap r' = DSVHeap r
    /\ DSVHandle r' = DSVHandle r.
Proof.
  intros Hk Hk' HQ HF Hi Hc.
  assert (Hm : k mod 2 = 0 \/ k mod 2 = 1) by (pose proof (Z.mod_pos_bound k 2); lia).
  assert (Hs : add64 k 1 = k + 1).
  { unfold add64. apply u64_small. unfold is_u64. lia. }
  assert (Hm' : (k + 1) mod 2 = 1 - k mod 2).
  { rewrite <- Z.add_mod_idemp_l by lia.
    destruct Hm as [E|E]; rewrite E; reflexivity. }
  destruct r as [st vd fs idx sc bb rh rhs db dh dhd ff cs lg].
  cbn in HF, Hi, Hc. subst idx cs ff.
  unfold Graphics'.AdvanceSwapChainIndex.
  cbn [currentBackBufferIndex FrameSyncFenceCounters].
  rewrite Hm'.
  destruct Hm as [E|E]; rewrite E; cbn [Z.eqb Z.sub Z.add Z.opp Z.pos_sub].
  - step. step. norm_rest. step. step. rewrite Hs.
    eexists. split; [reflexivity|].
    destruct (v <? Z.max 0 (k - 1)); cbn; rewrite <- ?app_assoc; split_all; reflexivity.
  - step. step. norm_rest. step. step. rewrite Hs.
    eexists. split; [reflexivity|].
    destruct (v <? Z.max 0 (k - 1)); cbn; rewrite <- ?app_assoc; split_all; reflexivity.
Qed.

(** What the calls from the [k]-th on log, one fence answer each. *)
Lemma advance_all_from completed : forall (k : nat) (r : Rest) (w : World),
  Z.of_nat (k + List.length completed) < 2 ^ 64 ->
  Forall (fun v => 0 <= v) completed ->
  CommandQueue (graphics w) = Some tt ->
  FrameSyncFence r = Some tt ->
  currentBackBufferIndex r = Z.of_nat k mod 2 ->
  FrameSyncFenceCounters r
  = (if Z.of_nat k mod 2 =? 0
     then [Z.of_nat k; Z.max 0 (Z.of_nat k - 1)]
     else [Z.max 0 (Z.of_nat k - 1); Z.of_nat k]) ->
  exists r',
    advance_all completed r w = Ret r' w
    /\ currentBackBufferIndex r'
       = Z.of_nat (k + List.length completed) mod 2
    /\ rest_calls r'
       = rest_calls r ++
         flat_map
           (fun kv : nat * Z =>
              FrameSyncFence_Signal (Z.of_nat (fst kv)) ::
              (if snd kv <? Z.of_nat (fst kv) - 1
               then [FrameSyncFence_Wait (Z.of_nat (fst kv) - 1)] else []))
           (combine (seq k (List.length completed)) completed)
    /\ SwapChain r' = SwapChain r
    /\ BackBuffers r' = BackBuffers r
    /\ supportsTearing r' = supportsTearing r
    /\ vsyncDesired r' = vsyncDesired r
    /\ isFullscreen r' = isFullscreen r.
Proof.
  induction completed as [|v vs IH]; intros k r w Hn Hv HQ HF Hi Hc.
  - exists r. cbn. rewrite Nat.add_0_r, app_nil_r. split_all; try reflexivity.
    exact Hi.
  - cbn [List.length] in Hn. inversion Hv as [|? ? Hv0 Hvs]; subst.
    destruct (AdvanceSwapChainIndex_from (Z.of_nat k) v r w ltac:(lia) ltac:(lia)
                HQ HF Hi Hc)
      as (r1 & Hrun & HF1 & Hi1 & Hc1 & Hl1 & Ht1 & Hd1 & Hf1 & Hs1 & Hb1 & _).
    replace (Z.of_nat k + 1) with (Z.of_nat (S k)) in Hi1, Hc1 by lia.
    replace (Z.of_nat k) with (Z.max 0 (Z.of_nat (S k) - 1)) in Hc1 by lia.
    assert (Hn' : Z.of_nat (S k + List.length vs) < 2 ^ 64).
    { replace (S k + List.length vs)%nat with (k + S (List.length vs))%nat
        by (symmetry; apply Nat.add_succ_comm). exact Hn. }
    destruct (IH (S k) r1 w Hn' Hvs HQ HF1 Hi1 Hc1)
      as (r' & Hrun' & Hi' & Hl' & Hs' & Hb' & Ht' & Hd' & Hf').
    exists r'. unfold advance_all in *. cbn [foldM].
    rewrite (bind_Ret _ _ _ _ _ Hrun). split; [exact Hrun'|].
    split; [rewrite Hi'; f_equal; cbn [List.length]; lia|].
    split.
    { rewrite Hl', Hl1, <- app_assoc. f_equal.
      cbn [List.length seq combine flat_map fst snd].
      destruct (Z.ltb_spec v (Z.max 0 (Z.of_nat k - 1)));
        destruct (Z.ltb_spec v (Z.of_nat k - 1)); try lia; cbn [app];
        [|reflexivity].
      replace (Z.max 0 (Z.of_nat k - 1)) with (Z.of_nat k - 1) by lia.
      reflexivity. }
    split_all; congruence.
Qed.

(** X14.  From the start ([currentBackBufferIndex] 0, the counters of the
    frame fence 0), the [k]-th call of [Graphics::AdvanceSwapChainIndex]
    ([k] = 0, 1, ...) signals the value [k] and moves to the other back
    buffer; it waits, for the value [k - 1] (the one signalled at the end of
    the frame that last drew into that buffer), exactly when the fence has
    not reached it yet.  It touches neither the buffers nor the device. *)
Theorem X14_frames_in_flight :
  forall (completed : list Z) (r : Rest) (w : World),
    CommandQueue (graphics w) = Some tt ->
    FrameSyncFence r = Some tt ->
    currentBackBufferIndex r = 0 ->
    FrameSyncFenceCounters r = [0; 0] ->
    Forall (fun v => 0 <= v) completed ->
    Z.of_nat (List.length completed) < 2 ^ 64 ->
    exists r',
      advance_all completed r w = Ret r' w
      /\ currentBackBufferIndex r' = Z.of_nat (List.length completed) mod 2
      /\ rest_calls r'
         = rest_calls r ++
           flat_map
             (fun kv : nat * Z =>
                FrameSyncFence_Signal (Z.of_nat (fst kv)) ::
                (if snd kv <? Z.of_nat (fst kv) - 1
                 then [FrameSyncFence_Wait (Z.of_nat (fst kv) - 1)] else []))
             (combine (seq 0 (List.length completed)) completed)
      /\ SwapChain r' = SwapChain r
      /\ BackBuffers r' = BackBuffers r.
Proof.
  intros completed r w HQ HF Hi Hc Hv Hn.
  destruct (advance_all_from completed 0 r w Hn Hv HQ HF Hi Hc)
    as (r' & Hrun & Hi' & Hl & Hs & Hb & _).
  exists r'. split_all; assumption.
Qed.

Ltac step' := rewrite (bind_Ret _ _ _ _ _) by prim; norm; norm_rest.

Ltac run' := repeat first [rewrite bind_assoc | step'].

Lemma advance_to_zero_at_zero fuel completed r :
  currentBackBufferIndex r = 0 ->
  Graphics'.advance_to_zero fuel completed r = ret (Some r).
Proof. intros H. destruct fuel; cbn; rewrite H; reflexivity. Qed.

Lemma advance_to_zero_step fuel completed r :
  currentBackBufferIndex r <> 0 ->
  Graphics'.advance_to_zero (S fuel) completed r
  = (r' <- Graphics'.AdvanceSwapChainIndex (completed O) r ;;
     Graphics'.advance_to_zero fuel (fun n => completed (S n)) r').
Proof.
  intros H. cbn [Graphics'.advance_to_zero].
  destruct (Z.eqb_spec (currentBackBufferIndex r) 0); [contradiction|].
  reflexivity.
Qed.

(** The two are run by their lemmas, one call at a time. *)
#[local] Arguments Graphics'.advance_to_zero : simpl never.
#[local] Arguments Graphics'.AdvanceSwapChainIndex : simpl never.

(** [Graphics::ResizeBuffers] on an initialised API, in full. *)
Lemma ResizeBuffers_effect fuel D width height r w :
  (1 <= fuel)%nat ->
  apiInitialized (graphics w) = true ->
  Device (graphics w) = Some tt ->
  CommandQueue (graphics w) = Some tt ->
  SwapChain r = Some tt ->
  RTVHeap r = Some tt ->
  DSVHeap r = Some tt ->
  FrameSyncFence r = Some tt ->
  List.length (BackBuffers r) = 2%nat ->
  List.length (RTVHandles r) = 2%nat ->
  List.length (FrameSyncFenceCounters r) = 2%nat ->
  currentBackBufferIndex r = 0 \/ currentBackBufferIndex r = 1 ->
  let c := WaitFenceCounter (graphics w) in
  exists r' w',
    Graphics'.ResizeBuffers P fuel D width height r w = Ret (Some r') w'
    /\ currentBackBufferIndex r' = 0
    /\ BackBuffers r' = [GetBuffer D 0; GetBuffer D 1]
    /\ RTVHandles r'
       = [ u64 (RTVHeap_GetCPUDescriptorHandleForHeapStart D);
           add64 (RTVHeap_GetCPUDescriptorHandleForHeapStart D)
                 (u64 (RTVDescriptorHandleIncrementSize D)) ]
    /\ DepthBuffer r'
       = Some (depth_texture P (created (device w)) width height)
    /\ DSVHandle r' = DSVHeap_GetCPUDescriptorHandleForHeapStart D
    /\ isFullscreen r' = GetFullscreenState D
    /\ supportsTearing r' = supportsTearing r
    /\ vsyncDesired r' = vsyncDesired r
    /\ SwapChain r' = Some tt
    /\ FrameSyncFence r' = Some tt
    /\ List.length (FrameSyncFenceCounters r') = 2%nat
    /\ (exists between,
          rest_calls r'
          = rest_calls r ++
            [ SwapChain_ResizeBuffers 2 width height
                (if supportsTearing r
                 then DXGI_SWAP_CHAIN_FLAG_ALLOW_TEARING else 0);
              SwapChain_GetBuffer 0;
              SwapChain_GetBuffer 1 ] ++ between ++
            [ SwapChain_GetFullscreenState ]
          /\ (currentBackBufferIndex r = 0 -> between = []))
    /\ graphics w'
       = set_WaitFenceCounter (add64 (add64 c 1) 1) (graphics w)
    /\ raytracing w' = raytracing w
    /\ created (device w') = S (created (device w))
    /\ memory (device w') = memory (device w)
    /\ Window_Width w' = Window_Width w
    /\ Window_Height w' = Window_Height w
    /\ trace w' = trace w ++
         [ QueueSignal (add64 c 1);
           WaitForFence (add64 c 1);
           GetDescriptorHandleIncrementSize;
           CreateRenderTargetView 0;
           CreateRenderTargetView 1;
           CreateCommittedResource D3D12_HEAP_TYPE_DEFAULT
             (GetDesc (depth_texture P (created (device w)) width height))
             D3D12_RESOURCE_STATE_DEPTH_WRITE;
           CreateDepthStencilView;
           QueueSignal (add64 (add64 c 1) 1);
           WaitForFence (add64 (add64 c 1) 1) ].
Proof.
  intros Hfuel Hinit HD HQ HS HR HV HF Hb Hh Hc Hi. cbn zeta.
  destruct r as [st vd fs idx sc bb rh rhs db dh dhd ff cs lg].
  cbn in HS, HR, HV, HF, Hb, Hh, Hc, Hi. subst sc rh dh ff.
  destruct bb as [|b0 [|b1 [|? ?]]]; try discriminate Hb.
  destruct rhs as [|h0 [|h1 [|? ?]]]; try discriminate Hh.
  destruct cs as [|c0 [|c1 [|? ?]]]; try discriminate Hc.
  destruct fuel as [|fuel]; [lia|].
  assert (H0 : mul64 (u64 (RTVDescriptorHandleIncrementSize D)) (u64 0) = 0)
    by (unfold mul64, u64; rewrite Z.mul_0_r; reflexivity).
  assert (H1 : mul64 (u64 (RTVDescriptorHandleIncrementSize D)) (u64 1)
               = u64 (RTVDescriptorHandleIncrementSize D))
    by (unfold mul64, u64; rewrite Z.mul_1_r, Z.mod_mod by lia; reflexivity).
  assert (H2 : add64 (RTVHeap_GetCPUDescriptorHandleForHeapStart D) 0
               = u64 (RTVHeap_GetCPUDescriptorHandleForHeapStart D))
    by (unfold add64; rewrite Z.add_0_r; reflexivity).
  assert (Hnext : add32 1 1 mod Graphics.NumBackBuffers = 0)
    by (vm_compute; reflexivity).
  destruct Hi as [Hi|Hi]; subst idx.
  - unfold Graphics'.ResizeBuffers, Graphics.WaitForGPU,
      CreateCommittedResource_.
    step. rewrite Hinit. norm. run'.
    eexists. eexists. split; [reflexivity|]. unfold trace. norm.
    rewrite H0, H1, H2, ?Hinit, <- ?app_assoc.
    split_all; try reflexivity.
    exists []. split; reflexivity.
  - unfold Graphics'.ResizeBuffers, Graphics.WaitForGPU,
      CreateCommittedResource_.
    step. rewrite Hinit. norm. run'.
    rewrite advance_to_zero_step by (cbn; lia).
    unfold Graphics'.AdvanceSwapChainIndex. run'.
    rewrite !Hnext. norm.
    destruct (GetCompletedValue D 0 <? c0); norm_rest;
      rewrite advance_to_zero_at_zero by reflexivity; run';
      (eexists; eexists; split; [reflexivity|]); unfold trace; norm;
      rewrite H0, H1, H2, ?Hinit, <- ?app_assoc; split_all; try reflexivity.
    + exists [FrameSyncFence_Signal c1; FrameSyncFence_Wait c0].
      split; [|intros HH; discriminate HH]. reflexivity.
    + exists [FrameSyncFence_Signal c1].
      split; [|intros HH; discriminate HH]. reflexivity.
Qed.

(** X15.  [Graphics::ResizeBuffers] does nothing before the API is
    initialised.  After that it leaves the swap chain at back buffer 0,
    whichever one was current: its loop runs at most once (any fuel from 1
    on is enough).  Both back buffers are the swap chain's new ones, the
    depth buffer is a new texture of the size asked for, the swap chain is
    resized with the tearing flag exactly when tearing is supported, and the
    GPU is waited for before and after. *)
Theorem X15_ResizeBuffers_ends_at_buffer_zero :
  forall (fuel : nat) (D : Display) (width height : Z) (r : Rest) (w : World),
    (1 <= fuel)%nat ->
    Device (graphics w) = Some tt ->
    CommandQueue (graphics w) = Some tt ->
    SwapChain r = Some tt ->
    RTVHeap r = Some tt ->
    DSVHeap r = Some tt ->
    FrameSyncFence r = Some tt ->
    List.length (BackBuffers r) = 2%nat ->
    List.length (RTVHandles r) = 2%nat ->
    List.length (FrameSyncFenceCounters r) = 2%nat ->
    currentBackBufferIndex r = 0 \/ currentBackBufferIndex r = 1 ->
    (apiInitialized (graphics w) = false ->
     Graphics'.ResizeBuffers P fuel D width height r w = Ret (Some r) w)
    /\ (apiInitialized (graphics w) = true ->
        exists r' w',
          Graphics'.ResizeBuffers P fuel D width height r w = Ret (Some r') w'
          /\ currentBackBufferIndex r' = 0
          /\ BackBuffers r' = [GetBuffer D 0; GetBuffer D 1]
          /\ DepthBuffer r'
             = Some (depth_texture P (created (device w)) width height)
          /\ isFullscreen r' = GetFullscreenState D
          /\ (exists between,
                rest_calls r'
                = rest_calls r ++
                  [ SwapChain_ResizeBuffers 2 width height
                      (if supportsTearing r
                       then DXGI_SWAP_CHAIN_FLAG_ALLOW_TEARING else 0);
                    SwapChain_GetBuffer 0;
                    SwapChain_GetBuffer 1 ] ++ between ++
                  [ SwapChain_GetFullscreenState ]
                /\ (currentBackBufferIndex r = 0 -> between = []))
          /\ signalled (trace w')
             = signalled (trace w) ++
               [ add64 (WaitFenceCounter (graphics w)) 1;
                 add64 (add64 (WaitFenceCounter (graphics w)) 1) 1 ]
          /\ raytracing w' = raytracing w).
Proof.
  intros fuel D width height r w Hfuel HD HQ HS HR HV HF Hb Hh Hc Hi.
  split.
  { intros Hinit. unfold Graphics'.ResizeBuffers. step. rewrite Hinit.
    reflexivity. }
  intros Hinit.
  destruct (ResizeBuffers_effect fuel D width height r w Hfuel Hinit HD HQ HS
              HR HV HF Hb Hh Hc Hi)
    as (r' & w' & Hrun & Hidx & Hbb & _ & Hdb & _ & Hfs & _ & _ & _ & _ & _
        & Hlog & _ & Hrt & _ & _ & _ & _ & Htr).
  exists r', w'. split_all; try assumption.
  rewrite Htr, signalled_app. reflexivity.
Qed.

(** X16.  When the ray tracer is ready, [Game::Draw] resets the allocator
    and the command list of the current back buffer, traces one frame whose
    image is copied into that back buffer, presents and moves to the other
    back buffer.  It presents with [DXGI_PRESENT_ALLOW_TEARING] and sync
    interval 0 exactly when tearing is supported, vsync is not asked for and
    the window is not fullscreen; otherwise with interval 1 and no flag. *)
Theorem X16_Draw_presents_the_current_back_buffer :
  forall (sceneData : list Byte.byte) (completedValue : Z) (r : Rest)
         (w : World) (heap tlas table : ID3D12Resource),
    FrameReady heap tlas table w ->
    CommandList (graphics w) = Some tt ->
    SwapChain r = Some tt ->
    FrameSyncFence r = Some tt ->
    List.length (BackBuffers r) = 2%nat ->
    List.length (FrameSyncFenceCounters r) = 2%nat ->
    currentBackBufferIndex r = 0 \/ currentBackBufferIndex r = 1 ->
    let i := currentBackBufferIndex r in
    let bb := nth (Z.to_nat i) (BackBuffers r) None in
    let tearing :=
      (supportsTearing r && negb (vsyncDesired r) && negb (isFullscreen r))%bool
    in
    exists r' w' frame waits,
      Game_Draw P sceneData completedValue r w = Ret r' w'
      /\ currentBackBufferIndex r' = 1 - i
      /\ BackBuffers r' = BackBuffers r
      /\ trace w' = trace w ++
           CommandAllocatorReset i :: CommandListReset i :: frame
      /\ dispatched frame
         = [ RayTracing.dispatchDesc (GetGPUVirtualAddress table)
               (ShaderTableRecordSize (raytracing w))
               (Window_Width w) (Window_Height w) ]
      /\ In (CopyResource (Get bb) (Get (RaytracingOutput (raytracing w))))
            frame
      /\ rest_calls r'
         = rest_calls r ++
           SwapChain_Present (if tearing then 0 else 1)
             (if tearing then DXGI_PRESENT_ALLOW_TEARING else 0) ::
           FrameSyncFence_Signal
             (nth (Z.to_nat i) (FrameSyncFenceCounters r) 0) :: waits
      /\ waits
         = (let next := nth (Z.to_nat (1 - i)) (FrameSyncFenceCounters r) 0 in
            if completedValue <? next then [FrameSyncFence_Wait next] else [])
      /\ FrameReady heap tlas table w'.
Proof.
  intros sceneData completedValue r w heap tlas table Hready HL HS HF Hb Hc Hi.
  cbn zeta.
  destruct r as [st vd fs idx sc bb rh rhs db dh dhd ff cs lg].
  cbn in HS, HF, Hb, Hc, Hi. subst sc ff.
  destruct bb as [|b0 [|b1 [|? ?]]]; try discriminate Hb.
  destruct cs as [|c0 [|c1 [|? ?]]]; try discriminate Hc.
  cbn [supportsTearing vsyncDesired isFullscreen currentBackBufferIndex
       BackBuffers FrameSyncFenceCounters rest_calls].
  assert (Hnext : add32 1 1 mod Graphics.NumBackBuffers = 0)
    by (vm_compute; reflexivity).
  assert (Hnext0 : add32 0 1 mod Graphics.NumBackBuffers = 1)
    by (vm_compute; reflexivity).
  assert (Hv : Graphics'.VsyncState
                 {| supportsTearing := st; vsyncDesired := vd;
                    isFullscreen := fs; currentBackBufferIndex := idx;
                    SwapChain := Some tt; BackBuffers := [b0; b1];
                    RTVHeap := rh; RTVHandles := rhs; DepthBuffer := db;
                    DSVHeap := dh; DSVHandle := dhd;
                    FrameSyncFence := Some tt;
                    FrameSyncFenceCounters := [c0; c1]; rest_calls := lg |}
               = negb (st && negb vd && negb fs)).
  { unfold Graphics'.VsyncState. cbn. destruct st, vd, fs; reflexivity. }
  unfold Game_Draw, Graphics.ResetAllocatorAndCommandList,
    Graphics'.SwapChainIndex.
  rewrite Hv. clear Hv.
  destruct Hi as [Hi|Hi]; subst idx.
  - run'.
    match goal with
    | |- context [bind (RayTracing.Raytrace P ?d ?b) _ ?W] =>
        destruct (Raytrace_frame P d b W heap tlas table)
          as (w1 & loc & size & dest & cb & Hrun & Hready1 & Hr & Hww & Hwh
              & Htr);
          [unfold FrameReady in *; norm; exact Hready|];
          rewrite (bind_Ret _ _ _ _ _ Hrun)
    end.
    destruct Hready1 as (Hi1 & Ha1 & HL1 & HD1 & HH1 & HU1 & HQ1 & HT1 & HS1).
    unfold Graphics'.AdvanceSwapChainIndex. run'.
    rewrite !Hnext0. change (Pos.to_nat 1) with 1%nat. cbn -[bind].
    unfold trace in *. norm_rest.
    destruct (st && negb vd && negb fs)%bool;
      destruct (completedValue <? c1); norm_rest;
      (eexists; exists w1; eexists; eexists;
       split; [reflexivity|]; norm_rest; rewrite Htr; norm;
       rewrite <- ?app_assoc; split_all; try reflexivity;
       [ repeat first [left; reflexivity | right]
       | unfold FrameReady; split_all; assumption ]).
  - run'.
    match goal with
    | |- context [bind (RayTracing.Raytrace P ?d ?b) _ ?W] =>
        destruct (Raytrace_frame P d b W heap tlas table)
          as (w1 & loc & size & dest & cb & Hrun & Hready1 & Hr & Hww & Hwh
              & Htr);
          [unfold FrameReady in *; norm; exact Hready|];
          rewrite (bind_Ret _ _ _ _ _ Hrun)
    end.
    destruct Hready1 as (Hi1 & Ha1 & HL1 & HD1 & HH1 & HU1 & HQ1 & HT1 & HS1).
    unfold Graphics'.AdvanceSwapChainIndex. run'.
    rewrite !Hnext. change (Pos.to_nat 1) with 1%nat. cbn -[bind].
    unfold trace in *. norm_rest.
    destruct (st && negb vd && negb fs)%bool;
      destruct (completedValue <? c0); norm_rest;
      (eexists; exists w1; eexists; eexists;
       split; [reflexivity|]; norm_rest; rewrite Htr; norm;
       rewrite <- ?app_assoc; split_all; try reflexivity;
       [ repeat first [left; reflexivity | right]
       | unfold FrameReady; split_all; assumption ]).
Qed.




End SwapChain.

(* ================================================================= *)
(** ** Static buffers and the textures of a material *)

Section StaticData.
Variable P : Platform.

Let cpuStart := GetCPUDescriptorHandleForHeapStart P.
Let gpuStart := GetGPUDescriptorHandleForHeapStart P.


End StaticData.

(* ================================================================= *)
(** ** [Material]: adding textures, then finalising them *)

Lemma length_update {A} (i : nat) (v : A) (a : list A) :
  List.length (update i v a) = List.length a.
Proof.
  revert i. induction a as [|x a IH]; intros [|i]; cbn; try reflexivity.
  rewrite IH. reflexivity.
Qed.

Lemma nth_update_same {A} (i : nat) (v d : A) (a : list A) :
  (i < List.length a)%nat -> nth i (update i v a) d = v.
Proof.
  revert i. induction a as [|x a IH]; intros [|i] H; cbn in *; try lia.
  - reflexivity.
  - apply IH. lia.
Qed.

Lemma nth_update_other {A} (i j : nat) (v d : A) (a : list A) :
  i <> j -> nth j (update i v a) d = nth j a d.
Proof.
  revert i j. induction a as [|x a IH]; intros [|i] [|j] H; cbn;
    try reflexivity; try congruence.
  apply IH. congruence.
Qed.

Ltac unfold_material_setters :=
  cbv beta iota delta
    [set_materialTexturesFinalized set_highestSRVSlot set_textureSRVsBySlot
     set_finalGPUHandleForSRVs
     materialTexturesFinalized highestSRVSlot textureSRVsBySlot
     finalGPUHandleForSRVs].

(** One addition, case by case. *)
Lemma AddTexture_cases h s m :
  materialTexturesFinalized m = false ->
  (0 <= s < 128
   /\ Material_.AddTexture h s m
      = set_highestSRVSlot (Z.max (highestSRVSlot m) s)
          (set_textureSRVsBySlot
             (update (Z.to_nat s) h (textureSRVsBySlot m)) m))
  \/ ((s < 0 \/ 128 <= s) /\ Material_.AddTexture h s m = m).
Proof.
  intros Hf. unfold Material_.AddTexture. rewrite Hf. cbn [orb].
  destruct (Z.ltb_spec s 0); cbn [orb]; [right; split; [lia|reflexivity]|].
  destruct (Z.geb_spec s 128); [right; split; [lia|reflexivity]|].
  left. split; [lia|]. destruct m; reflexivity.
Qed.

Lemma add_all_from adds : forall m,
  materialTexturesFinalized m = false ->
  List.length (textureSRVsBySlot m) = 128%nat ->
  -1 <= highestSRVSlot m < 128 ->
  let m' := add_all adds m in
  materialTexturesFinalized m' = false
  /\ List.length (textureSRVsBySlot m') = 128%nat
  /\ highestSRVSlot m <= highestSRVSlot m' < 128
  /\ finalGPUHandleForSRVs m' = finalGPUHandleForSRVs m
  /\ (forall h s, In (h, s) adds -> 0 <= s < 128 -> s <= highestSRVSlot m')
  /\ (highestSRVSlot m' = highestSRVSlot m
      \/ exists h, In (h, highestSRVSlot m') adds)
  /\ (forall s, 0 <= s -> (forall h, ~ In (h, s) adds) ->
        nth (Z.to_nat s) (textureSRVsBySlot m') 0
        = nth (Z.to_nat s) (textureSRVsBySlot m) 0)
  /\ (forall adds1 h s adds2,
        adds = adds1 ++ (h, s) :: adds2 ->
        0 <= s < 128 ->
        (forall h', ~ In (h', s) adds2) ->
        nth (Z.to_nat s) (textureSRVsBySlot m') 0 = h).
Proof.
  induction adds as [|[h0 s0] adds IH]; intros m Hf Hl Hh; cbn zeta.
  - unfold add_all. cbn. split_all; try reflexivity; try assumption; try lia.
    intros [|? ?] h s adds2 E; discriminate E.
  - change (add_all ((h0, s0) :: adds) m)
      with (add_all adds (Material_.AddTexture h0 s0 m)).
    assert (H1 : materialTexturesFinalized (Material_.AddTexture h0 s0 m) = false
                 /\ List.length (textureSRVsBySlot (Material_.AddTexture h0 s0 m))
                    = 128%nat
                 /\ highestSRVSlot m
                    <= highestSRVSlot (Material_.AddTexture h0 s0 m) < 128
                 /\ finalGPUHandleForSRVs (Material_.AddTexture h0 s0 m)
                    = finalGPUHandleForSRVs m
                 /\ (0 <= s0 < 128 ->
                     s0 <= highestSRVSlot (Material_.AddTexture h0 s0 m)
                     /\ nth (Z.to_nat s0)
                          (textureSRVsBySlot (Material_.AddTexture h0 s0 m)) 0
                        = h0)
                 /\ (highestSRVSlot (Material_.AddTexture h0 s0 m)
                     = highestSRVSlot m
                     \/ highestSRVSlot (Material_.AddTexture h0 s0 m) = s0)
                 /\ (forall s, 0 <= s -> s <> s0 ->
                       nth (Z.to_nat s)
                         (textureSRVsBySlot (Material_.AddTexture h0 s0 m)) 0
                       = nth (Z.to_nat s) (textureSRVsBySlot m) 0)).
    { destruct (AddTexture_cases h0 s0 m Hf) as [(Hs & E)|(Hs & E)]; rewrite E.
      - unfold_material_setters. destruct m as [f hi arr fin]. cbn in *.
        rewrite length_update. split_all; try assumption; try lia.
        + intros _. split; [lia|]. apply nth_update_same. lia.
        + intros s Hs0 Hne. apply nth_update_other. lia.
      - split_all; try assumption; try lia; try reflexivity. }
    destruct H1 as (Hf1 & Hl1 & Hh1 & Hg1 & Hs1 & Hm1 & Ho1).
    destruct (IH (Material_.AddTexture h0 s0 m) Hf1 Hl1 ltac:(lia))
      as (Hf' & Hl' & Hh' & Hg' & Hin' & Hm' & Ho' & Hlast').
    split_all; try assumption; try lia.
    + intros h s [E|Hin] Hv.
      * inversion E; subst. destruct (Hs1 Hv). lia.
      * apply (Hin' h s Hin Hv).
    + destruct Hm' as [E|(h & Hin)].
      * rewrite E. destruct Hm1 as [E1|E1]; [left; exact E1|].
        right. exists h0. left. rewrite E1. reflexivity.
      * right. exists h. right. exact Hin.
    + intros s Hs Hnot. rewrite Ho'.
      * apply Ho1; [exact Hs|]. intros E. subst. apply (Hnot h0). left.
        reflexivity.
      * exact Hs.
      * intros h Hin. apply (Hnot h). right. exact Hin.
    + intros [|a adds1] h s adds2 E Hv Hnot.
      * cbn in E. inversion E; subst.
        rewrite Ho' by (try lia; exact Hnot). apply Hs1. exact Hv.
      * cbn in E. inversion E; subst.
        apply (Hlast' adds1 h s adds2 eq_refl Hv Hnot).
Qed.

(** X18.  After any run of [Material::AddTexture] on a new material: slot
    [s] of the 128 holds the handle of the last addition to [s], and a slot
    nothing was added to holds the null handle; additions to slots outside
    0..127 leave no trace; the highest slot is that of an addition, at least
    every valid slot added to, and -1 when there was none. *)
Theorem X18_AddTexture_keeps_the_last_handle_of_a_slot :
  forall (adds : list (Z * Z)),
    let m := add_all adds Material_.new in
    List.length (textureSRVsBySlot m) = 128%nat
    /\ materialTexturesFinalized m = false
    /\ -1 <= highestSRVSlot m < 128
    /\ (forall h s, In (h, s) adds -> 0 <= s < 128 -> s <= highestSRVSlot m)
    /\ (highestSRVSlot m = -1 \/ exists h, In (h, highestSRVSlot m) adds)
    /\ (forall s, 0 <= s -> (forall h, ~ In (h, s) adds) ->
          nth (Z.to_nat s) (textureSRVsBySlot m) 0 = 0)
    /\ (forall adds1 h s adds2,
          adds = adds1 ++ (h, s) :: adds2 ->
          0 <= s < 128 ->
          (forall h', ~ In (h', s) adds2) ->
          nth (Z.to_nat s) (textureSRVsBySlot m) 0 = h).
Proof.
  intros adds. cbn zeta.
  destruct (add_all_from adds Material_.new eq_refl eq_refl ltac:(cbn; lia))
    as (Hf & Hl & Hh & _ & Hin & Hm & Ho & Hlast).
  cbn [Material_.new highestSRVSlot] in Hh, Hm.
  split_all; try assumption; try lia.
  intros s Hs Hnot. rewrite (Ho s Hs Hnot).
  cbn [Material_.new textureSRVsBySlot].
  destruct (Nat.lt_ge_cases (Z.to_nat s) 128) as [Hlt|Hge].
  - apply nth_repeat_lt. exact Hlt.
  - apply nth_overflow. rewrite repeat_length. exact Hge.
Qed.

Section Materials.
Variable P : Platform.

Let cpuStart := GetCPUDescriptorHandleForHeapStart P.
Let gpuStart := GetGPUDescriptorHandleForHeapStart P.

(** One copy into the shader-visible heap. *)
Lemma CopySRVs_effect src num r w :
  CBVSRVDescriptorHeap (graphics w) = Some tt ->
  Device (graphics w) = Some tt ->
  let srv := srvDescriptorOffset (graphics w) in
  let incr := cbvSrvDescriptorHeapIncrementSize (graphics w) in
  exists w',
    Graphics'.CopySRVsToDescriptorHeapAndGetGPUDescriptorHandle P src num r w
    = Ret (slot_handle gpuStart srv incr,
           log (CopyDescriptorsSimple num (slot_handle cpuStart srv incr) src)
             r) w'
    /\ CBVSRVDescriptorHeap (graphics w') = Some tt
    /\ Device (graphics w') = Some tt
    /\ srvDescriptorOffset (graphics w') = add32 srv num
    /\ cbvSrvDescriptorHeapIncrementSize (graphics w') = incr
    /\ device w' = device w
    /\ raytracing w' = raytracing w.
Proof.
  intros HH HD. cbn zeta.
  unfold Graphics'.CopySRVsToDescriptorHeapAndGetGPUDescriptorHandle.
  run. eexists. split; [reflexivity|]. norm.
  split_all; first [assumption | reflexivity].
Qed.

Lemma finalize_loop n : forall (k : nat) (m : Material) (r : Rest) (w : World)
    (s0 : Z),
  CBVSRVDescriptorHeap (graphics w) = Some tt ->
  Device (graphics w) = Some tt ->
  srvDescriptorOffset (graphics w) = s0 + Z.of_nat k ->
  0 <= s0 ->
  s0 + Z.of_nat k + Z.of_nat n < 2 ^ 32 ->
  (k + n <= List.length (textureSRVsBySlot m))%nat ->
  let incr := cbvSrvDescriptorHeapIncrementSize (graphics w) in
  exists m' r' w',
    foldM (map Z.of_nat (seq k n))
      (fun i (mr : Material * Rest) =>
         let (m, r) := mr in
         src <- index (textureSRVsBySlot m) i ;;
         copied <- Graphics'.CopySRVsToDescriptorHeapAndGetGPUDescriptorHandle
                     P src 1 r ;;
         let (gpuHandle, r) := copied in
         let m := if i =? 0 then set_finalGPUHandleForSRVs gpuHandle m
                  else m in
         ret (m, r))
      (m, r) w
    = Ret (m', r') w'
    /\ CBVSRVDescriptorHeap (graphics w') = Some tt
    /\ Device (graphics w') = Some tt
    /\ srvDescriptorOffset (graphics w') = s0 + Z.of_nat k + Z.of_nat n
    /\ cbvSrvDescriptorHeapIncrementSize (graphics w') = incr
    /\ device w' = device w
    /\ raytracing w' = raytracing w
    /\ rest_calls r'
       = rest_calls r ++
         map (fun i : nat =>
                CopyDescriptorsSimple 1
                  (slot_handle cpuStart (s0 + Z.of_nat i) incr)
                  (nth i (textureSRVsBySlot m) 0))
             (seq k n)
    /\ textureSRVsBySlot m' = textureSRVsBySlot m
    /\ highestSRVSlot m' = highestSRVSlot m
    /\ materialTexturesFinalized m' = materialTexturesFinalized m
    /\ finalGPUHandleForSRVs m'
       = (if ((k =? 0)%nat && negb (n =? 0)%nat)%bool
          then slot_handle gpuStart s0 incr
          else finalGPUHandleForSRVs m).
Proof.
  induction n as [|n IH]; intros k m r w s0 HH HD Hs H0 Hlt Hlen; cbn zeta.
  - exists m, r, w. cbn [seq map foldM]. rewrite andb_false_r, app_nil_r.
    split_all; try reflexivity; try assumption. lia.
  - cbn [seq map foldM].
    destruct (nth_error (textureSRVsBySlot m) k) as [src|] eqn:Hsrc;
      [|apply nth_error_None in Hsrc; lia].
    rewrite (bind_assoc _ _ _ w).
    rewrite (bind_Ret _ _ _ _ _
               (index_Some _ (Z.of_nat k) src w ltac:(lia)
                  ltac:(rewrite Nat2Z.id; exact Hsrc))).
    destruct (CopySRVs_effect src 1 r w HH HD)
      as (w1 & Hrun & HH1 & HD1 & Hs1 & Hi1 & Hd1 & Hr1).
    rewrite (bind_assoc _ _ _ w).
    rewrite (bind_Ret _ _ _ _ _ Hrun). cbn -[bind].
    rewrite Hs in Hs1.
    assert (Hs1' : srvDescriptorOffset (graphics w1) = s0 + Z.of_nat (S k)).
    { rewrite Hs1. unfold add32. rewrite u32_small by (unfold is_u32; lia).
      lia. }
    set (m1 := if Z.of_nat k =? 0
               then set_finalGPUHandleForSRVs
                      (slot_handle gpuStart
                         (srvDescriptorOffset (graphics w))
                         (cbvSrvDescriptorHeapIncrementSize (graphics w))) m
               else m).
    assert (Hm1 : textureSRVsBySlot m1 = textureSRVsBySlot m
                  /\ highestSRVSlot m1 = highestSRVSlot m
                  /\ materialTexturesFinalized m1 = materialTexturesFinalized m
                  /\ finalGPUHandleForSRVs m1
                     = (if (k =? 0)%nat
                        then slot_handle gpuStart s0
                               (cbvSrvDescriptorHeapIncrementSize (graphics w))
                        else finalGPUHandleForSRVs m)).
    { subst m1. destruct k as [|k]; cbn [Z.of_nat Z.eqb Nat.eqb].
      - rewrite Hs, Z.add_0_r. destruct m as [f hi arr fin].
        split_all; reflexivity.
      - split_all; reflexivity. }
    destruct Hm1 as (Ha1 & Hh1 & Hf1 & Hg1).
    destruct (IH (S k) m1
                (log (CopyDescriptorsSimple 1
                        (slot_handle cpuStart
                           (srvDescriptorOffset (graphics w))
                           (cbvSrvDescriptorHeapIncrementSize (graphics w)))
                        src) r)
                w1 s0 HH1 HD1 Hs1' H0 ltac:(lia)
                ltac:(rewrite Ha1; lia))
      as (m' & r' & w' & Hrun' & HH' & HD' & Hs' & Hi' & Hd' & Hr' & Hl' & Ha'
          & Hh' & Hf' & Hg').
    exists m', r', w'. split; [exact Hrun'|].
    rewrite Hi1 in *.
    split_all; try assumption; try congruence.
    + rewrite Hs'. lia.
    + rewrite Hl'. unfold log at 1. cbn [rest_calls set_rest_calls].
      rewrite <- app_assoc. cbn [app]. rewrite Hs.
      f_equal. f_equal.
      * f_equal. symmetry. apply nth_error_nth. exact Hsrc.
      * apply map_ext. intros i. rewrite Ha1. reflexivity.
    + rewrite Hg'. cbn [Nat.eqb andb negb]. rewrite Hg1.
      destruct k; reflexivity.
Qed.

(** X19.  [Material::FinalizeTextures] copies the descriptors of the slots
    0 .. [highestSRVSlot], the ones nothing was added to included, one by
    one to consecutive slots of the shader-visible heap from the SRV cursor
    on, which it leaves [highestSRVSlot + 1] further; the handle it keeps is
    the GPU handle of the first of them (none without a texture).  After
    that a second call and any [AddTexture] do nothing. *)
Theorem X19_FinalizeTextures_copies_the_slots_in_a_row :
  forall (m : Material) (r : Rest) (w : World),
    materialTexturesFinalized m = false ->
    List.length (textureSRVsBySlot m) = 128%nat ->
    -1 <= highestSRVSlot m < 128 ->
    CBVSRVDescriptorHeap (graphics w) = Some tt ->
    Device (graphics w) = Some tt ->
    0 <= srvDescriptorOffset (graphics w) ->
    srvDescriptorOffset (graphics w) + highestSRVSlot m + 1 < 2 ^ 32 ->
    let srv := srvDescriptorOffset (graphics w) in
    let incr := cbvSrvDescriptorHeapIncrementSize (graphics w) in
    exists m' r' w',
      Material_.FinalizeTextures P m r w = Ret (m', r') w'
      /\ materialTexturesFinalized m' = true
      /\ textureSRVsBySlot m' = textureSRVsBySlot m
      /\ finalGPUHandleForSRVs m'
         = (if highestSRVSlot m <? 0 then finalGPUHandleForSRVs m
            else slot_handle gpuStart srv incr)
      /\ srvDescriptorOffset (graphics w') = srv + highestSRVSlot m + 1
      /\ rest_calls r'
         = rest_calls r ++
           map (fun i : nat =>
                  CopyDescriptorsSimple 1
                    (slot_handle cpuStart (srv + Z.of_nat i) incr)
                    (nth i (textureSRVsBySlot m) 0))
               (seq 0 (Z.to_nat (highestSRVSlot m + 1)))
      /\ trace w' = trace w
      /\ Material_.FinalizeTextures P m' r' w' = Ret (m', r') w'
      /\ (forall h s, Material_.AddTexture h s m' = m').
Proof.
  intros m r w Hf Hl Hh HH HD H0 Hlt. cbn zeta.
  destruct (finalize_loop (Z.to_nat (highestSRVSlot m + 1)) 0 m r w
              (srvDescriptorOffset (graphics w)) HH HD
              ltac:(cbn; lia) H0 ltac:(cbn; lia) ltac:(lia))
    as (m' & r' & w' & Hrun & _ & _ & Hs' & _ & Hd' & _ & Hl' & Ha' & Hh' & Hf'
        & Hg').
  unfold Material_.FinalizeTextures at 1. rewrite Hf.
  rewrite (bind_Ret _ _ _ _ _ Hrun). cbn -[bind].
  eexists. exists r', w'. split; [reflexivity|].
  unfold set_materialTexturesFinalized.
  cbn [materialTexturesFinalized textureSRVsBySlot finalGPUHandleForSRVs
       highestSRVSlot].
  split_all; try reflexivity.
  - exact Ha'.
  - rewrite Hg'.
    destruct (Z.ltb_spec (highestSRVSlot m) 0) as [Hneg|Hpos].
    + replace (Z.to_nat (highestSRVSlot m + 1)) with 0%nat by lia. reflexivity.
    + destruct (Z.to_nat (highestSRVSlot m + 1)) eqn:E; [lia|]. reflexivity.
  - rewrite Hs'. lia.
  - exact Hl'.
  - unfold trace. rewrite Hd'. reflexivity.
Qed.

End Materials.

(* ================================================================= *)
(** ** [Input]: keys across frames *)

Lemma nth_firstn_app {A} (n i : nat) (a b : list A) (d : A) :
  (i < n)%nat -> (n <= List.length a)%nat ->
  nth i (firstn n a ++ b) d = nth i a d.
Proof.
  intros Hi Hn. rewrite app_nth1 by (rewrite length_firstn; lia).
  clear Hn b. revert i a Hi.
  induction n as [|n IH]; intros i a Hi; [lia|].
  destruct a as [|x a]; [reflexivity|].
  destruct i as [|i]; [reflexivity|].
  cbn [firstn nth]. apply IH. lia.
Qed.

Lemma high_bit_firstn_app (a b : list Z) (key : Z) :
  0 <= key <= 255 -> (256 <= List.length a)%nat ->
  Input.high_bit (firstn 256 a ++ b) key = Input.high_bit a key.
Proof.
  intros Hk Ha. unfold Input.high_bit.
  rewrite nth_firstn_app by lia. reflexivity.
Qed.

Lemma out_of_range_false (key : Z) :
  0 <= key <= 255 -> Input.out_of_range key = false.
Proof.
  intros Hk. unfold Input.out_of_range.
  destruct (Z.ltb_spec key 0); [lia|].
  destruct (Z.gtb_spec key 255); [lia|]. reflexivity.
Qed.

Ltac unfold_input_setters :=
  cbv beta iota delta
    [Input.set_kbState Input.set_prevKbState Input.set_mouseX
     Input.set_mouseY Input.set_prevMouseX Input.set_prevMouseY
     Input.set_mouseXDelta Input.set_mouseYDelta Input.set_keyboardCaptured
     Input.set_mouseCaptured
     Input.kbState Input.prevKbState Input.mouseX Input.mouseY
     Input.prevMouseX Input.prevMouseY Input.mouseXDelta Input.mouseYDelta
     Input.keyboardCaptured Input.mouseCaptured].

(** What [Update] leaves of the keys. *)
Lemma Update_keys keys cursor s s' kb :
  Input.Update keys cursor s = Some s' ->
  Input.kbState s = Some kb ->
  (256 <= List.length kb)%nat ->
  (forall k, keys = Some k -> (256 <= List.length k)%nat) ->
  exists kb' prev',
    Input.kbState s' = Some kb'
    /\ Input.prevKbState s' = Some prev'
    /\ (256 <= List.length kb')%nat
    /\ (forall key, 0 <= key <= 255 ->
          Input.high_bit prev' key = Input.high_bit kb key
          /\ Input.high_bit kb' key
             = Input.high_bit (match keys with Some k => k | None => kb end)
                 key)
    /\ Input.keyboardCaptured s' = Input.keyboardCaptured s
    /\ Input.mouseCaptured s' = Input.mouseCaptured s.
Proof.
  unfold Input.Update. intros H Hkb Hl Hk.
  destruct s as [kb0 prev mx my pmx pmy dx dy kc mc].
  unfold Input.kbState in Hkb. subst kb0.
  revert H. unfold_input_setters.
  destruct prev as [prev|]; [|discriminate].
  destruct keys as [k|]; intros H; injection H as <-.
  - exists (firstn 256 k ++ skipn 256 kb), (firstn 256 kb ++ skipn 256 prev).
    split; [reflexivity|]. split; [reflexivity|].
    specialize (Hk k eq_refl).
    split; [rewrite length_app, length_firstn; lia|].
    split; [|split; reflexivity].
    intros key Hkey. split; apply high_bit_firstn_app; assumption.
  - exists kb, (firstn 256 kb ++ skipn 256 prev).
    split; [reflexivity|]. split; [reflexivity|].
    split; [exact Hl|]. split; [|split; reflexivity].
    intros key Hkey. split; [|reflexivity].
    apply high_bit_firstn_app; assumption.
Qed.

(** [Update] runs whenever both arrays are allocated. *)
Lemma Update_runs keys cursor s kb prev :
  Input.kbState s = Some kb ->
  Input.prevKbState s = Some prev ->
  exists s', Input.Update keys cursor s = Some s'.
Proof.
  intros Hkb Hp. unfold Input.Update. rewrite Hp, Hkb.
  eexists. reflexivity.
Qed.

(** X20.  After two frames, [Input::KeyPress] holds for a key exactly when
    the key is down in the second frame's keyboard state and was up in the
    first one's (and the keyboard is not captured); [Input::KeyRelease] the
    other way round; [Input::KeyDown] and [Input::KeyUp] look at the second
    frame only.  So a press implies down, and no key is both pressed and
    released. *)
Theorem X20_press_and_release_compare_two_frames :
  forall (keys1 keys2 : list Z) (cursor1 cursor2 : Z * Z) (key : Z)
         (kb : list Z) (s s1 s2 : Input.State),
    Input.kbState s = Some kb ->
    List.length kb = 256%nat ->
    Input.Update (Some keys1) cursor1 s = Some s1 ->
    Input.Update (Some keys2) cursor2 s1 = Some s2 ->
    List.length keys1 = 256%nat ->
    List.length keys2 = 256%nat ->
    0 <= key <= 255 ->
    let now := Input.high_bit keys2 key in
    let before := Input.high_bit keys1 key in
    let free := negb (Input.keyboardCaptured s) in
    Input.KeyDown key s2 = Some (now && free)%bool
    /\ Input.KeyUp key s2 = Some (negb now && free)%bool
    /\ Input.KeyPress key s2 = Some (now && negb before && free)%bool
    /\ Input.KeyRelease key s2 = Some (negb now && before && free)%bool
    /\ (Input.KeyPress key s2 = Some true ->
        Input.KeyDown key s2 = Some true
        /\ Input.KeyRelease key s2 = Some false).
Proof.
  intros keys1 keys2 cursor1 cursor2 key kb s s1 s2 Hkb Hl H1 H2 Hl1 Hl2 Hk.
  cbn zeta.
  destruct (Update_keys _ _ _ _ kb H1 Hkb ltac:(lia))
    as (kb1 & prev1 & Hkb1 & _ & Hlen1 & Hbits1 & Hc1 & _).
  { intros k E. inversion E; subst. lia. }
  destruct (Update_keys _ _ _ _ kb1 H2 Hkb1 Hlen1)
    as (kb2 & prev2 & Hkb2 & Hp2 & _ & Hbits2 & Hc2 & _).
  { intros k E. inversion E; subst. lia. }
  destruct (Hbits1 key Hk) as (_ & Hb1).
  destruct (Hbits2 key Hk) as (Hb2p & Hb2).
  unfold Input.KeyDown, Input.KeyUp, Input.KeyPress, Input.KeyRelease.
  rewrite (out_of_range_false key Hk), Hkb2, Hp2, Hc2, Hc1, Hb2, Hb2p, Hb1.
  destruct (Input.high_bit keys2 key), (Input.high_bit keys1 key),
    (Input.keyboardCaptured s); split_all; try reflexivity;
    intros H; try discriminate H; split; reflexivity.
Qed.


(** X22.  [Input::GetKeyArray] refuses a size outside 1..256 and leaves the
    caller's array alone.  Otherwise it fills the first [size] entries with
    the keys that are down, captured keyboard or not (so [KeyDown] is that
    entry and the capture flag), keeps the entries behind them and the
    length of the array. *)
Theorem X22_GetKeyArray_fills_the_first_entries :
  forall (keyArray : list bool) (size : Z) (kb : list Z) (s : Input.State),
    Input.kbState s = Some kb ->
    (Z.to_nat size <= List.length keyArray)%nat ->
    (size <= 0 \/ 256 < size ->
     Input.GetKeyArray keyArray size s = Some (false, keyArray))
    /\ (0 < size <= 256 ->
        exists out,
          Input.GetKeyArray keyArray size s = Some (true, out)
          /\ List.length out = List.length keyArray
          /\ (forall i, 0 <= i < size ->
                Input.KeyDown i s
                = Some (nth (Z.to_nat i) out false
                        && negb (Input.keyboardCaptured s))%bool)
          /\ (forall i, (Z.to_nat size <= i)%nat ->
                nth i out false = nth i keyArray false)).
Proof.
  intros keyArray size kb s Hkb Hlen. unfold Input.GetKeyArray. split.
  - intros Hs.
    destruct (Z.leb_spec size 0); [reflexivity|].
    destruct (Z.gtb_spec size 256); [reflexivity|]. lia.
  - intros Hs.
    destruct (Z.leb_spec size 0); [lia|].
    destruct (Z.gtb_spec size 256); [lia|]. cbn [orb]. rewrite Hkb.
    eexists. split; [reflexivity|]. split_all.
    + rewrite length_app, length_map, length_seq, length_skipn. lia.
    + intros i Hi. unfold Input.KeyDown.
      rewrite out_of_range_false by lia. rewrite Hkb. f_equal. f_equal.
      rewrite app_nth1 by (rewrite length_map, length_seq; lia).
      rewrite nth_indep with (d' := Input.high_bit kb (Z.of_nat 0))
        by (rewrite length_map, length_seq; lia).
      rewrite (map_nth (fun i => Input.high_bit kb (Z.of_nat i))).
      rewrite seq_nth by lia. cbn [Nat.add]. rewrite Z2Nat.id by lia.
      reflexivity.
    + intros i Hi.
      rewrite app_nth2 by (rewrite length_map, length_seq; lia).
      rewrite length_map, length_seq, nth_skipn. f_equal. lia.
Qed.

(** X23.  Keys outside 0..255 are never down, up, pressed or released, and
    asking does not even need the key arrays; with the keyboard captured no
    key is; otherwise every key is either down or up.  The capture of the
    keyboard does not silence the mouse buttons, nor that of the mouse the
    keys. *)
Theorem X23_capture_and_key_range :
  forall (key : Z) (s : Input.State),
    (key < 0 \/ 255 < key ->
     Input.KeyDown key s = Some false /\ Input.KeyUp key s = Some false
     /\ Input.KeyPress key s = Some false
     /\ Input.KeyRelease key s = Some false)
    /\ (forall kb prev,
          Input.kbState s = Some kb -> Input.prevKbState s = Some prev ->
          (Input.keyboardCaptured s = true ->
           Input.KeyDown key s = Some false /\ Input.KeyUp key s = Some false
           /\ Input.KeyPress key s = Some false
           /\ Input.KeyRelease key s = Some false)
          /\ (Input.keyboardCaptured s = false -> 0 <= key <= 255 ->
              exists down,
                Input.KeyDown key s = Some down
                /\ Input.KeyUp key s = Some (negb down))
          /\ (forall b,
                Input.MouseLeftDown (Input.SetKeyboardCapture b s)
                = Input.MouseLeftDown s
                /\ Input.KeyDown key (Input.SetMouseCapture b s)
                   = Input.KeyDown key s)).
Proof.
  intros key s. split.
  - intros Hk.
    assert (Ho : Input.out_of_range key = true).
    { unfold Input.out_of_range.
      destruct (Z.ltb_spec key 0); [reflexivity|].
      destruct (Z.gtb_spec key 255); [reflexivity|]. lia. }
    unfold Input.KeyDown, Input.KeyUp, Input.KeyPress, Input.KeyRelease.
    rewrite Ho. split_all; reflexivity.
  - intros kb prev Hkb Hp. split_all.
    + intros Hc.
      unfold Input.KeyDown, Input.KeyUp, Input.KeyPress, Input.KeyRelease.
      rewrite Hkb, Hp, Hc.
      destruct (Input.out_of_range key), (Input.high_bit kb key),
        (Input.high_bit prev key); cbn; split_all; reflexivity.
    + intros Hc Hk. unfold Input.KeyDown, Input.KeyUp.
      rewrite (out_of_range_false key Hk), Hkb, Hc.
      eexists. split; [reflexivity|].
      destruct (Input.high_bit kb key); reflexivity.
    + intros b. destruct s as [k p mx my pmx pmy dx dy kc mc]. cbn in *.
      subst. split; reflexivity.
Qed.

(* ================================================================= *)
(** ** [PathHelpers]: the directory of the executable *)

Lemma strrchr_app_last (a b : string) (c : Ascii.ascii) :
  strrchr b c = None ->
  strrchr (a ++ String c b) c = Some (String.length a).
Proof.
  intros Hb. induction a as [|x a IH]; cbn.
  - rewrite Hb, Ascii.eqb_refl. reflexivity.
  - rewrite IH. reflexivity.
Qed.

Lemma substring_prefix (a b : string) :
  substring 0 (String.length a) (a ++ b) = a.
Proof.
  induction a as [|x a IH]; cbn.
  - destruct b; reflexivity.
  - rewrite IH. reflexivity.
Qed.

(** X24.  When the path of the module is a directory, a backslash and a
    file name without one, [GetExePath] is that directory, and [FixPath] of
    the file name gives the path of the module back; [FixPath] of any other
    relative path puts it under that directory.  Without any backslash in
    the module's path, [GetExePath] is the current directory with its
    backslash, after which [FixPath] puts a second one. *)
Theorem X24_FixPath_is_relative_to_the_executable :
  forall (dir file relativeFilePath : string),
    strrchr file backslash = None ->
    let module := (dir ++ "\" ++ file)%string in
    GetExePath module = dir
    /\ FixPath module file = module
    /\ FixPath module relativeFilePath
       = (dir ++ "\" ++ relativeFilePath)%string
    /\ GetExePath file = ".\"%string
    /\ FixPath file relativeFilePath = (".\\" ++ relativeFilePath)%string.
Proof.
  intros dir file rel Hfile. cbn zeta.
  change ("\" ++ file)%string with (String backslash file).
  assert (Hexe : GetExePath (dir ++ String backslash file) = dir).
  { unfold GetExePath. rewrite (strrchr_app_last dir file backslash Hfile).
    apply substring_prefix. }
  assert (Hexe' : GetExePath file = ".\"%string).
  { unfold GetExePath. rewrite Hfile. reflexivity. }
  unfold FixPath. rewrite Hexe, Hexe'. split_all; reflexivity.
Qed.

(* ================================================================= *)
(** ** The further theorems at work on the sample machine *)

Lemma X2_upload_writes_only_the_reservation_witness :
  exists h w' start,
    Graphics.FillNextConstantBufferAndGetGPUDescriptorHandle sample_platform
      sample_sceneData world_after_startup = Ret h w'
    /\ read (memory (device w')) 1 start 76 = sample_sceneData
    /\ start mod 256 = 0.
Proof.
  destruct (X2_upload_writes_only_the_reservation sample_platform
              sample_sceneData world_after_startup sample_upload_heap)
    as (h & w' & start & Hrun & Hread & _ & _ & Hmod & _).
  - unfold AllocatorInv. cbn zeta. split_all; by_computation.
  - reflexivity.
  - reflexivity.
  - reflexivity.
  - unfold is_u32. cbn. lia.
  - exists h, w', start. split_all; assumption.
Defined.

Lemma X3_small_blocks_cycle_witness :
  exists w',
    fill_all sample_platform
      [sample_sceneData; sample_sceneData; sample_sceneData]
      world_after_startup = Ret tt w'
    /\ cbvDescriptorOffset (graphics w') = 3.
Proof.
  destruct (X3_small_blocks_cycle sample_platform
              [sample_sceneData; sample_sceneData; sample_sceneData]
              world_after_startup sample_upload_heap)
    as (w' & Hrun & Hcur & _); try reflexivity.
  - repeat constructor; cbn; lia.
  - exists w'. split; [exact Hrun|exact Hcur].
Defined.

Lemma X4_WaitForGPU_signals_fresh_values_witness :
  exists w',
    wait_n 3 world_after_startup = Ret tt w'
    /\ signalled (trace w')
       = signalled (trace world_after_startup) ++ [2; 3; 4].
Proof.
  destruct (X4_WaitForGPU_signals_fresh_values 3 world_after_startup)
    as (w' & Hrun & _ & Hsig & _).
  - reflexivity.
  - vm_compute. discriminate.
  - vm_compute. reflexivity.
  - exists w'. split; [exact Hrun|exact Hsig].
Defined.

Lemma X5_reserved_slots_are_consecutive_and_distinct_witness :
  exists w' slots,
    reserve_n sample_platform 3 world_after_startup = Ret slots w'
    /\ NoDup (map fst slots)
    /\ srvDescriptorOffset (graphics w') = 1004.
Proof.
  destruct (X5_reserved_slots_are_consecutive_and_distinct sample_platform 3
              world_after_startup)
    as (w' & slots & Hrun & _ & Hnd & _ & Hsrv & _); [by_computation ..|].
  exists w', slots. split_all; assumption.
Defined.

Lemma X6_second_Initialize_rebuilds_only_the_output_witness :
  exists w1 w2,
    RayTracing.Initialize sample_platform 1280 720 "Raytracing.cso"
      world_after_graphics = Ret S_OK w1
    /\ RayTracing.Initialize sample_platform 800 600 "Other.cso" w1
       = Ret S_OK w2
    /\ ShaderTable (raytracing w2) = ShaderTable (raytracing w1)
    /\ output_size w2 = Some (800, 600).
Proof.
  destruct (X6_second_Initialize_rebuilds_only_the_output sample_platform
              1280 720 800 600 "Raytracing.cso" "Other.cso"
              world_after_graphics
              (sample_identifier Byte.x01) (sample_identifier Byte.x02)
              (sample_identifier Byte.x03))
    as (w1 & w2 & Hrun1 & Hrun2 & _ & Htable & _ & _ & _ & _ & _ & _ & Hsize
        & _); try reflexivity.
  - by_computation.
  - exists w1, w2. split_all; assumption.
Defined.


Lemma X8_frames_run_after_Game_Initialize_witness :
  exists w1 w2,
    Game_Initialize sample_platform "Raytracing.cso" triangle_mesh
      world_after_graphics = Ret tt w1
    /\ raytrace_all sample_platform
         [(sample_sceneData, None); (sample_sceneData, None)] w1 = Ret tt w2
    /\ output_size w1 = Some (1280, 720)
    /\ List.length (dispatched (trace w2)) = 2%nat.
Proof.
  destruct (X8_frames_run_after_Game_Initialize sample_platform
              "Raytracing.cso" triangle_mesh triangle_vertex_buffer
              triangle_index_buffer sample_upload_heap world_after_graphics
              (sample_identifier Byte.x01) (sample_identifier Byte.x02)
              (sample_identifier Byte.x03))
    as (w1 & table & tlas & Hrun & _ & _ & _ & Hsize & Hframes);
    try reflexivity.
  destruct (Hframes [(sample_sceneData, None); (sample_sceneData, None)])
    as (w2 & Hrun2 & _ & Hd).
  exists w1, w2. split_all; try assumption.
  rewrite Hd. reflexivity.
Defined.

Lemma X9_BLAS_is_built_as_it_was_sized_witness :
  exists w' scratch blas,
    RayTracing.CreateBLAS sample_platform triangle_mesh world_after_startup
    = Ret tt w'
    /\ BLASScratchBuffer (raytracing w') = Some scratch
    /\ BLAS (raytracing w') = Some blas
    /\ res_id scratch <> res_id blas.
Proof.
  destruct (X9_BLAS_is_built_as_it_was_sized sample_platform triangle_mesh
              triangle_vertex_buffer triangle_index_buffer
              (shader_table_resource sample_platform 2) world_after_startup)
    as (w' & scratch & blas & inputs & after & Hrun & Hs & Hb & Hne & _).
  - unfold BLASReady. split_all; reflexivity.
  - exists w', scratch, blas. split_all; assumption.
Defined.

Lemma X10_TLAS_instance_is_the_BLAS_witness :
  exists w' instances,
    RayTracing.CreateTLAS sample_platform
      (world_of (RayTracing.CreateBLAS sample_platform triangle_mesh
                   world_after_startup))
    = Ret tt w'
    /\ TLASInstanceDescBuffer (raytracing w') = Some instances
    /\ le_combine (read (memory (device w')) (res_id instances) 56 8)
       = 65536 * 6.
Proof.
  destruct (X10_TLAS_instance_is_the_BLAS sample_platform
              (accel_buffer sample_platform 5 1024)
              (world_of (RayTracing.CreateBLAS sample_platform triangle_mesh
                           world_after_startup)))
    as (w' & instances & scratch & tlas & before & after & Hrun & Hi & _ & _
        & _ & (Haddr & _) & _).
  - unfold TLASReady. split_all; reflexivity.
  - cbn. lia.
  - exists w', instances. split_all; assumption.
Defined.

Lemma X11_frame_restores_resource_states_witness :
  exists w' new st',
    RayTracing.Raytrace sample_platform sample_sceneData None world_after_scene
    = Ret tt w'
    /\ trace w' = trace world_after_scene ++ new
    /\ follow new sample_states = Some st'
    /\ st' (Some 3%nat) = D3D12_RESOURCE_STATE_COPY_SOURCE
    /\ st' None = D3D12_RESOURCE_STATE_PRESENT.
Proof.
  destruct (X11_frame_restores_resource_states sample_platform
              sample_sceneData None sample_upload_heap
              (accel_buffer sample_platform 8 512)
              (shader_table_resource sample_platform 2)
              world_after_scene sample_states)
    as (w' & new & st' & Hrun & Htr & Hf & Hst).
  - unfold FrameReady. split_all; reflexivity.
  - vm_compute. discriminate.
  - reflexivity.
  - reflexivity.
  - exists w', new, st'. split_all; try assumption.
    + rewrite Hst. reflexivity.
    + rewrite Hst. reflexivity.
Defined.

Lemma X12_unreadable_shader_library_stops_Initialize_witness :
  exists w',
    RayTracing.Initialize sample_platform_unreadable 1280 720 "Raytracing.cso"
      world_after_graphics = Crash w'
    /\ dxrAvailable (raytracing w') = true
    /\ dxrInitialized (raytracing w') = false.
Proof.
  destruct (X12_unreadable_shader_library_stops_Initialize
              sample_platform_unreadable 1280 720 "Raytracing.cso"
              world_after_graphics)
    as (w' & Hrun & Ha & Hi & _); try reflexivity.
  exists w'. split_all; assumption.
Defined.


Lemma X14_frames_in_flight_witness :
  exists r',
    advance_all [0; 0; 0; 2] sample_rest world_after_startup
    = Ret r' world_after_startup
    /\ currentBackBufferIndex r' = 0
    /\ rest_calls r'
       = [ FrameSyncFence_Signal 0; FrameSyncFence_Signal 1;
           FrameSyncFence_Signal 2; FrameSyncFence_Wait 1;
           FrameSyncFence_Signal 3 ].
Proof.
  destruct (X14_frames_in_flight [0; 0; 0; 2] sample_rest world_after_startup)
    as (r' & Hrun & Hidx & Hlog & _); try reflexivity.
  - repeat constructor; lia.
  - exists r'. split; [exact Hrun|]. split; [exact Hidx|exact Hlog].
Defined.

Lemma X15_ResizeBuffers_ends_at_buffer_zero_witness :
  exists r' w',
    Graphics'.ResizeBuffers sample_platform 1 sample_display 800 600
      (set_currentBackBufferIndex 1 sample_rest) world_after_scene
    = Ret (Some r') w'
    /\ currentBackBufferIndex r' = 0
    /\ DepthBuffer r' = Some (depth_texture sample_platform 9 800 600).
Proof.
  destruct (X15_ResizeBuffers_ends_at_buffer_zero sample_platform 1
              sample_display 800 600
              (set_currentBackBufferIndex 1 sample_rest) world_after_scene)
    as (_ & Hresize); try reflexivity.
  - right. reflexivity.
  - destruct Hresize as (r' & w' & Hrun & Hidx & _ & Hdepth & _);
      [reflexivity|].
    exists r', w'. split; [exact Hrun|]. split; [exact Hidx|exact Hdepth].
Defined.

Lemma X16_Draw_presents_the_current_back_buffer_witness :
  exists r' w',
    Game_Draw sample_platform sample_sceneData 0 sample_rest world_after_scene
    = Ret r' w'
    /\ currentBackBufferIndex r' = 1
    /\ rest_calls r'
       = [ SwapChain_Present 0 DXGI_PRESENT_ALLOW_TEARING;
           FrameSyncFence_Signal 0 ].
Proof.
  destruct (X16_Draw_presents_the_current_back_buffer sample_platform
              sample_sceneData 0 sample_rest world_after_scene
              sample_upload_heap (accel_buffer sample_platform 8 512)
              (shader_table_resource sample_platform 2))
    as (r' & w' & frame & waits & Hrun & Hidx & _ & _ & _ & _ & Hlog & Hw & _);
    try reflexivity.
  - unfold FrameReady. split_all; reflexivity.
  - left. reflexivity.
  - exists r', w'. split; [exact Hrun|]. split; [exact Hidx|].
    rewrite Hlog, Hw. reflexivity.
Defined.


Lemma X18_AddTexture_keeps_the_last_handle_of_a_slot_witness :
  highestSRVSlot (add_all [(20480, 0); (20544, 2); (7, 128); (20608, 2)]
                    Material_.new) = 2
  /\ nth 2 (textureSRVsBySlot
              (add_all [(20480, 0); (20544, 2); (7, 128); (20608, 2)]
                 Material_.new)) 0 = 20608.
Proof.
  destruct (X18_AddTexture_keeps_the_last_handle_of_a_slot
              [(20480, 0); (20544, 2); (7, 128); (20608, 2)])
    as (_ & _ & _ & _ & _ & _ & Hlast).
  split; [reflexivity|].
  apply (Hlast [(20480, 0); (20544, 2); (7, 128)] 20608 2 []).
  - reflexivity.
  - lia.
  - intros h' [].
Defined.

Lemma X19_FinalizeTextures_copies_the_slots_in_a_row_witness :
  exists m' r' w',
    Material_.FinalizeTextures sample_platform sample_material sample_rest
      world_after_startup = Ret (m', r') w'
    /\ materialTexturesFinalized m' = true
    /\ srvDescriptorOffset (graphics w') = 1004
    /\ List.length (rest_calls r') = 3%nat.
Proof.
  destruct (X19_FinalizeTextures_copies_the_slots_in_a_row sample_platform
              sample_material sample_rest world_after_startup)
    as (m' & r' & w' & Hrun & Hf & _ & _ & Hsrv & Hlog & _);
    try reflexivity.
  - vm_compute. split; [discriminate|reflexivity].
  - vm_compute. discriminate.
  - exists m', r', w'. split; [exact Hrun|]. split; [exact Hf|].
    split; [exact Hsrv|]. rewrite Hlog. reflexivity.
Defined.

Lemma X20_press_and_release_compare_two_frames_witness :
  exists s1 s2,
    Input.Update (Some no_key_down) (10, 20) Input.Initialize = Some s1
    /\ Input.Update (Some W_down) (12, 20) s1 = Some s2
    /\ Input.KeyPress 87 s2 = Some true
    /\ Input.KeyDown 87 s2 = Some true
    /\ Input.KeyRelease 87 s2 = Some false.
Proof.
  destruct (Update_runs (Some no_key_down) (10, 20) Input.Initialize
              (repeat 0 256) (repeat 0 256) eq_refl eq_refl) as (s1 & H1).
  destruct (Update_keys _ _ _ _ (repeat 0 256) H1 eq_refl)
    as (kb1 & prev1 & Hkb1 & Hp1 & _);
    [rewrite repeat_length; apply Nat.le_refl
    |intros k E; injection E as <-; unfold no_key_down;
     rewrite repeat_length; apply Nat.le_refl|].
  destruct (Update_runs (Some W_down) (12, 20) s1 kb1 prev1 Hkb1 Hp1)
    as (s2 & H2).
  destruct (X20_press_and_release_compare_two_frames no_key_down W_down
              (10, 20) (12, 20) 87 (repeat 0 256) Input.Initialize s1 s2
              eq_refl (repeat_length 0 256) H1 H2)
    as (Hd & _ & Hp & Hr & _).
  - unfold no_key_down. apply repeat_length.
  - unfold W_down. rewrite length_update. apply repeat_length.
  - lia.
  - exists s1, s2. split; [exact H1|]. split; [exact H2|].
    split; [exact Hp|]. split; [exact Hd|exact Hr].
Defined.


Lemma X22_GetKeyArray_fills_the_first_entries_witness :
  Input.GetKeyArray (repeat false 8) 0 Input.Initialize
  = Some (false, repeat false 8)
  /\ exists out,
       Input.GetKeyArray (repeat false 8) 4 Input.Initialize = Some (true, out)
       /\ List.length out = 8%nat.
Proof.
  split.
  - apply (proj1 (X22_GetKeyArray_fills_the_first_entries (repeat false 8) 0
                    (repeat 0 256) Input.Initialize eq_refl
                    ltac:(cbn; lia))).
    left. lia.
  - destruct (proj2 (X22_GetKeyArray_fills_the_first_entries (repeat false 8) 4
                       (repeat 0 256) Input.Initialize eq_refl
                       ltac:(cbn; lia)))
      as (out & Hrun & Hlen & _); [lia|].
    exists out. split; [exact Hrun|exact Hlen].
Defined.

Lemma X23_capture_and_key_range_witness :
  Input.KeyDown 256 Input.Initialize = Some false
  /\ Input.KeyPress (-1) Input.Initialize = Some false.
Proof.
  split.
  - apply (proj1 (X23_capture_and_key_range 256 Input.Initialize)). right. lia.
  - apply (proj1 (X23_capture_and_key_range (-1) Input.Initialize)). left. lia.
Defined.

Lemma X24_FixPath_is_relative_to_the_executable_witness :
  GetExePath "C:\Game\x64\Game.exe" = "C:\Game\x64"%string
  /\ FixPath "C:\Game\x64\Game.exe" "Raytracing.cso"
     = "C:\Game\x64\Raytracing.cso"%string.
Proof.
  destruct (X24_FixPath_is_relative_to_the_executable "C:\Game\x64" "Game.exe"
              "Raytracing.cso")
    as (Hexe & _ & Hfix & _); [reflexivity|].
  split; [exact Hexe|exact Hfix].
Defined.

